(** * gyptest.py: the GYP test runner

  A shallow embedding of [gyptest.py] and the properties of its test
  discovery, argument handling, run loop and report.

  Strings are [string]s whose characters stand for code points below 256.
  The two output streams are lists of the chunks written to them, in
  order: [print(s)] writes the chunk [s] followed by a newline,
  [sys.stderr.write(s)] writes [s] as it is.  Child processes, the file
  system, the clock, the platform and the parser of the command line are
  the environment of the script: they are the fields of the record
  [Host]. *)

From Stdlib Require Import ZArith Ascii SpecFloat.
From stdpp Require Import base tactics option list gmap strings pretty sorting.


(** ** Python's [str] methods used by the script *)

Module Py.

Definition code (c : ascii) : nat := nat_of_ascii c.

(** [s.startswith(p)] and [s.endswith(p)]. *)
Definition startswith (s p : string) : bool := String.prefix p s.
Fixpoint endswith (s p : string) : bool :=
  bool_decide (s = p)
  || match s with
     | EmptyString => false
     | String _ s' => endswith s' p
     end.

(** Characters removed by [str.strip()]: the code points below 256 on
    which [str.isspace] holds. *)
Definition isspace (c : ascii) : bool :=
  let n := code c in
  ((9 <=? n) && (n <=? 13)) || ((28 <=? n) && (n <=? 32))
  || (n =? 133) || (n =? 160).

Fixpoint lstrip (s : string) : string :=
  match s with
  | EmptyString => EmptyString
  | String c s' => if isspace c then lstrip s' else s
  end.

Fixpoint rstrip (s : string) : string :=
  match s with
  | EmptyString => EmptyString
  | String c s' =>
      match rstrip s' with
      | EmptyString => if isspace c then EmptyString else String c EmptyString
      | r => String c r
      end
  end.

Definition strip (s : string) : string := rstrip (lstrip s).

(** Line boundaries of [str.splitlines()] among the code points below 256. *)
Definition is_linebreak (c : ascii) : bool :=
  let n := code c in
  ((10 <=? n) && (n <=? 13)) || ((28 <=? n) && (n <=? 30)) || (n =? 133).

Definition cons_line (c : ascii) (ls : list string) : list string :=
  match ls with
  | [] => [String c EmptyString]
  | l :: ls' => String c l :: ls'
  end.

(** [s.splitlines()]: a carriage return followed by a line feed is one
    boundary; no empty last line is produced after a final boundary. *)
Fixpoint splitlines (s : string) : list string :=
  match s with
  | EmptyString => []
  | String c s' =>
      if is_linebreak c then
        EmptyString ::
          match s' with
          | String c2 s'' =>
              if (code c =? 13) && (code c2 =? 10) then splitlines s''
              else splitlines s'
          | EmptyString => splitlines s'
          end
      else cons_line c (splitlines s')
  end.

(** [s.split(sep)] for a one-character separator. *)
Fixpoint split (sep : ascii) (s : string) : list string :=
  match s with
  | EmptyString => [EmptyString]
  | String c s' =>
      if Ascii.eqb c sep then EmptyString :: split sep s'
      else cons_line c (split sep s')
  end.

(** [sep.join(l)]. *)
Definition join (sep : string) (l : list string) : string :=
  String.concat sep l.

(** ['%d' % n] for a natural number. *)
Definition fmt_d (n : nat) : string := pretty n.

(** [sorted(l)] and [l.sort()] on strings: the order is the
    lexicographic order on code points. *)
Definition sorted (l : list string) : list string :=
  merge_sort String.le l.

(** ['%.3f' % x] for a binary64 float [x]: the decimal expansion of the
    exact value, rounded to three places, ties to even. *)
Definition thousandths (m : positive) (e : Z) : N :=
  let num := (Z.pos m * 1000)%Z in
  if (0 <=? e)%Z then Z.to_N (num * 2 ^ e)
  else
    let den := (2 ^ (- e))%Z in
    let q := (num `div` den)%Z in
    let r := (num `mod` den)%Z in
    Z.to_N (if (den <? 2 * r)%Z || ((den =? 2 * r)%Z && Z.odd q)
            then q + 1 else q)%Z.

Definition digits3 (n : N) : string :=
  String (pretty_N_char (N.modulo (N.div n 100) 10))
    (String (pretty_N_char (N.modulo (N.div n 10) 10))
       (String (pretty_N_char (N.modulo n 10)) EmptyString)).

Definition sign (s : bool) : string := if s then "-" else "".

Definition fmt_3f (x : spec_float) : string :=
  match x with
  | S754_zero s => sign s +:+ "0.000"
  | S754_infinity s => sign s +:+ "inf"
  | S754_nan => "nan"
  | S754_finite s m e =>
      let n := thousandths m e in
      sign s +:+ pretty (N.div n 1000) +:+ "." +:+ digits3 (N.modulo n 1000)
  end.

(** Subtraction of binary64 floats. *)
Definition fsub (x y : spec_float) : spec_float := SFsub 53 1024 x y.

End Py.

(** ** [os.path] on a POSIX host *)

Module OsPath.

Definition sep : ascii := "/"%char.

(** [os.path.basename(p)]: what follows the last slash. *)
Definition basename (p : string) : string :=
  List.last (Py.split sep p) EmptyString.

(** [os.path.join(a, b)]. *)
Definition join (a b : string) : string :=
  if Py.startswith b "/" then b
  else if bool_decide (a = "") || Py.endswith a "/" then a +:+ b
  else a +:+ "/" +:+ b.

(** One step of the component loop of [os.path.normpath]; the kept
    components are held last first. *)
Definition norm_step (initial_slashes : nat) (kept : list string)
    (comp : string) : list string :=
  if bool_decide (comp = "") || bool_decide (comp = ".") then kept
  else if negb (bool_decide (comp = ".."))
          || (bool_decide (initial_slashes = 0) && bool_decide (kept = []))
          || bool_decide (head kept = Some "..")
       then comp :: kept
       else tail kept.

(** [os.path.normpath(path)]. *)
Definition normpath (path : string) : string :=
  if bool_decide (path = "") then "."
  else
    let initial_slashes :=
      if Py.startswith path "/" then
        if Py.startswith path "//" && negb (Py.startswith path "///")
        then 2 else 1
      else 0 in
    let comps := fold_left (norm_step initial_slashes)
                   (Py.split sep path) [] in
    let p := Py.join "/" (reverse comps) in
    let p := Py.join "" (replicate initial_slashes "/") +:+ p in
    if bool_decide (p = "") then "." else p.

(** [os.path.abspath(p)] with current directory [cwd]. *)
Definition abspath (cwd p : string) : string := normpath (join cwd p).

End OsPath.

(** ** Test names and test discovery *)

Definition is_test_name (f : string) : bool :=
  Py.startswith f "gyptest" && Py.endswith f ".py".

(** A directory as [os.walk] sees it: its entries in listing order, the
    sub-directories with their own content. *)
#[warnings="-register-all"]
Inductive entry : Type :=
  | File (name : string)
  | Subdir (name : string) (content : list entry).

Definition filenames (es : list entry) : list string :=
  flat_map (fun e => match e with File f => [f] | Subdir _ _ => [] end) es.

Definition dirnames (es : list entry) : list string :=
  flat_map (fun e => match e with File _ => [] | Subdir d _ => [d] end) es.

(** What [os.walk] yields for one entry of the directory [top]. *)
Fixpoint walk_entry (top : string) (e : entry)
    : list (string * list string * list string) :=
  match e with
  | File _ => []
  | Subdir d c =>
      let root := OsPath.join top d in
      (root, dirnames c, filenames c) :: flat_map (walk_entry root) c
  end.

(** [os.walk(top)] on a directory with entries [es], top-down. *)
Definition os_walk (top : string) (es : list entry)
    : list (string * list string * list string) :=
  (top, dirnames es, filenames es) :: flat_map (walk_entry top) es.

(** The paths that one step of the walk adds to [result]. *)
Definition step_paths (step : string * list string * list string)
    : list string :=
  let '(root, _, files) := step in
  map (OsPath.join root) (filter (fun f => is_test_name f = true) files).

(** [result] before it is sorted: the loop of [find_all_gyptest_files]
    over what [os.walk] yields. *)
Definition walk_result (walk : list (string * list string * list string))
    : list string :=
  fold_left (fun result step => result ++ step_paths step) walk [].

(** [find_all_gyptest_files(directory)], the directory having entries [es]. *)
Definition find_all_gyptest_files (directory : string) (es : list entry)
    : list string :=
  Py.sorted (walk_result (os_walk directory es)).

(** The files of a tree: [file_in top es f p] when a file named [f] lies
    in the tree with entries [es] and [p] is its path from [top]. *)
Inductive file_in : string -> list entry -> string -> string -> Prop :=
  | file_here top es f :
      File f ∈ es -> file_in top es f (OsPath.join top f)
  | file_below top es d c f p :
      Subdir d c ∈ es -> file_in (OsPath.join top d) c f p ->
      file_in top es f p.

(** The same tree listed in another order. *)
Inductive same_tree : list entry -> list entry -> Prop :=
  | same_refl es : same_tree es es
  | same_swap e1 e2 es : same_tree (e1 :: e2 :: es) (e2 :: e1 :: es)
  | same_cons e es es' : same_tree es es' -> same_tree (e :: es) (e :: es')
  | same_subdir d c c' es :
      same_tree c c' -> same_tree (Subdir d c :: es) (Subdir d c' :: es)
  | same_trans es1 es2 es3 :
      same_tree es1 es2 -> same_tree es2 es3 -> same_tree es1 es3.

(** The paths that one entry of the directory [top] contributes. *)
Definition entry_paths (top : string) (e : entry) : list string :=
  match e with
  | File f => if is_test_name f then [OsPath.join top f] else []
  | Subdir _ _ => flat_map step_paths (walk_entry top e)
  end.

(** ** Processes, streams and the state of the interpreter *)

(** What a child process did: its exit code and what it wrote. *)
Record ProcResult : Type := {
  returncode : Z;
  child_stdout : string;
  child_stderr : string
}.

(** One [subprocess.Popen] call, as it happened. *)
Record Spawn : Type := {
  sp_cmd : list string;
  sp_env : gmap string string;
  sp_stderr_piped : bool;
  sp_result : ProcResult
}.

(** The state the script acts on: the current directory, [os.environ],
    what was written to the standard output and to the standard error,
    the children started so far, the number of clock readings and
    [sys.path]. *)
Record World : Type := {
  cwd : string;
  environ : gmap string string;
  out : list string;
  err : list string;
  spawned : list Spawn;
  ticks : nat;
  sys_path : list string
}.

Definition with_cwd (w : World) (d : string) : World :=
  {| cwd := d; environ := environ w; out := out w; err := err w;
     spawned := spawned w; ticks := ticks w; sys_path := sys_path w |}.
Definition with_environ (w : World) (e : gmap string string) : World :=
  {| cwd := cwd w; environ := e; out := out w; err := err w;
     spawned := spawned w; ticks := ticks w; sys_path := sys_path w |}.
Definition with_out (w : World) (o : list string) : World :=
  {| cwd := cwd w; environ := environ w; out := o; err := err w;
     spawned := spawned w; ticks := ticks w; sys_path := sys_path w |}.
Definition with_err (w : World) (e : list string) : World :=
  {| cwd := cwd w; environ := environ w; out := out w; err := e;
     spawned := spawned w; ticks := ticks w; sys_path := sys_path w |}.
Definition with_spawned (w : World) (l : list Spawn) : World :=
  {| cwd := cwd w; environ := environ w; out := out w; err := err w;
     spawned := l; ticks := ticks w; sys_path := sys_path w |}.
Definition with_ticks (w : World) (n : nat) : World :=
  {| cwd := cwd w; environ := environ w; out := out w; err := err w;
     spawned := spawned w; ticks := n; sys_path := sys_path w |}.
Definition with_sys_path (w : World) (l : list string) : World :=
  {| cwd := cwd w; environ := environ w; out := out w; err := err w;
     spawned := spawned w; ticks := ticks w; sys_path := l |}.

Inductive Exn : Type :=
  | KeyError (key : string)
  | OSError (path : string).

(** How a call ends: it returns, [sys.exit] was called, or an exception
    was left uncaught. *)
Inductive Outcome (A : Type) : Type :=
  | Ret (a : A)
  | SysExit (code : Z)
  | Uncaught (e : Exn).
Arguments Ret {A} a.
Arguments SysExit {A} code.
Arguments Uncaught {A} e.

(** A computation of the script: from a state to an outcome and the
    state it leaves. *)
Definition M (A : Type) : Type := World -> Outcome A * World.

#[local] Instance M_ret : MRet M := fun A a w => (Ret a, w).
#[local] Instance M_bind : MBind M := fun A B f m w =>
  match m w with
  | (Ret a, w') => f a w'
  | (SysExit c, w') => (SysExit c, w')
  | (Uncaught e, w') => (Uncaught e, w')
  end.

Definition nl : string := String (ascii_of_nat 10) EmptyString.
Definition tab : string := String (ascii_of_nat 9) EmptyString.

(** [print(s)], [print(s, file=sys.stderr)] and [sys.stderr.write(s)]. *)
Definition print (s : string) : M unit :=
  fun w => (Ret (), with_out w (out w ++ [s +:+ nl])).
Definition eprint (s : string) : M unit :=
  fun w => (Ret (), with_err w (err w ++ [s +:+ nl])).
Definition stderr_write (s : string) : M unit :=
  fun w => (Ret (), with_err w (err w ++ [s])).
Definition stdout_write (s : string) : M unit :=
  fun w => (Ret (), with_out w (out w ++ [s])).

(** [sys.path.append(p)]. *)
Definition sys_path_append (p : string) : M unit :=
  fun w => (Ret (), with_sys_path w (sys_path w ++ [p])).

Definition sys_exit {A : Type} (code : Z) : M A := fun w => (SysExit code, w).
Definition raise {A : Type} (e : Exn) : M A := fun w => (Uncaught e, w).

Definition getcwd : M string := fun w => (Ret (cwd w), w).
Definition environ_get (k : string) : M string :=
  fun w => match environ w !! k with
           | Some v => (Ret v, w)
           | None => (Uncaught (KeyError k), w)
           end.
Definition environ_set (k v : string) : M unit :=
  fun w => (Ret (), with_environ w (<[k := v]> (environ w))).
Definition environ_copy : M (gmap string string) :=
  fun w => (Ret (environ w), w).

(** The three report templates of [run_test]. *)
Inductive Res : Type := res_ok | res_not_ok | res_skip.

(** [res % (i, s)]. *)
Definition res_format (res : Res) (i : nat) (s : string) : string :=
  match res with
  | res_skip => "not ok " +:+ Py.fmt_d i +:+ " # skip " +:+ s
  | res_not_ok => "not ok " +:+ Py.fmt_d i +:+ " " +:+ s
  | res_ok => "ok " +:+ Py.fmt_d i +:+ " " +:+ s
  end.

Record Runner : Type := {
  formats : list string;
  tests : list string;
  verbose : bool;
  gyp_options : list string;
  failures : list string;
  num_tests : nat;
  isatty : bool;
  env : gmap string string;
  hpos : nat;
  took : spec_float
}.

Definition with_failures (self : Runner) (l : list string) : Runner :=
  {| formats := formats self; tests := tests self; verbose := verbose self;
     gyp_options := gyp_options self; failures := l;
     num_tests := num_tests self; isatty := isatty self; env := env self;
     hpos := hpos self; took := took self |}.
Definition with_env (self : Runner) (e : gmap string string) : Runner :=
  {| formats := formats self; tests := tests self; verbose := verbose self;
     gyp_options := gyp_options self; failures := failures self;
     num_tests := num_tests self; isatty := isatty self; env := e;
     hpos := hpos self; took := took self |}.
Definition with_took (self : Runner) (t : spec_float) : Runner :=
  {| formats := formats self; tests := tests self; verbose := verbose self;
     gyp_options := gyp_options self; failures := failures self;
     num_tests := num_tests self; isatty := isatty self; env := env self;
     hpos := hpos self; took := t |}.

(** The parsed command line. *)
Record Args : Type := {
  arg_all : bool;
  arg_chdir : option string;
  arg_format : string;
  arg_gyp_option : list string;
  arg_list : bool;
  arg_no_exec : bool;
  arg_path : list string;
  arg_quiet : bool;
  arg_verbose : bool;
  arg_tests : list string
}.

(** How [parser.parse_args] ends: with the parsed arguments; with a
    usage error, for which [argparse] writes the usage and then the
    message to the standard error and exits with code 2; or, for [-h],
    with the help written to the standard output and the exit code 0. *)
Inductive Parse : Type :=
  | Parsed (args : Args)
  | Usage (usage message : string)
  | Help (text : string).

(** What the script asks of the host it runs on: [clock n] is what the
    [n]-th call of [time.time()] returns, [child n cmd env cwd] is what the
    [n]-th child process does, [listing cwd p] is the content of [p] when
    [p] names a directory, [repr] is [repr] on strings, [parse_args l] is
    how [parse_args(l)] ends for the parser that [main] builds;
    [xcode_version] and [msvs_description] are what the imported modules
    report, when the import and the call raise nothing, and [lsb_release]
    is the content of [/etc/lsb-release], when it can be read. *)
Record Host : Type := {
  clock : nat -> spec_float;
  child : nat -> list string -> gmap string string -> string -> ProcResult;
  listing : string -> string -> option (list entry);
  repr : string -> string;
  sys_platform : string;
  sys_executable : string;
  sys_argv : list string;
  parse_args : list string -> Parse;
  stdout_isatty : bool;
  python_version : string;
  mac_ver : string * string;
  xcode_version : option string;
  win32_ver : string * string;
  msvs_description : option string;
  lsb_release : option string
}.

(** The table of default formats per platform. *)
Definition default_formats : gmap string (list string) :=
  list_to_map [
    ("aix5", ["make"]);
    ("freebsd7", ["make"]);
    ("freebsd8", ["make"]);
    ("openbsd5", ["make"]);
    ("cygwin", ["msvs"]);
    ("win32", ["msvs"; "ninja"]);
    ("linux", ["make"; "ninja"]);
    ("linux2", ["make"; "ninja"]);
    ("linux3", ["make"; "ninja"]);
    ("darwin", ["make"; "ninja"; "xcode"])
  ].

(** ** The script *)

Section Script.

Variable host : Host.

Definition time_time : M spec_float :=
  fun w => (Ret (clock host (ticks w)), with_ticks w (S (ticks w))).

Definition isdir (p : string) : M bool :=
  fun w => (Ret (bool_decide (is_Some (listing host (cwd w) p))), w).

Definition os_chdir (d : string) : M unit :=
  fun w => match listing host (cwd w) d with
           | Some _ => (Ret (), with_cwd w (OsPath.abspath (cwd w) d))
           | None => (Uncaught (OSError d), w)
           end.

(** [subprocess.Popen(cmd, stdout=PIPE, stderr=..., env=env)] followed by
    [communicate()]; a child whose standard error is not piped writes to
    the standard error of the script.  The child is taken to start and
    its output to decode: the exceptions that [Popen] and [communicate]
    raise otherwise are not part of the model. *)
Definition popen_communicate (cmd : list string) (stderr_piped : bool)
    (e : gmap string string) : M (ProcResult * option string) :=
  fun w =>
    let r := child host (length (spawned w)) cmd e (cwd w) in
    let sp := {| sp_cmd := cmd; sp_env := e;
                 sp_stderr_piped := stderr_piped; sp_result := r |} in
    let w1 := with_spawned w (spawned w ++ [sp]) in
    if stderr_piped then (Ret (r, Some (child_stderr r)), w1)
    else (Ret (r, None), with_err w1 (err w1 ++ [child_stderr r])).

(** [find_all_gyptest_files(directory)] on the directories of the host;
    [os.walk] yields nothing for what is not a directory. *)
Definition find_all_gyptest_files_io (directory : string) : M (list string) :=
  fun w =>
    match listing host (cwd w) directory with
    | Some es => (Ret (find_all_gyptest_files directory es), w)
    | None => (Ret (Py.sorted (walk_result [])), w)
    end.

(** [print_configuration_info()].  The two [try] blocks around the
    imports and the one around the reading of [/etc/lsb-release] print
    their line when nothing is raised in them and are skipped otherwise:
    what they yield is asked of the host.  The modules that the imports
    load are not part of the state. *)
Definition print_configuration_info : M unit :=
  print "Test configuration:";;
  (if bool_decide (sys_platform host = "darwin") then
     d ← getcwd;
     sys_path_append (OsPath.abspath d "test/lib");;
     print ("  Mac " +:+ (mac_ver host).1 +:+ " " +:+ (mac_ver host).2);;
     match xcode_version host with
     | Some v => print ("  Xcode " +:+ v)
     | None => mret ()
     end
   else if bool_decide (sys_platform host = "win32") then
     d ← getcwd;
     sys_path_append (OsPath.abspath d "pylib");;
     print ("  Win " +:+ (win32_ver host).1 +:+ " " +:+ (win32_ver host).2
            +:+ nl);;
     match msvs_description host with
     | Some d => print ("  MSVS " +:+ d)
     | None => mret ()
     end
   else if bool_decide (sys_platform host = "linux")
           || bool_decide (sys_platform host = "linux2") then
     match lsb_release host with
     | Some dist => print ("  Linux " +:+ Py.strip dist)
     | None => mret ()
     end
   else mret ());;
  print ("  Python " +:+ sys_executable host +:+ " " +:+ python_version host);;
  pythonpath ← environ_get "PYTHONPATH";
  print ("  PYTHONPATH=" +:+ pythonpath);;
  print "".

(** [Runner.__init__]. *)
Definition Runner_init (formats tests gyp_options : list string)
    (verbose : bool) : M Runner :=
  e ← environ_copy;
  mret {| formats := formats; tests := tests; verbose := verbose;
          gyp_options := gyp_options; failures := [];
          num_tests := length formats * length tests;
          isatty := stdout_isatty host && negb verbose;
          env := e; hpos := 0; took := S754_zero false |}.

(** [Runner.run_test]. *)
Definition run_test (self : Runner) (test fmt : string)
    : M (Runner * (Res * spec_float * string * string)) :=
  let cmd := [sys_executable host; test] ++ gyp_options self in
  let self := with_env self (<["TESTGYP_FORMAT" := fmt]> (env self)) in
  let self := if verbose self
              then with_env self (<["TESTCMD_VERBOSE" := "1"]> (env self))
              else self in
  start ← time_time;
  '(proc, stderr) ← popen_communicate cmd (negb (verbose self)) (env self);
  now ← time_time;
  let took := Py.fsub now start in
  let stdout := Py.strip (child_stdout proc) in
  let stderr := Py.strip (default "" stderr) in
  if bool_decide (returncode proc = 2%Z) then
    mret (self, (res_skip, took, stdout, stderr))
  else if negb (bool_decide (returncode proc = 0%Z)) then
    mret (with_failures self
            (failures self ++ ["(" +:+ test +:+ ") " +:+ fmt]),
          (res_not_ok, took, stdout, stderr))
  else
    mret (self, (res_ok, took, stdout, stderr)).

(** [for l in text.splitlines(): print('   ', l)]. *)
Fixpoint print_lines (ls : list string) : M unit :=
  match ls with
  | [] => mret ()
  | l :: ls' => print ("   " +:+ " " +:+ l);; print_lines ls'
  end.

(** The body of the loop of [Runner.run] for the pair numbered [i]. *)
Definition run_pair (self : Runner) (i : nat) (test fmt : string) : M Runner :=
  (if verbose self then print ("# " +:+ test +:+ " " +:+ fmt) else mret ());;
  '(self, (res, took, stdout, stderr)) ← run_test self test fmt;
  print (res_format res i (test +:+ " " +:+ fmt));;
  print "  ---";;
  print ("  duration_ms: " +:+ Py.fmt_3f took);;
  (if negb (bool_decide (String.length stdout = 0)) then
     print "  stdout: |-";; print_lines (Py.splitlines stdout)
   else mret ());;
  (if negb (bool_decide (String.length stderr = 0))
      && negb (bool_decide (stderr = "PASSED")) then
     print "  stderr: |-";; print_lines (Py.splitlines stderr)
   else mret ());;
  print "  ...";;
  mret self.

(** [for i, (test, fmt) in enumerate(tests, i): ...]. *)
Fixpoint run_loop (self : Runner) (i : nat) (pairs : list (string * string))
    : M Runner :=
  match pairs with
  | [] => mret self
  | (test, fmt) :: pairs' =>
      self ← run_pair self i test fmt;
      run_loop self (S i) pairs'
  end.

(** [[(t, f) for t in tests for f in formats]]. *)
Definition run_pairs (tests formats : list string) : list (string * string) :=
  flat_map (fun t => map (fun f => (t, f)) formats) tests.

(** [Runner.run]. *)
Definition run (self : Runner) : M Runner :=
  print "TAP version 13";;
  print ("0.." +:+ Py.fmt_d (num_tests self));;
  run_start ← time_time;
  self ← run_loop self 1 (run_pairs (tests self) (formats self));
  now ← time_time;
  mret (with_took self (Py.fsub now run_start)).

(** [Runner.print_results]. *)
Definition print_results (self : Runner) : M unit :=
  let num_failures := length (failures self) in
  (if negb (bool_decide (num_failures = 0)) then
     print "";;
     (if bool_decide (num_failures = 1) then
        print "Failed the following test:"
      else
        print ("Failed the following " +:+ Py.fmt_d num_failures
               +:+ " tests:"));;
     print (tab +:+ Py.join (nl +:+ tab) (Py.sorted (failures self)));;
     print ""
   else mret ());;
  print ("Ran " +:+ Py.fmt_d (num_tests self) +:+ " tests in "
         +:+ Py.fmt_3f (took self) +:+ "s, " +:+ Py.fmt_d num_failures
         +:+ " failed.");;
  print "".

(** The loop of [main] that turns the positional arguments into tests. *)
Fixpoint collect_tests (args_tests tests : list string) : M (list string) :=
  match args_tests with
  | [] => mret tests
  | arg :: rest =>
      d ← isdir arg;
      if (d : bool) then
        found ← find_all_gyptest_files_io (OsPath.normpath arg);
        collect_tests rest (tests ++ found)
      else
        if negb (is_test_name (OsPath.basename arg)) then
          eprint (arg +:+ " " +:+ "is not a valid gyp test name.");;
          sys_exit 1%Z
        else collect_tests rest (tests ++ [arg])
  end.

(** [for test in tests: print(test)]. *)
Fixpoint print_each (ls : list string) : M unit :=
  match ls with
  | [] => mret ()
  | l :: ls' => print l;; print_each ls'
  end.

(** ['%s' % l] for a list of strings. *)
Definition str_list (l : list string) : string :=
  "[" +:+ Py.join ", " (map (repr host) l) +:+ "]".

(** The format list of [main]. *)
Definition format_list (args : Args) : M (list string) :=
  if negb (bool_decide (arg_format args = "")) then
    mret (Py.split "," (arg_format args))
  else
    match default_formats !! sys_platform host with
    | Some l => mret l
    | None => raise (KeyError (sys_platform host))
    end.

(** [main] from the test loop on, with [args.tests] already defaulted. *)
Definition main_tests (args : Args) (args_tests : list string) : M Z :=
  tests ← collect_tests args_tests [];
  (if arg_list args then print_each tests;; sys_exit 0%Z else mret ());;
  d ← getcwd;
  environ_set "PYTHONPATH" (OsPath.abspath d "test/lib");;
  (if arg_verbose args then print_configuration_info else mret ());;
  (if negb (bool_decide (arg_gyp_option args = [])) && negb (arg_quiet args)
   then print ("Extra Gyp options: " +:+ str_list (arg_gyp_option args) +:+ nl)
   else mret ());;
  fl ← format_list args;
  let gyp_options := flat_map (fun o => ["-G"; o]) (arg_gyp_option args) in
  runner ← Runner_init fl tests gyp_options (arg_verbose args);
  runner ← run runner;
  (if negb (arg_quiet args) then print_results runner else mret ());;
  if negb (bool_decide (failures runner = [])) then mret 1%Z else mret 0%Z.

(** [main], after [parser.parse_args]. *)
Definition main (args : Args) : M Z :=
  match arg_chdir args with
  | Some d => if negb (bool_decide (d = "")) then os_chdir d else mret ()
  | None => mret ()
  end;;
  (if negb (bool_decide (arg_path args = [])) then
     d ← getcwd;
     let extra_path := Py.join ":" (map (OsPath.abspath d) (arg_path args)) in
     path ← environ_get "PATH";
     environ_set "PATH" (extra_path +:+ ":" +:+ path)
   else mret ());;
  if bool_decide (arg_tests args = []) then
    if negb (arg_all args) then
      stderr_write ("Specify -a to get all tests." +:+ nl);;
      mret 1%Z
    else main_tests args ["test"]
  else main_tests args (arg_tests args).

(** [main(argv)]: the command line, [sys.argv] when none is given, is
    parsed without its first element; [argparse] ends the script on a
    usage error and for [-h]; otherwise [main] goes on as above. *)
Definition main_argv (argv : option (list string)) : M Z :=
  let argv := default (sys_argv host) argv in
  match parse_args host (tail argv) with
  | Parsed args => main args
  | Usage usage message =>
      stderr_write usage;; stderr_write message;; sys_exit 2%Z
  | Help text => stdout_write text;; sys_exit 0%Z
  end.




End Script.

(** ** The report, as the protocol describes it *)

(** A pair failed when its child exited with a code other than 0 and 2. *)
Definition failed (rc : Z) : bool :=
  negb (bool_decide (rc = 0%Z)) && negb (bool_decide (rc = 2%Z)).

(** The status line of the pair numbered [i], by the exit code of its child. *)
Definition status_line (rc : Z) (i : nat) (test fmt : string) : string :=
  if bool_decide (rc = 0%Z) then
    "ok " +:+ Py.fmt_d i +:+ " " +:+ test +:+ " " +:+ fmt
  else if bool_decide (rc = 2%Z) then
    "not ok " +:+ Py.fmt_d i +:+ " # skip " +:+ test +:+ " " +:+ fmt
  else
    "not ok " +:+ Py.fmt_d i +:+ " " +:+ test +:+ " " +:+ fmt.

(** The identifier of a pair in the failure log. *)
Definition failure_id (test fmt : string) : string :=
  "(" +:+ test +:+ ") " +:+ fmt.

(** What the script captured of the standard error of a child. *)
Definition captured_stderr (sp : Spawn) : string :=
  if sp_stderr_piped sp then child_stderr (sp_result sp) else "".

(** A literal block: its label, then the lines of the text, indented. *)
Definition literal_block (label text : string) : list string :=
  (label +:+ nl) :: map (fun l => "    " +:+ l +:+ nl) (Py.splitlines text).

(** The metadata block that follows a status line; [stdout] and [stderr]
    are the captured texts, trimmed. *)
Definition metadata_block (took : spec_float) (stdout stderr : string)
    : list string :=
  ["  ---" +:+ nl; ("  duration_ms: " +:+ Py.fmt_3f took) +:+ nl]
  ++ (if bool_decide (stdout = "") then []
      else literal_block "  stdout: |-" stdout)
  ++ (if bool_decide (stderr = "") || bool_decide (stderr = "PASSED") then []
      else literal_block "  stderr: |-" stderr)
  ++ ["  ..." +:+ nl].

(** The record of one pair: in verbose mode a progress line, then the
    status line and the metadata block. *)
Definition record (verbose : bool) (i : nat) (p : string * string)
    (sp : Spawn) (took : spec_float) : list string :=
  (if verbose then [("# " +:+ p.1 +:+ " " +:+ p.2) +:+ nl] else [])
  ++ [status_line (returncode (sp_result sp)) i p.1 p.2 +:+ nl]
  ++ metadata_block took (Py.strip (child_stdout (sp_result sp)))
       (Py.strip (captured_stderr sp)).

(** The records of the pairs [l], each with its child, numbered from [i],
    the first child being timed between the clock readings [t] and [t+1]. *)
Fixpoint records (h : Host) (verbose : bool) (i t : nat)
    (l : list (string * string * Spawn)) : list string :=
  match l with
  | [] => []
  | (p, sp) :: l' =>
      record verbose i p sp (Py.fsub (clock h (S t)) (clock h t))
      ++ records h verbose (S i) (S (S t)) l'
  end.

(** The block that lists the failed pairs, and the summary line. *)
Definition failure_block (fs : list string) : list string :=
  if bool_decide (fs = []) then []
  else
    [nl;
     (if bool_decide (length fs = 1) then "Failed the following test:"
      else "Failed the following " +:+ Py.fmt_d (length fs) +:+ " tests:")
     +:+ nl;
     (tab +:+ Py.join (nl +:+ tab) (Py.sorted fs)) +:+ nl;
     nl].

Definition summary_line (n : nat) (took : spec_float) (k : nat) : string :=
  "Ran " +:+ Py.fmt_d n +:+ " tests in " +:+ Py.fmt_3f took +:+ "s, "
  +:+ Py.fmt_d k +:+ " failed.".

(** A status line among the chunks of the report, and its index. *)
Definition is_status_line (c : string) : bool :=
  Py.startswith c "ok " || Py.startswith c "not ok ".

Definition status_lines (chunks : list string) : list string :=
  filter (fun c => is_status_line c = true) chunks.

Definition digit_value (c : ascii) : option N :=
  let n := N_of_ascii c in
  if (48 <=? n)%N && (n <=? 57)%N then Some (n - 48)%N else None.

(** The number written in decimal at the head of [s], after [acc]. *)
Fixpoint read_number (acc : N) (s : string) : N :=
  match s with
  | EmptyString => acc
  | String c s' =>
      match digit_value c with
      | Some d => read_number (10 * acc + d)%N s'
      | None => acc
      end
  end.

Fixpoint drop_prefix (p s : string) : option string :=
  match p with
  | EmptyString => Some s
  | String a p' =>
      match s with
      | EmptyString => None
      | String b s' => if Ascii.eqb a b then drop_prefix p' s' else None
      end
  end.

(** The index that a status line carries. *)
Definition record_index (line : string) : option nat :=
  match drop_prefix "not ok " line with
  | Some rest => Some (N.to_nat (read_number 0 rest))
  | None =>
      match drop_prefix "ok " line with
      | Some rest => Some (N.to_nat (read_number 0 rest))
      | None => None
      end
  end.

(** The count that the plan line declares. *)
Definition plan_count (line : string) : option nat :=
  match drop_prefix "0.." line with
  | Some rest => Some (N.to_nat (read_number 0 rest))
  | None => None
  end.

(** A text with three decimal places: a point followed by three digits. *)
Definition three_decimals (s : string) : Prop :=
  exists ip d1 d2 d3,
    s = ip +:+ "." +:+ String d1 (String d2 (String d3 EmptyString))
    /\ is_Some (digit_value d1) /\ is_Some (digit_value d2)
    /\ is_Some (digit_value d3).

Definition finite (x : spec_float) : Prop :=
  match x with
  | S754_zero _ | S754_finite _ _ _ => True
  | S754_infinity _ | S754_nan => False
  end.

(** ** The trace of a run *)

(** The identifiers of the failed pairs among [l]. *)
Definition failed_ids (l : list (string * string * Spawn)) : list string :=
  flat_map (fun '(p, sp) =>
              if failed (returncode (sp_result sp))
              then [failure_id p.1 p.2] else []) l.

(** What the children of [sps] wrote to the standard error of the script. *)
Definition passed_through (sps : list Spawn) : list string :=
  flat_map (fun sp => if sp_stderr_piped sp then []
                      else [child_stderr (sp_result sp)]) sps.

(** [sp] is the child that [self] starts for the pair [p] as the [n]-th
    child, in directory [d]. *)
Definition spawn_for (h : Host) (self : Runner) (d : string) (n : nat)
    (p : string * string) (sp : Spawn) : Prop :=
  sp_cmd sp = [sys_executable h; p.1] ++ gyp_options self
  /\ sp_stderr_piped sp = negb (verbose self)
  /\ sp_env sp !! "TESTGYP_FORMAT" = Some p.2
  /\ (verbose self = true -> sp_env sp !! "TESTCMD_VERBOSE" = Some "1")
  /\ (forall k, k <> "TESTGYP_FORMAT" -> k <> "TESTCMD_VERBOSE" ->
        sp_env sp !! k = env self !! k)
  /\ sp_result sp = child h n (sp_cmd sp) (sp_env sp) d.

(** [w'] is [w] after the children [sps] ran, [n] clock readings and the
    chunks [chunks] of report later. *)
Definition ran (w w' : World) (sps : list Spawn) (n : nat)
    (chunks : list string) : Prop :=
  cwd w' = cwd w /\ environ w' = environ w
  /\ spawned w' = spawned w ++ sps
  /\ ticks w' = ticks w + n
  /\ err w' = err w ++ passed_through sps
  /\ out w' = out w ++ chunks.

(** [self'] is [self] but for the failure log, the environment and the
    elapsed time. *)
Definition same_setup (self self' : Runner) : Prop :=
  formats self' = formats self /\ tests self' = tests self
  /\ verbose self' = verbose self /\ gyp_options self' = gyp_options self
  /\ num_tests self' = num_tests self.

(** ** The command line, as the interface describes it *)

(** The test arguments that [main] goes through: the positional
    arguments, or [test] when there is none and all tests are asked for. *)
Definition effective_tests (args : Args) : list string :=
  if bool_decide (arg_tests args = []) then ["test"] else arg_tests args.

(** An argument that, in directory [d], is not a directory and whose base
    name is not a test name. *)
Definition invalid_arg (h : Host) (d arg : string) : Prop :=
  listing h d arg = None /\ is_test_name (OsPath.basename arg) = false.

(** The message for an invalid test name. *)
Definition invalid_name_message (arg : string) : string :=
  (arg +:+ " " +:+ "is not a valid gyp test name.") +:+ nl.

(** The exit codes of [main] for the arguments [args] in the world [w]:
    1 exactly when a pair failed, or no test was given without the
    run-all flag, or one of [names] is invalid; the two input errors are
    written to the standard error and start no child; 0 otherwise. *)
Definition exit_code_law (h : Host) (args : Args) (w : World)
    (names : list string) : Prop :=
  exists code sps,
    ((main h args w).1 = Ret code \/ (main h args w).1 = SysExit code)
    /\ spawned (main h args w).2 = spawned w ++ sps
    /\ let pair_failed :=
         Exists (fun sp => failed (returncode (sp_result sp)) = true) sps in
       let no_tests := arg_tests args = [] /\ arg_all args = false in
       let bad_name := Exists (invalid_arg h (cwd (main h args w).2)) names in
       (code = 1%Z <-> pair_failed \/ no_tests \/ bad_name)
       /\ (~ (pair_failed \/ no_tests \/ bad_name) -> code = 0%Z)
       /\ (no_tests ->
           sps = []
           /\ err (main h args w).2
              = err w ++ ["Specify -a to get all tests." +:+ nl])
       /\ (~ no_tests -> bad_name ->
           sps = []
           /\ exists a, a ∈ names
                /\ invalid_arg h (cwd (main h args w).2) a
                /\ err (main h args w).2 = err w ++ [invalid_name_message a]).

Fixpoint has_char (c : ascii) (s : string) : bool :=
  match s with
  | EmptyString => false
  | String c' s' => Ascii.eqb c' c || has_char c s'
  end.

Definition set_no_exec (args : Args) (b : bool) : Args :=
  {| arg_all := arg_all args; arg_chdir := arg_chdir args;
     arg_format := arg_format args; arg_gyp_option := arg_gyp_option args;
     arg_list := arg_list args; arg_no_exec := b; arg_path := arg_path args;
     arg_quiet := arg_quiet args; arg_verbose := arg_verbose args;
     arg_tests := arg_tests args |}.

(** ** An example host *)

Module Example.

(** The arguments that [main] gets for the empty command line. *)
Definition defaults : Args :=
  {| arg_all := false; arg_chdir := None; arg_format := "";
     arg_gyp_option := []; arg_list := false; arg_no_exec := false;
     arg_path := []; arg_quiet := false; arg_verbose := false;
     arg_tests := [] |}.

Definition usage_text : string :=
  "usage: gyptest.py [-h] [-a] [-C CHDIR] [-f FORMAT] [-G GYP_OPTION] [-l]"
  +:+ " [-n] [--path PATH] [-q] [-v] [tests ...]" +:+ nl.

Definition plain (t : string) : bool := negb (Py.startswith t "-").

Definition with_tests (a : Args) (l : list string) : Args :=
  {| arg_all := arg_all a; arg_chdir := arg_chdir a;
     arg_format := arg_format a; arg_gyp_option := arg_gyp_option a;
     arg_list := arg_list a; arg_no_exec := arg_no_exec a;
     arg_path := arg_path a; arg_quiet := arg_quiet a;
     arg_verbose := arg_verbose a; arg_tests := l |}.

(** The flag that the option [t] sets, and the value that the option [t]
    stores. *)
Definition with_flag (a : Args) (t : string) : option Args :=
  let all := bool_decide (t = "-a") || bool_decide (t = "--all") in
  let list := bool_decide (t = "-l") || bool_decide (t = "--list") in
  let no_exec := bool_decide (t = "-n") || bool_decide (t = "--no-exec") in
  let quiet := bool_decide (t = "-q") || bool_decide (t = "--quiet") in
  let verbose := bool_decide (t = "-v") || bool_decide (t = "--verbose") in
  if all || list || no_exec || quiet || verbose then
    Some {| arg_all := arg_all a || all; arg_chdir := arg_chdir a;
            arg_format := arg_format a; arg_gyp_option := arg_gyp_option a;
            arg_list := arg_list a || list;
            arg_no_exec := arg_no_exec a || no_exec;
            arg_path := arg_path a; arg_quiet := arg_quiet a || quiet;
            arg_verbose := arg_verbose a || verbose;
            arg_tests := arg_tests a |}
  else None.

Definition with_value (a : Args) (t v : string) : option Args :=
  let chdir := bool_decide (t = "-C") || bool_decide (t = "--chdir") in
  let format := bool_decide (t = "-f") || bool_decide (t = "--format") in
  let gyp := bool_decide (t = "-G") || bool_decide (t = "--gyp_option") in
  let path := bool_decide (t = "--path") in
  if chdir || format || gyp || path then
    Some {| arg_all := arg_all a;
            arg_chdir := if chdir then Some v else arg_chdir a;
            arg_format := if format then v else arg_format a;
            arg_gyp_option := arg_gyp_option a ++ (if gyp then [v] else []);
            arg_list := arg_list a; arg_no_exec := arg_no_exec a;
            arg_path := arg_path a ++ (if path then [v] else []);
            arg_quiet := arg_quiet a; arg_verbose := arg_verbose a;
            arg_tests := arg_tests a |}
  else None.

(** What [argparse] does with the parser of [main] on the command lines
    made of options, each a token of its own and followed by its value
    when it stores one, and then the tests.  The hosts of the examples
    report a usage error for every other command line, also for those
    that [argparse] accepts (abbreviated or clustered options, options
    after the tests). *)
Fixpoint parse (l : list string) (a : Args) : Parse :=
  match l with
  | [] => Parsed a
  | t :: r =>
      if plain t then
        if forallb plain r then Parsed (with_tests a (t :: r))
        else Usage usage_text
               ("gyptest.py: error: unrecognized arguments" +:+ nl)
      else if bool_decide (t = "-h") || bool_decide (t = "--help") then
        Help usage_text
      else
        match with_flag a t with
        | Some a' => parse r a'
        | None =>
            match r with
            | v :: r' =>
                match with_value a t v with
                | Some a' =>
                    if plain v then parse r' a'
                    else Usage usage_text
                           ("gyptest.py: error: argument " +:+ t
                            +:+ ": expected one argument" +:+ nl)
                | None =>
                    Usage usage_text
                      ("gyptest.py: error: unrecognized arguments: " +:+ t
                       +:+ nl)
                end
            | [] =>
                Usage usage_text
                  (if bool_decide (with_value a t "" = None)
                   then "gyptest.py: error: unrecognized arguments: " +:+ t
                        +:+ nl
                   else "gyptest.py: error: argument " +:+ t
                        +:+ ": expected one argument" +:+ nl)
            end
        end
  end.

(** A host of the given platform: the clock advances by a quarter of a
    second per reading, the [n]-th child exits with code [n], and the
    current directory holds a directory [test]. *)
Definition host (platform : string) : Host :=
  {| clock := fun n => S754_finite false (Pos.of_nat (S n)) (-2);
     child := fun n _ _ _ =>
       {| returncode := Z.of_nat n;
          child_stdout := "hello" +:+ nl +:+ "world" +:+ nl;
          child_stderr := "oops" |};
     listing := fun _ p =>
       if bool_decide (p = "test") then
         Some [File "gyptest-b.py";
               Subdir "x" [File "gyptest-a.py"; File "README"]]
       else None;
     repr := fun s => "'" +:+ s +:+ "'";
     sys_platform := platform;
     sys_executable := "/usr/bin/python";
     sys_argv := ["gyptest.py"];
     parse_args := fun l => parse l defaults;
     stdout_isatty := false;
     python_version := "3.8.10";
     mac_ver := ("", "");
     xcode_version := None;
     win32_ver := ("", "");
     msvs_description := None;
     lsb_release := None |}.

Definition world : World :=
  {| cwd := "/home/u"; environ := {[ "PATH" := "/bin" ]};
     out := []; err := []; spawned := []; ticks := 0;
     sys_path := ["/usr/lib/python3.8"] |}.

(** The command line [gyptest.py -f make,ninja <tests>]. *)
Definition args (tests : list string) : Args :=
  {| arg_all := false; arg_chdir := None; arg_format := "make,ninja";
     arg_gyp_option := []; arg_list := false; arg_no_exec := false;
     arg_path := []; arg_quiet := false; arg_verbose := false;
     arg_tests := tests |}.

(** The command line [gyptest.py <tests>]. *)
Definition args_default_formats (tests : list string) : Args :=
  {| arg_all := false; arg_chdir := None; arg_format := "";
     arg_gyp_option := []; arg_list := false; arg_no_exec := false;
     arg_path := []; arg_quiet := false; arg_verbose := false;
     arg_tests := tests |}.

(** The command line [gyptest.py -a]. *)
Definition args_all : Args :=
  {| arg_all := true; arg_chdir := None; arg_format := "";
     arg_gyp_option := []; arg_list := false; arg_no_exec := false;
     arg_path := []; arg_quiet := false; arg_verbose := false;
     arg_tests := [] |}.

(** A host whose current directory holds no directory [test]. *)
Definition bare_host : Host :=
  {| clock := clock (host "linux"); child := child (host "linux");
     listing := fun _ _ => None; repr := repr (host "linux");
     sys_platform := "linux"; sys_executable := "/usr/bin/python";
     sys_argv := ["gyptest.py"]; parse_args := fun l => parse l defaults;
     stdout_isatty := false; python_version := "3.8.10";
     mac_ver := ("", ""); xcode_version := None; win32_ver := ("", "");
     msvs_description := None; lsb_release := None |}.

End Example.
(** ** [main], step by step *)

(** An argument that [main] accepts in directory [d]: a directory, or a
    path whose base name is a test name. *)
Definition valid_arg (h : Host) (d arg : string) : bool :=
  match listing h d arg with
  | Some _ => true
  | None => is_test_name (OsPath.basename arg)
  end.

(** The first argument of [l] that [main] does not accept. *)
Definition first_invalid (h : Host) (d : string) (l : list string)
    : option string :=
  List.find (fun a => negb (valid_arg h d a)) l.

(** The tests that one accepted argument stands for: what the discovery
    finds under a directory; a path that is no directory, as it is. *)
Definition expand_arg (h : Host) (d arg : string) : list string :=
  match listing h d arg with
  | Some _ =>
      match listing h d (OsPath.normpath arg) with
      | Some es => find_all_gyptest_files (OsPath.normpath arg) es
      | None => []
      end
  | None => [arg]
  end.

(** The directory that [-C] names, when it cannot be entered. *)
Definition chdir_fails (h : Host) (args : Args) (w : World) : option string :=
  match arg_chdir args with
  | Some d =>
      if bool_decide (d = "") then None
      else match listing h (cwd w) d with
           | Some _ => None
           | None => Some d
           end
  | None => None
  end.

(** The directory [main] works in. *)
Definition work_dir (args : Args) (w : World) : string :=
  match arg_chdir args with
  | Some d => if bool_decide (d = "") then cwd w
              else OsPath.abspath (cwd w) d
  | None => cwd w
  end.

(** [PATH] with the [--path] directories in front. *)
Definition extended_path (args : Args) (d old : string) : string :=
  Py.join ":" (map (OsPath.abspath d) (arg_path args)) +:+ ":" +:+ old.

(** [os.environ] once [main] has dealt with [--path]. *)
Definition start_environ (args : Args) (w : World) : gmap string string :=
  if bool_decide (arg_path args = []) then environ w
  else <["PATH" := extended_path args (work_dir args w)
                     (default "" (environ w !! "PATH"))]> (environ w).

(** The state in which [main] turns to the test arguments. *)
Definition start_world (args : Args) (w : World) : World :=
  with_environ (with_cwd w (work_dir args w)) (start_environ args w).

(** The command line that [main(argv)] parses: [argv[1:]], [argv] being
    [sys.argv] when none is given. *)
Definition command_line (h : Host) (argv : option (list string))
    : list string :=
  tail (default (sys_argv h) argv).

(** [main] gets to the test arguments: [-C] and [--path] raise nothing. *)
Definition starts (h : Host) (args : Args) (w : World) : Prop :=
  chdir_fails h args w = None
  /\ (arg_path args = [] \/ is_Some (environ w !! "PATH")).

(** No test is given and not all tests are asked for. *)
Definition no_tests (args : Args) : Prop :=
  arg_tests args = [] /\ arg_all args = false.

(** The format list, when there is one. *)
Definition format_of (h : Host) (args : Args) : option (list string) :=
  if bool_decide (arg_format args = "") then default_formats !! sys_platform h
  else Some (Py.split "," (arg_format args)).

(** The environment of a child: that of the runner with the format, and
    with the verbosity in verbose mode. *)
Definition child_env (verbose : bool) (fmt : string) (e : gmap string string)
    : gmap string string :=
  if verbose then <["TESTCMD_VERBOSE" := "1"]> (<["TESTGYP_FORMAT" := fmt]> e)
  else <["TESTGYP_FORMAT" := fmt]> e.

(** The [n]-th child of the host, started in directory [d] for the pair
    [p] by a runner with the options [opts] and the environment [e]. *)
Definition child_of (h : Host) (verbose : bool) (opts : list string)
    (e : gmap string string) (d : string) (n : nat) (p : string * string)
    : Spawn :=
  let cmd := [sys_executable h; p.1] ++ opts in
  {| sp_cmd := cmd; sp_env := child_env verbose p.2 e;
     sp_stderr_piped := negb verbose;
     sp_result := child h n cmd (child_env verbose p.2 e) d |}.

(** The children of the pairs [pairs], the first being the [n]-th child
    of the host. *)
Fixpoint children (h : Host) (verbose : bool) (opts : list string)
    (e : gmap string string) (d : string) (n : nat)
    (pairs : list (string * string)) : list Spawn :=
  match pairs with
  | [] => []
  | p :: pairs' =>
      child_of h verbose opts e d n p
      :: children h verbose opts e d (S n) pairs'
  end.

(** What [print_configuration_info] prints for the platform. *)
Definition platform_info (h : Host) : list string :=
  if bool_decide (sys_platform h = "darwin") then
    (("  Mac " +:+ (mac_ver h).1 +:+ " " +:+ (mac_ver h).2) +:+ nl)
    :: match xcode_version h with
       | Some v => [("  Xcode " +:+ v) +:+ nl]
       | None => []
       end
  else if bool_decide (sys_platform h = "win32") then
    (("  Win " +:+ (win32_ver h).1 +:+ " " +:+ (win32_ver h).2 +:+ nl) +:+ nl)
    :: match msvs_description h with
       | Some d => [("  MSVS " +:+ d) +:+ nl]
       | None => []
       end
  else if bool_decide (sys_platform h = "linux")
          || bool_decide (sys_platform h = "linux2") then
    match lsb_release h with
    | Some dist => [("  Linux " +:+ Py.strip dist) +:+ nl]
    | None => []
    end
  else [].

(** What [print_configuration_info] appends to [sys.path] in the
    directory [d]. *)
Definition platform_path (h : Host) (d : string) : list string :=
  if bool_decide (sys_platform h = "darwin") then
    [OsPath.abspath d "test/lib"]
  else if bool_decide (sys_platform h = "win32") then
    [OsPath.abspath d "pylib"]
  else [].

(** The configuration banner up to the line of the interpreter. *)
Definition configuration_head (h : Host) : list string :=
  ["Test configuration:" +:+ nl] ++ platform_info h
  ++ [("  Python " +:+ sys_executable h +:+ " " +:+ python_version h) +:+ nl].

(** The configuration banner, [PYTHONPATH] being [p]. *)
Definition configuration_info (h : Host) (p : string) : list string :=
  configuration_head h ++ [("  PYTHONPATH=" +:+ p) +:+ nl; nl].

(** The line that shows the extra options. *)
Definition extra_options (h : Host) (args : Args) : list string :=
  if negb (bool_decide (arg_gyp_option args = [])) && negb (arg_quiet args)
  then [("Extra Gyp options: " +:+ str_list h (arg_gyp_option args) +:+ nl)
        +:+ nl]
  else [].

(** What [main] prints before the report of the run. *)
Definition preamble (h : Host) (args : Args) (d : string) : list string :=
  (if arg_verbose args
   then configuration_info h (OsPath.abspath d "test/lib") else [])
  ++ extra_options h args.

(** [sys.path] once [main] has printed that. *)
Definition preamble_path (h : Host) (args : Args) (w0 : World)
    : list string :=
  sys_path w0 ++ (if arg_verbose args then platform_path h (cwd w0) else []).

(** The options that [main] hands to the runner. *)
Definition runner_options (args : Args) : list string :=
  flat_map (fun o => ["-G"; o]) (arg_gyp_option args).

(** The environment that [main] hands to the runner from the state [w0]. *)
Definition runner_environ (w0 : World) : gmap string string :=
  <["PYTHONPATH" := OsPath.abspath (cwd w0) "test/lib"]> (environ w0).

(** The children that [main] starts from the state [w0] for the tests
    [ts] and the formats [fl]. *)
Definition main_children (h : Host) (args : Args) (w0 : World)
    (ts fl : list string) : list Spawn :=
  children h (arg_verbose args) (runner_options args) (runner_environ w0)
    (cwd w0) (length (spawned w0)) (run_pairs ts fl).

(** The report of the run: the header and the records, then the summary
    unless [main] is quiet. *)
Definition main_report (h : Host) (args : Args) (w0 : World)
    (ts fl : list string) : list string :=
  let pairs := run_pairs ts fl in
  let sps := main_children h args w0 ts fl in
  let fs := failed_ids (zip pairs sps) in
  ["TAP version 13" +:+ nl;
   ("0.." +:+ Py.fmt_d (length fl * length ts)) +:+ nl]
  ++ records h (arg_verbose args) 1 (S (ticks w0)) (zip pairs sps)
  ++ (if arg_quiet args then []
      else failure_block fs
           ++ [summary_line (length fl * length ts)
                 (Py.fsub (clock h (S (ticks w0) + 2 * length pairs))
                    (clock h (ticks w0)))
                 (length fs) +:+ nl;
               nl]).

(** How [main] ends once it runs the tests [ts] in the formats [fl]. *)
Definition run_result (h : Host) (args : Args) (w0 : World)
    (ts fl : list string) : Outcome Z * World :=
  let pairs := run_pairs ts fl in
  let sps := main_children h args w0 ts fl in
  (Ret (if bool_decide (failed_ids (zip pairs sps) = []) then 0%Z else 1%Z),
   {| cwd := cwd w0; environ := runner_environ w0;
      out := out w0 ++ preamble h args (cwd w0)
             ++ main_report h args w0 ts fl;
      err := err w0 ++ passed_through sps;
      spawned := spawned w0 ++ sps;
      ticks := ticks w0 + (2 + 2 * length pairs);
      sys_path := preamble_path h args w0 |}).

(** How [main] ends from the test loop on, for the arguments [l]. *)
Definition main_tests_result (h : Host) (args : Args) (l : list string)
    (w0 : World) : Outcome Z * World :=
  match first_invalid h (cwd w0) l with
  | Some a => (SysExit 1%Z, with_err w0 (err w0 ++ [invalid_name_message a]))
  | None =>
      let ts := flat_map (expand_arg h (cwd w0)) l in
      if arg_list args then
        (SysExit 0%Z, with_out w0 (out w0 ++ map (fun t => t +:+ nl) ts))
      else
        match format_of h args with
        | Some fl => run_result h args w0 ts fl
        | None =>
            (Uncaught (KeyError (sys_platform h)),
             with_out
               (with_sys_path (with_environ w0 (runner_environ w0))
                  (preamble_path h args w0))
               (out w0 ++ preamble h args (cwd w0)))
        end
  end.

(** How [main] ends. *)
Definition main_result (h : Host) (args : Args) (w : World)
    : Outcome Z * World :=
  match chdir_fails h args w with
  | Some d => (Uncaught (OSError d), w)
  | None =>
      if negb (bool_decide (arg_path args = []))
         && bool_decide (environ w !! "PATH" = None)
      then (Uncaught (KeyError "PATH"), with_cwd w (work_dir args w))
      else
        let w0 := start_world args w in
        if bool_decide (arg_tests args = []) && negb (arg_all args) then
          (Ret 1%Z,
           with_err w0 (err w0 ++ ["Specify -a to get all tests." +:+ nl]))
        else main_tests_result h args (effective_tests args) w0
  end.


Definition set_all (args : Args) (b : bool) : Args :=
  {| arg_all := b; arg_chdir := arg_chdir args;
     arg_format := arg_format args; arg_gyp_option := arg_gyp_option args;
     arg_list := arg_list args; arg_no_exec := arg_no_exec args;
     arg_path := arg_path args; arg_quiet := arg_quiet args;
     arg_verbose := arg_verbose args; arg_tests := arg_tests args |}.

Definition set_tests (args : Args) (l : list string) : Args :=
  {| arg_all := arg_all args; arg_chdir := arg_chdir args;
     arg_format := arg_format args; arg_gyp_option := arg_gyp_option args;
     arg_list := arg_list args; arg_no_exec := arg_no_exec args;
     arg_path := arg_path args; arg_quiet := arg_quiet args;
     arg_verbose := arg_verbose args; arg_tests := l |}.

(** The number of test files in a tree. *)
Fixpoint tests_in (e : entry) : nat :=
  match e with
  | File f => if is_test_name f then 1 else 0
  | Subdir _ c => sum_list (map tests_in c)
  end.

(** No file name of the tree holds a slash. *)
Fixpoint plain_names (e : entry) : bool :=
  match e with
  | File f => negb (has_char "/" f)
  | Subdir _ c => forallb plain_names c
  end.

(** A text without a line boundary. *)
Fixpoint one_line (s : string) : bool :=
  match s with
  | EmptyString => true
  | String c s' => negb (Py.is_linebreak c) && one_line s'
  end.

(** A text whose line boundaries are line feeds only. *)
Fixpoint unix_lines (s : string) : bool :=
  match s with
  | EmptyString => true
  | String c s' =>
      (negb (Py.is_linebreak c) || (Py.code c =? 10)) && unix_lines s'
  end.

(** ** A second scenario *)

Module Scenario.

(** The command line
    [gyptest.py -v -G a=1 -G b --path tools -f make,ninja gyptest-a.py test]. *)
Definition args_verbose : Args :=
  {| arg_all := false; arg_chdir := None; arg_format := "make,ninja";
     arg_gyp_option := ["a=1"; "b"]; arg_list := false; arg_no_exec := false;
     arg_path := ["tools"]; arg_quiet := false; arg_verbose := true;
     arg_tests := ["gyptest-a.py"; "test"] |}.

(** The command line [gyptest.py -l gyptest-a.py test]. *)
Definition args_list : Args :=
  {| arg_all := false; arg_chdir := None; arg_format := "";
     arg_gyp_option := []; arg_list := true; arg_no_exec := false;
     arg_path := []; arg_quiet := false; arg_verbose := false;
     arg_tests := ["gyptest-a.py"; "test"] |}.

(** A host whose directory [test] holds no test. *)
Definition empty_host : Host :=
  {| clock := clock (Example.host "linux");
     child := child (Example.host "linux");
     listing := fun _ p =>
       if bool_decide (p = "test") then Some [File "README"] else None;
     repr := repr (Example.host "linux");
     sys_platform := "linux"; sys_executable := "/usr/bin/python";
     sys_argv := ["gyptest.py"];
     parse_args := fun l => Example.parse l Example.defaults;
     stdout_isatty := false; python_version := "3.8.10";
     mac_ver := ("", ""); xcode_version := None; win32_ver := ("", "");
     msvs_description := None; lsb_release := None |}.

End Scenario.

(** ** Facts about strings *)

Section StringFacts.

Lemma append_assoc (s1 s2 s3 : string) :
  (s1 +:+ s2) +:+ s3 = s1 +:+ s2 +:+ s3.
Proof.
  induction s1 as [|c s1 IH]; [done|]. exact (f_equal (String c) IH).
Qed.

Lemma append_cons (c : ascii) (s r : string) :
  String c s +:+ r = String c (s +:+ r).
Proof. done. Qed.

Lemma startswith_spec (s p : string) :
  Py.startswith s p = true <-> exists r, s = p +:+ r.
Proof.
  unfold Py.startswith. revert s.
  induction p as [|c p IH]; intros s.
  - destruct s; cbn; split; eauto.
  - destruct s as [|c' s]; cbn.
    + split; [done|]. by intros [r Hr].
    + setoid_rewrite append_cons.
      destruct (Ascii.ascii_dec c c') as [->|Hne].
      * rewrite IH. split; intros [r Hr]; exists r; congruence.
      * split; [done|]. intros [r Hr]. congruence.
Qed.

Lemma endswith_spec (s p : string) :
  Py.endswith s p = true <-> exists r, s = r +:+ p.
Proof.
  induction s as [|c s IH]; cbn.
  - rewrite orb_false_r, bool_decide_eq_true. split.
    + intros <-. by exists "".
    + intros [[|c r] Hr]; [done|discriminate].
  - rewrite orb_true_iff, bool_decide_eq_true, IH. split.
    + intros [<-|[r ->]]; [by exists ""|by exists (String c r)].
    + intros [[|c' r] Hr]; [by left|].
      right. exists r. rewrite append_cons in Hr. congruence.
Qed.

(** A test name is a file name that begins with [gyptest] and ends with
    [.py], character for character. *)
Lemma is_test_name_spec (f : string) :
  is_test_name f = true <->
  (exists r, f = "gyptest" +:+ r) /\ (exists r, f = r +:+ ".py").
Proof.
  unfold is_test_name.
  by rewrite andb_true_iff, startswith_spec, endswith_spec.
Qed.

End StringFacts.

(** ** Test discovery *)

Section Discovery.

Lemma entry_nested_ind (P : entry -> Prop) :
  (forall f, P (File f)) ->
  (forall d c, Forall P c -> P (Subdir d c)) ->
  forall e, P e.
Proof.
  intros Hfile Hdir. fix IH 1. intros [f|d c]; [apply Hfile|].
  apply Hdir. revert c. fix IHc 1. intros [|e c]; constructor.
  - apply IH.
  - apply IHc.
Qed.

Lemma walk_result_flat_map walk :
  walk_result walk = flat_map step_paths walk.
Proof.
  unfold walk_result.
  enough (forall acc,
    fold_left (fun result step => result ++ step_paths step) walk acc
    = acc ++ flat_map step_paths walk) as H by apply H.
  induction walk as [|step walk IH]; intros acc; cbn.
  - by rewrite app_nil_r.
  - by rewrite IH, <-app_assoc.
Qed.

Lemma walk_entry_subdir top d c :
  walk_entry top (Subdir d c) = os_walk (OsPath.join top d) c.
Proof. done. Qed.

Lemma filenames_cons_file f es : filenames (File f :: es) = f :: filenames es.
Proof. done. Qed.

Lemma filenames_cons_subdir d c es :
  filenames (Subdir d c :: es) = filenames es.
Proof. done. Qed.

(** The walk visits the files of a directory before its sub-directories;
    entry by entry it finds the same paths. *)
Lemma walk_paths_by_entry top es :
  flat_map step_paths (os_walk top es) ≡ₚ flat_map (entry_paths top) es.
Proof.
  unfold os_walk. cbn [flat_map step_paths].
  induction es as [|[f|d c] es IH].
  - done.
  - rewrite filenames_cons_file, filter_cons. cbn [flat_map walk_entry app].
    cbn [entry_paths]. case_decide as Hf.
    + rewrite Hf. cbn. by rewrite IH.
    + apply not_true_is_false in Hf. rewrite Hf. apply IH.
  - rewrite filenames_cons_subdir. cbn [flat_map entry_paths].
    rewrite flat_map_app, <-IH.
    rewrite !(app_assoc _ _ (flat_map step_paths (flat_map _ es))).
    apply Permutation_app_tail, Permutation_app_comm.
Qed.

Lemma same_tree_paths es es' :
  same_tree es es' ->
  forall top,
    flat_map step_paths (os_walk top es)
    ≡ₚ flat_map step_paths (os_walk top es').
Proof.
  induction 1 as [es|e1 e2 es|e es es' _ IH|d c c' es _ IH
                  |es1 es2 es3 _ IH1 _ IH2]; intros top.
  - done.
  - rewrite !walk_paths_by_entry. cbn [flat_map].
    rewrite !app_assoc. apply Permutation_app_tail, Permutation_app_comm.
  - rewrite !walk_paths_by_entry. cbn [flat_map].
    apply Permutation_app_head. rewrite <-!walk_paths_by_entry. apply IH.
  - rewrite !walk_paths_by_entry. cbn [flat_map].
    apply Permutation_app_tail. cbn [entry_paths].
    rewrite !walk_entry_subdir. apply IH.
  - by rewrite IH1.
Qed.

Lemma entry_paths_spec e :
  forall top p,
    p ∈ entry_paths top e <->
    match e with
    | File f => p = OsPath.join top f /\ is_test_name f = true
    | Subdir d c =>
        exists f, file_in (OsPath.join top d) c f p /\ is_test_name f = true
    end.
Proof.
  induction e as [f|d c IH] using entry_nested_ind; intros top p.
  - cbn. destruct (is_test_name f).
    + rewrite list_elem_of_singleton. split; [by intros ->|by intros [-> _]].
    + rewrite elem_of_nil. split; [done|by intros [_ ?]].
  - cbn [entry_paths]. rewrite walk_entry_subdir, walk_paths_by_entry.
    set (root := OsPath.join top d). clearbody root.
    rewrite list_elem_of_In, in_flat_map. split.
    + intros (e & He%list_elem_of_In & Hp%list_elem_of_In).
      rewrite Forall_forall in IH. apply (IH e He) in Hp.
      destruct e as [f|d' c'].
      * destruct Hp as [-> Hf]. exists f. split; [|done]. by constructor.
      * destruct Hp as (f & Hin & Hf). exists f. split; [|done].
        by eapply file_below.
    + intros (f & Hin & Hf).
      inversion Hin as [? ? ? He|? ? d' c' ? ? He Hbelow]; subst.
      * exists (File f). rewrite <-!list_elem_of_In. split; [done|].
        rewrite Forall_forall in IH. by apply (IH _ He).
      * exists (Subdir d' c'). rewrite <-!list_elem_of_In. split; [done|].
        rewrite Forall_forall in IH. apply (IH _ He). eauto.
Qed.

Lemma walk_result_spec top es p :
  p ∈ walk_result (os_walk top es) <->
  exists f, file_in top es f p /\ is_test_name f = true.
Proof.
  rewrite walk_result_flat_map, walk_paths_by_entry.
  rewrite list_elem_of_In, in_flat_map. split.
  - intros (e & He%list_elem_of_In & Hp%list_elem_of_In).
    apply entry_paths_spec in Hp. destruct e as [f|d c].
    + destruct Hp as [-> Hf]. exists f. split; [|done]. by constructor.
    + destruct Hp as (f & Hin & Hf). exists f. split; [|done].
      by eapply file_below.
  - intros (f & Hin & Hf).
    inversion Hin as [? ? ? He|? ? d c ? ? He Hbelow]; subst.
    + exists (File f). rewrite <-!list_elem_of_In. split; [done|].
      by apply entry_paths_spec.
    + exists (Subdir d c). rewrite <-!list_elem_of_In. split; [done|].
      apply entry_paths_spec. eauto.
Qed.

Lemma sorted_permutation l : Py.sorted l ≡ₚ l.
Proof. apply merge_sort_Permutation. Qed.

Lemma sorted_Sorted l : Sorted String.le (Py.sorted l).
Proof. apply Sorted_merge_sort, _. Qed.

(** Sorting depends on the elements only, not on their order. *)
Lemma sorted_unique l1 l2 : l1 ≡ₚ l2 -> Py.sorted l1 = Py.sorted l2.
Proof.
  intros Hperm. apply (Sorted_unique String.le); try apply sorted_Sorted.
  by rewrite !sorted_permutation.
Qed.

(** C7: for every directory tree, the discoverer returns exactly the
    files of the tree, at any depth, whose name begins with [gyptest] and
    ends with [.py] (character for character), sorted by path in
    lexicographic order; and the result is the same for every call on
    the same tree, in whatever order the directories are listed. *)
Theorem find_all_gyptest_files_spec (top : string) (es : list entry) :
  (forall p,
     p ∈ find_all_gyptest_files top es <->
     exists f, file_in top es f p
               /\ (exists r, f = "gyptest" +:+ r)
               /\ (exists r, f = r +:+ ".py"))
  /\ Sorted String.le (find_all_gyptest_files top es)
  /\ (forall es', same_tree es es' ->
        find_all_gyptest_files top es' = find_all_gyptest_files top es).
Proof.
  unfold find_all_gyptest_files. split; [|split].
  - intros p. rewrite sorted_permutation, walk_result_spec.
    by setoid_rewrite is_test_name_spec.
  - apply sorted_Sorted.
  - intros es' Hsame. apply sorted_unique.
    rewrite !walk_result_flat_map. symmetry. by apply same_tree_paths.
Qed.

End Discovery.

(** ** The run loop *)

Section RunFacts.

Variable h : Host.

(** Runs the primitives of the script on the state at hand. *)
Ltac run_cbn :=
  unfold mbind, M_bind, mret, M_ret;
  cbn [print eprint stderr_write stdout_write sys_path_append time_time
       popen_communicate environ_copy environ_set getcwd sys_exit raise
       with_cwd with_environ with_out with_err with_spawned with_ticks
       with_sys_path cwd environ out err spawned ticks sys_path
       with_env with_failures with_took
       formats tests verbose gyp_options failures num_tests isatty env hpos took
       sp_cmd sp_env sp_stderr_piped sp_result
       negb andb orb default from_option id fst snd].

Lemma print_lines_run ls w :
  print_lines ls w
  = (Ret (), with_out w (out w ++ map (fun l => "    " +:+ l +:+ nl) ls)).
Proof.
  revert w. induction ls as [|l ls IH]; intros w.
  - cbn [print_lines map]. run_cbn. rewrite app_nil_r. by destruct w.
  - cbn [print_lines map]. run_cbn. rewrite IH. run_cbn.
    by rewrite <-app_assoc.
Qed.

Lemma length_zero_empty (s : string) :
  bool_decide (String.length s = 0) = bool_decide (s = "").
Proof. by destruct s. Qed.

Lemma res_format_status (rc : Z) (i : nat) (test fmt : string) :
  res_format (if bool_decide (rc = 2%Z) then res_skip
              else if negb (bool_decide (rc = 0%Z)) then res_not_ok
              else res_ok) i (test +:+ " " +:+ fmt)
  = status_line rc i test fmt.
Proof.
  unfold status_line. repeat case_bool_decide; subst; done.
Qed.

Lemma run_pair_trace self i test fmt w :
  exists sp self' w',
    run_pair h self i test fmt w = (Ret self', w')
    /\ spawn_for h self (cwd w) (length (spawned w)) (test, fmt) sp
    /\ same_setup self self' /\ took self' = took self
    /\ env self' = sp_env sp
    /\ failures self' = failures self ++ failed_ids [((test, fmt), sp)]
    /\ ran w w' [sp] 2
         (record (verbose self) i (test, fmt) sp
            (Py.fsub (clock h (S (ticks w))) (clock h (ticks w)))).
Proof.
  unfold run_pair, run_test.
  destruct self as [fs ts v go fl nt tty e hp tk]. destruct v; run_cbn.
  all: match goal with
       | |- context [child h ?n ?c ?e ?d] => set (r := child h n c e d)
       end.
  all: pose proof (res_format_status (returncode r) i test fmt) as Hres.
  all: destruct (bool_decide (returncode r = 2%Z)) eqn:H2;
         [|destruct (bool_decide (returncode r = 0%Z)) eqn:H0];
         run_cbn; cbn [negb] in Hres; rewrite Hres, !length_zero_empty.
  all: destruct (bool_decide (Py.strip (child_stdout r) = "")) eqn:Hout;
         run_cbn; rewrite ?print_lines_run; run_cbn.
  all: try (destruct (bool_decide (Py.strip (child_stderr r) = "")) eqn:Herr;
         [|destruct (bool_decide (Py.strip (child_stderr r) = "PASSED"))
             eqn:Hpassed];
         run_cbn; rewrite ?print_lines_run; run_cbn).
  all: match goal with
       | |- context [spawned _ ++ [?s]] => exists s
       end.
  all: eexists _, _; split; [reflexivity|].
  all: unfold spawn_for, same_setup, ran, failed_ids, failed, record,
         metadata_block, captured_stderr, literal_block, failure_id.
  all: cbn [flat_map fst snd app]; run_cbn;
         cbn [Py.strip Py.lstrip Py.rstrip].
  all: rewrite ?H2, ?H0, ?Hout, ?Herr, ?Hpassed; cbn [negb andb orb];
         rewrite ?andb_false_r, ?app_nil_r, <-?app_assoc.
  all: repeat split; try reflexivity; try lia.
  all: try (intros; by simplify_map_eq).
Qed.

Lemma spawn_for_later self self1 d n p sp :
  same_setup self self1 ->
  (forall k, k <> "TESTGYP_FORMAT" -> k <> "TESTCMD_VERBOSE" ->
     env self1 !! k = env self !! k) ->
  spawn_for h self1 d n p sp -> spawn_for h self d n p sp.
Proof.
  intros (_ & _ & Hv & Hgo & _) Henv
    (Hcmd & Hpiped & Hfmt & Hverb & Hkeys & Hres).
  rewrite Hv, Hgo in *. repeat split; try done.
  intros k ??. rewrite Hkeys by done. by apply Henv.
Qed.

Lemma run_loop_trace pairs :
  forall self i w,
  exists sps self' w',
    run_loop h self i pairs w = (Ret self', w')
    /\ length sps = length pairs
    /\ (forall k p sp, pairs !! k = Some p -> sps !! k = Some sp ->
          spawn_for h self (cwd w) (length (spawned w) + k) p sp)
    /\ same_setup self self' /\ took self' = took self
    /\ (forall k, k <> "TESTGYP_FORMAT" -> k <> "TESTCMD_VERBOSE" ->
          env self' !! k = env self !! k)
    /\ failures self' = failures self ++ failed_ids (zip pairs sps)
    /\ ran w w' sps (2 * length pairs)
         (records h (verbose self) i (ticks w) (zip pairs sps)).
Proof.
  induction pairs as [|[test fmt] pairs IH]; intros self i w.
  - exists [], self, w. cbn. unfold same_setup, ran.
    rewrite !app_nil_r, Nat.add_0_r. repeat split; try done.
  - destruct (run_pair_trace self i test fmt w)
      as (sp & self1 & w1 & Hrun1 & Hsp & Hsetup1 & Htook1 & Henv1 & Hfail1
          & Hcwd1 & Henviron1 & Hspawned1 & Hticks1 & Herr1 & Hout1).
    destruct (IH self1 (S i) w1)
      as (sps & self' & w' & Hrun & Hlen & Hsps & Hsetup & Htook & Henv & Hfail
          & Hcwd & Henviron & Hspawned & Hticks & Herr & Hout).
    assert (Hkeys1 : forall k,
              k <> "TESTGYP_FORMAT" -> k <> "TESTCMD_VERBOSE" ->
              env self1 !! k = env self !! k).
    { intros k ??. rewrite Henv1. by apply Hsp. }
    exists (sp :: sps), self', w'. split; [|split; [|split; [|split; [|split;
      [|split; [|split]]]]]].
    + cbn [run_loop]. unfold mbind, M_bind. by rewrite Hrun1.
    + cbn. by rewrite Hlen.
    + intros [|k] p sp' Hp Hsp'; cbn in Hp, Hsp'; simplify_eq.
      * by rewrite Nat.add_0_r.
      * eapply spawn_for_later; [done..|].
        specialize (Hsps k p sp' Hp Hsp').
        rewrite Hcwd1, Hspawned1, length_app in Hsps. cbn in Hsps.
        by replace (length (spawned w) + S k)
          with (length (spawned w) + 1 + k) by lia.
    + destruct Hsetup1 as (?&?&?&?&?), Hsetup as (?&?&?&?&?).
      repeat split; congruence.
    + congruence.
    + intros k ??. rewrite Henv by done. by apply Hkeys1.
    + rewrite Hfail, Hfail1. cbn [zip_with failed_ids flat_map].
      unfold failed_ids. cbn [flat_map]. by rewrite app_nil_r, <-app_assoc.
    + destruct Hsetup1 as (_&_&Hv1&_).
      unfold ran. rewrite Hcwd, Henviron, Hspawned, Hticks, Herr, Hout.
      rewrite Hcwd1, Henviron1, Hspawned1, Hticks1, Herr1, Hout1, Hv1.
      cbn [zip_with records passed_through flat_map length].
      rewrite <-!app_assoc.
      replace (ticks w + 2) with (S (S (ticks w))) by lia.
      repeat split; try done. lia.
Qed.

Lemma run_pairs_length ts fs :
  length (run_pairs ts fs) = length ts * length fs.
Proof.
  unfold run_pairs. induction ts as [|t ts IH]; [done|].
  cbn. by rewrite length_app, length_map, IH.
Qed.

(** What [run] does: it prints the header, runs one child per pair and
    prints its record, and notes the elapsed time. *)
Lemma run_trace self w :
  let pairs := run_pairs (tests self) (formats self) in
  exists sps self' w',
    run h self w = (Ret self', w')
    /\ length sps = length pairs
    /\ (forall k p sp, pairs !! k = Some p -> sps !! k = Some sp ->
          spawn_for h self (cwd w) (length (spawned w) + k) p sp)
    /\ same_setup self self'
    /\ took self'
       = Py.fsub (clock h (S (ticks w) + 2 * length pairs))
           (clock h (ticks w))
    /\ failures self' = failures self ++ failed_ids (zip pairs sps)
    /\ ran w w' sps (2 + 2 * length pairs)
         (["TAP version 13" +:+ nl;
           ("0.." +:+ Py.fmt_d (num_tests self)) +:+ nl]
          ++ records h (verbose self) 1 (S (ticks w)) (zip pairs sps)).
Proof.
  intros pairs. unfold run. run_cbn.
  match goal with
  | |- context [run_loop h self 1 _ ?w0] =>
      destruct (run_loop_trace pairs self 1 w0)
        as (sps & self' & w' & Hrun & Hlen & Hsps & Hsetup & Htook & Henv
            & Hfail & Hcwd & Henviron & Hspawned & Hticks & Herr & Hout)
  end.
  fold pairs. rewrite Hrun. run_cbn.
  exists sps, (with_took self'
                 (Py.fsub (clock h (ticks w')) (clock h (ticks w)))).
  eexists. split; [reflexivity|].
  revert Hsps Hcwd Henviron Hspawned Hticks Herr Hout. run_cbn.
  intros Hsps Hcwd Henviron Hspawned Hticks Herr Hout.
  unfold ran. run_cbn. rewrite Hticks, Hout, <-!app_assoc.
  split; [done|]. split; [exact Hsps|]. split; [exact Hsetup|].
  split; [done|]. split; [done|].
  repeat split; try done. lia.
Qed.

(** ** Reading the report back *)

Lemma digit_value_char (d : N) :
  (d < 10)%N -> digit_value (pretty_N_char d) = Some d.
Proof.
  intros Hd.
  assert (d = 0 \/ d = 1 \/ d = 2 \/ d = 3 \/ d = 4 \/ d = 5 \/ d = 6
          \/ d = 7 \/ d = 8 \/ d = 9)%N as Hcases by lia.
  destruct Hcases as [->|[->|[->|[->|[->|[->|[->|[->|[->| ->]]]]]]]]];
    reflexivity.
Qed.

Lemma pretty_N_go_append (x : N) :
  forall s t, pretty_N_go x s +:+ t = pretty_N_go x (s +:+ t).
Proof.
  induction (N.lt_wf_0 x) as [x _ IH]; intros s t.
  destruct (decide (x = 0%N)) as [->|Hx].
  - by rewrite !pretty_N_go_0.
  - rewrite (pretty_N_go_step x s), (pretty_N_go_step x (s +:+ t)) by lia.
    rewrite IH by (apply N.div_lt; lia). reflexivity.
Qed.

Lemma read_pretty_N_go (x : N) :
  forall s acc,
  exists a,
    read_number acc (pretty_N_go x s) = read_number a s
    /\ (acc = 0%N -> a = x).
Proof.
  induction (N.lt_wf_0 x) as [x _ IH]; intros s acc.
  destruct (decide (x = 0%N)) as [->|Hx].
  - exists acc. by rewrite pretty_N_go_0.
  - rewrite pretty_N_go_step by lia.
    destruct (IH (x `div` 10)%N ltac:(apply N.div_lt; lia)
                (String (pretty_N_char (x `mod` 10)) s) acc)
      as (a & Ha & Hacc).
    exists (10 * a + x `mod` 10)%N. split.
    + rewrite Ha. cbn [read_number].
      by rewrite digit_value_char by (apply N.mod_lt; lia).
    + intros ->. rewrite Hacc by done.
      symmetry. apply N.div_mod. lia.
Qed.

(** A number printed with [%d] and followed by something that is not a
    digit reads back. *)
Lemma read_fmt_d (n : nat) (s : string) :
  (exists c r, s = String c r /\ digit_value c = None) ->
  read_number 0 (Py.fmt_d n +:+ s) = N.of_nat n.
Proof.
  intros (c & r & -> & Hc).
  unfold Py.fmt_d, pretty, pretty_nat, pretty, pretty_N.
  case_decide as Hn.
  - rewrite Hn. change ("0" +:+ String c r) with (String "0" (String c r)).
    cbn [read_number]. change (digit_value "0") with (Some 0%N).
    cbn [read_number]. by rewrite Hc.
  - rewrite pretty_N_go_append.
    destruct (read_pretty_N_go (N.of_nat n) ("" +:+ String c r) 0%N)
      as (a & -> & Ha).
    rewrite Ha by done. change ("" +:+ String c r) with (String c r).
    cbn [read_number]. by rewrite Hc.
Qed.

Lemma status_line_is_status rc i test fmt :
  is_status_line (status_line rc i test fmt +:+ nl) = true.
Proof.
  unfold status_line, is_status_line. apply orb_true_iff.
  repeat case_bool_decide; [left|right..]; apply startswith_spec;
    eexists; by rewrite append_assoc.
Qed.

Lemma drop_prefix_append (p r : string) : drop_prefix p (p +:+ r) = Some r.
Proof.
  induction p as [|c p IH]; [done|].
  rewrite append_cons. cbn [drop_prefix]. by rewrite Ascii.eqb_refl.
Qed.

(** The index of a status line is the number it was printed with. *)
Lemma record_index_status_line rc i test fmt :
  record_index (status_line rc i test fmt +:+ nl) = Some i.
Proof.
  unfold status_line, record_index.
  repeat case_bool_decide; rewrite !append_assoc.
  - replace (drop_prefix "not ok " _) with (@None string) by reflexivity.
    rewrite drop_prefix_append, read_fmt_d, Nat2N.id; [done|].
    by eexists _, _.
  - rewrite drop_prefix_append, read_fmt_d, Nat2N.id; [done|].
    by eexists _, _.
  - rewrite drop_prefix_append, read_fmt_d, Nat2N.id; [done|].
    by eexists _, _.
Qed.

Lemma plan_count_plan (n : nat) :
  plan_count (("0.." +:+ Py.fmt_d n) +:+ nl) = Some n.
Proof.
  unfold plan_count.
  rewrite append_assoc, drop_prefix_append, read_fmt_d, Nat2N.id; [done|].
  by eexists _, _.
Qed.

Lemma status_lines_app l1 l2 :
  status_lines (l1 ++ l2) = status_lines l1 ++ status_lines l2.
Proof. apply filter_app. Qed.

Lemma status_lines_literal_block label text :
  is_status_line (label +:+ nl) = false ->
  status_lines (literal_block label text) = [].
Proof.
  intros Hlabel. unfold literal_block, status_lines.
  rewrite filter_cons, decide_False by (by rewrite Hlabel).
  induction (Py.splitlines text) as [|l ls IH]; [done|].
  cbn [map]. by rewrite filter_cons, decide_False.
Qed.

Lemma status_lines_metadata_block took so se :
  status_lines (metadata_block took so se) = [].
Proof.
  unfold metadata_block. rewrite !status_lines_app.
  repeat case_match; rewrite ?status_lines_literal_block by done; done.
Qed.

(** A record holds one status line. *)
Lemma status_lines_record v i p sp took :
  status_lines (record v i p sp took)
  = [status_line (returncode (sp_result sp)) i p.1 p.2 +:+ nl].
Proof.
  unfold record. rewrite !status_lines_app, status_lines_metadata_block.
  rewrite app_nil_r. unfold status_lines at 2.
  rewrite filter_cons, decide_True by apply status_line_is_status.
  by destruct v.
Qed.

Lemma status_lines_records v l :
  forall i t,
    status_lines (records h v i t l)
    = imap (fun k '(p, sp) =>
              status_line (returncode (sp_result sp)) (i + k) p.1 p.2 +:+ nl) l.
Proof.
  induction l as [|[p sp] l IH]; intros i t; [done|].
  cbn [records imap]. rewrite status_lines_app, status_lines_record, IH.
  rewrite Nat.add_0_r. cbn. f_equal. apply imap_ext.
  intros k [p' sp'] _. cbn. by rewrite Nat.add_succ_r.
Qed.

Lemma record_index_records v l :
  forall i t,
    record_index <$> status_lines (records h v i t l)
    = Some <$> seq i (length l).
Proof.
  intros i t. rewrite status_lines_records. revert i.
  induction l as [|[p sp] l IH]; intros i; [done|].
  cbn [imap fmap list_fmap length seq].
  rewrite record_index_status_line, Nat.add_0_r. f_equal.
  rewrite <-IH. f_equal. apply imap_ext. intros k [p' sp'] _. cbn.
  by rewrite Nat.add_succ_r.
Qed.

(** ** The run *)

Lemma Runner_init_run F T opts v w :
  Runner_init h F T opts v w
  = (Ret {| formats := F; tests := T; verbose := v; gyp_options := opts;
            failures := []; num_tests := length F * length T;
            isatty := stdout_isatty h && negb v; env := environ w;
            hpos := 0; took := S754_zero false |}, w).
Proof. done. Qed.

(** A run of a fresh runner: one child and one record per pair. *)
Lemma fresh_run_trace F T opts v w :
  let pairs := run_pairs T F in
  exists sps self' w',
    (Runner_init h F T opts v ≫= run h) w = (Ret self', w')
    /\ length sps = length T * length F
    /\ Forall2 (fun p sp =>
                  sp_cmd sp = [sys_executable h; p.1] ++ opts
                  /\ sp_stderr_piped sp = negb v
                  /\ sp_env sp !! "TESTGYP_FORMAT" = Some p.2) pairs sps
    /\ formats self' = F /\ tests self' = T
    /\ num_tests self' = length F * length T
    /\ took self'
       = Py.fsub (clock h (S (ticks w) + 2 * length pairs))
           (clock h (ticks w))
    /\ failures self' = failed_ids (zip pairs sps)
    /\ ran w w' sps (2 + 2 * length pairs)
         (["TAP version 13" +:+ nl;
           ("0.." +:+ Py.fmt_d (length F * length T)) +:+ nl]
          ++ records h v 1 (S (ticks w)) (zip pairs sps)).
Proof.
  intros pairs. unfold mbind, M_bind. rewrite Runner_init_run.
  match goal with
  | |- context [run h ?s w] =>
      destruct (run_trace s w)
        as (sps & self' & w' & Hrun & Hlen & Hsps & Hsetup & Htook & Hfail
            & Hran)
  end.
  cbn [tests formats verbose num_tests failures app] in *.
  fold pairs in Hlen, Hsps, Htook, Hfail, Hran.
  destruct Hsetup as (HF & HT & _ & _ & Hnum). cbn in HF, HT, Hnum.
  exists sps, self', w'. rewrite Hrun.
  split; [done|]. split; [by rewrite Hlen; apply run_pairs_length|].
  split; [|done].
  apply Forall2_same_length_lookup. split; [done|].
  intros k p sp Hp Hsp.
  destruct (Hsps k p sp Hp Hsp) as (Hcmd & Hpiped & Hfmt & _). done.
Qed.

Lemma status_lines_header (n : nat) :
  status_lines ["TAP version 13" +:+ nl; ("0.." +:+ Py.fmt_d n) +:+ nl] = [].
Proof. done. Qed.

Lemma run_pairs_lookup (T F : list string) (a b : nat) (t f : string) :
  T !! a = Some t -> F !! b = Some f ->
  run_pairs T F !! (a * length F + b) = Some (t, f).
Proof.
  unfold run_pairs. revert a. induction T as [|t' T IH]; intros a Ht Hf.
  - done.
  - cbn [flat_map]. destruct a as [|a]; cbn in Ht.
    + simplify_eq. rewrite lookup_app_l.
      * cbn. by rewrite list_lookup_fmap, Hf.
      * rewrite length_map. cbn. by apply lookup_lt_Some in Hf.
    + rewrite lookup_app_r; rewrite length_map; [|cbn; lia].
      replace (S a * length F + b - length F) with (a * length F + b)
        by (cbn; lia).
      by apply IH.
Qed.

(** C1: for every pair, the exit code of its child decides the status
    line and what is recorded: exit code 0 gives [ok <index> <test>
    <format>], exit code 2 gives [not ok <index> # skip <test> <format>]
    and nothing in the failure log, any other exit code gives
    [not ok <index> <test> <format>] and one identifier [(test) format]
    appended to the failure log. *)
Theorem run_pair_status_by_exit_code
    (self : Runner) (i : nat) (test fmt : string) (w : World) :
  exists sp self' w' chunks,
    run_pair h self i test fmt w = (Ret self', w')
    /\ spawned w' = spawned w ++ [sp]
    /\ sp_cmd sp = [sys_executable h; test] ++ gyp_options self
    /\ sp_env sp !! "TESTGYP_FORMAT" = Some fmt
    /\ out w' = out w ++ chunks
    /\ (returncode (sp_result sp) = 0%Z ->
        status_lines chunks
        = [("ok " +:+ Py.fmt_d i +:+ " " +:+ test +:+ " " +:+ fmt) +:+ nl]
        /\ failures self' = failures self)
    /\ (returncode (sp_result sp) = 2%Z ->
        status_lines chunks
        = [("not ok " +:+ Py.fmt_d i +:+ " # skip " +:+ test +:+ " " +:+ fmt)
           +:+ nl]
        /\ failures self' = failures self)
    /\ (returncode (sp_result sp) <> 0%Z ->
        returncode (sp_result sp) <> 2%Z ->
        status_lines chunks
        = [("not ok " +:+ Py.fmt_d i +:+ " " +:+ test +:+ " " +:+ fmt) +:+ nl]
        /\ failures self' = failures self ++ ["(" +:+ test +:+ ") " +:+ fmt]).
Proof.
  destruct (run_pair_trace self i test fmt w)
    as (sp & self' & w' & Hrun & Hsp & _ & _ & _ & Hfail
        & _ & _ & Hspawned & _ & _ & Hout).
  destruct Hsp as (Hcmd & _ & Hfmt & _).
  exists sp, self', w'. eexists. split; [done|]. split; [done|].
  split; [done|]. split; [done|]. split; [exact Hout|].
  rewrite status_lines_record, Hfail. unfold failed_ids, failed, status_line.
  cbn [flat_map fst snd]. rewrite app_nil_r.
  split; [|split].
  - intros ->. by rewrite app_nil_r.
  - intros ->. by rewrite app_nil_r.
  - intros H0 H2. by rewrite !bool_decide_eq_false_2 by done.
Qed.

(** C2: for every format list and test list, a run emits one record per
    pair, [len(F) * len(T)] in all; the plan line, second in the report,
    declares that count as [0..N]; and the records carry the indices 1 to
    N in the order they are emitted, whatever the children do. *)
Theorem run_emits_all_records
    (F T opts : list string) (v : bool) (w : World) :
  exists self' w' sps chunks,
    (Runner_init h F T opts v ≫= run h) w = (Ret self', w')
    /\ spawned w' = spawned w ++ sps
    /\ length sps = length F * length T
    /\ out w' = out w ++ chunks
    /\ chunks !! 1
       = Some (("0.." +:+ Py.fmt_d (length F * length T)) +:+ nl)
    /\ plan_count (("0.." +:+ Py.fmt_d (length F * length T)) +:+ nl)
       = Some (length F * length T)
    /\ length (status_lines chunks) = length F * length T
    /\ record_index <$> status_lines chunks
       = Some <$> seq 1 (length F * length T).
Proof.
  destruct (fresh_run_trace F T opts v w)
    as (sps & self' & w' & Hrun & Hlen & Hsps & _ & _ & _ & _ & _
        & _ & _ & Hspawned & _ & _ & Hout).
  assert (Hzip : length (zip (run_pairs T F) sps) = length F * length T).
  { rewrite length_zip_with, run_pairs_length, Hlen. lia. }
  exists self', w', sps. eexists.
  split; [done|]. split; [done|]. split; [lia|]. split; [exact Hout|].
  split; [done|]. split; [apply plan_count_plan|].
  rewrite status_lines_app, status_lines_header, app_nil_l.
  split.
  - by rewrite status_lines_records, length_imap.
  - by rewrite record_index_records, Hzip.
Qed.

(** C3: a run goes through the pairs test by test, and for each test
    format by format: the child and the record at position
    [a * len(F) + b] are those of the test at position [a] and the format
    at position [b]; for the tests [a, b] and the formats [make, ninja]
    the pairs are (a, make), (a, ninja), (b, make), (b, ninja), with the
    indices 1 to 4. *)
Theorem run_is_test_major (F T opts : list string) (v : bool) (w : World) :
  exists self' w' sps chunks,
    (Runner_init h F T opts v ≫= run h) w = (Ret self', w')
    /\ spawned w' = spawned w ++ sps
    /\ out w' = out w ++ chunks
    /\ Forall2 (fun p sp =>
                  sp_cmd sp = [sys_executable h; p.1] ++ opts
                  /\ sp_env sp !! "TESTGYP_FORMAT" = Some p.2)
         (run_pairs T F) sps
    /\ status_lines chunks
       = imap (fun k '(p, sp) =>
                 status_line (returncode (sp_result sp)) (S k) p.1 p.2
                 +:+ nl)
           (zip (run_pairs T F) sps)
    /\ (forall a b t f,
          T !! a = Some t -> F !! b = Some f ->
          run_pairs T F !! (a * length F + b) = Some (t, f))
    /\ run_pairs ["gyptest_a.py"; "gyptest_b.py"] ["make"; "ninja"]
       = [("gyptest_a.py", "make"); ("gyptest_a.py", "ninja");
          ("gyptest_b.py", "make"); ("gyptest_b.py", "ninja")].
Proof.
  destruct (fresh_run_trace F T opts v w)
    as (sps & self' & w' & Hrun & Hlen & Hsps & _ & _ & _ & _ & _
        & _ & _ & Hspawned & _ & _ & Hout).
  exists self', w', sps. eexists.
  split; [done|]. split; [done|]. split; [exact Hout|].
  split; [|split; [|split; [|done]]].
  - eapply Forall2_impl; [exact Hsps|]. intros p sp (?&?&?). done.
  - rewrite status_lines_app, status_lines_header, app_nil_l.
    by rewrite status_lines_records.
  - intros a b t f. apply run_pairs_lookup.
Qed.

(** ** Three decimal places *)

Lemma digits3_digits (n : N) :
  exists d1 d2 d3,
    Py.digits3 n = String d1 (String d2 (String d3 EmptyString))
    /\ is_Some (digit_value d1) /\ is_Some (digit_value d2)
    /\ is_Some (digit_value d3).
Proof.
  unfold Py.digits3. eexists _, _, _. split; [done|].
  repeat split; eexists; apply digit_value_char; by apply N.mod_lt.
Qed.

(** A finite float printed with [%.3f] shows three decimal places. *)
Lemma fmt_3f_three_decimals (x : spec_float) :
  finite x -> three_decimals (Py.fmt_3f x).
Proof.
  destruct x as [s|s| |s m e]; try done; intros _.
  - exists (Py.sign s +:+ "0"), "0"%char, "0"%char, "0"%char.
    split; [by rewrite append_assoc|]. by repeat split; eexists.
  - cbn [Py.fmt_3f].
    destruct (digits3_digits (Py.thousandths m e `mod` 1000)%N)
      as (d1 & d2 & d3 & -> & ?).
    exists (Py.sign s +:+ pretty (Py.thousandths m e `div` 1000)%N), d1, d2, d3.
    split; [by rewrite append_assoc|done].
Qed.

(** The thousandths that [%.3f] prints are those nearest to the value
    [m * 2^e]: exact when [e] is not negative, and otherwise within half
    a thousandth. *)
Lemma thousandths_nearest (m : positive) (e : Z) :
  let n := Z.of_N (Py.thousandths m e) in
  ((0 <= e)%Z -> n = (Z.pos m * 1000 * 2 ^ e)%Z)
  /\ ((e < 0)%Z ->
      (Z.abs (2 * (Z.pos m * 1000) - 2 * n * 2 ^ (- e)) <= 2 ^ (- e))%Z).
Proof.
  unfold Py.thousandths. split; intros He.
  - rewrite (proj2 (Z.leb_le 0 e)) by done.
    rewrite Z2N.id; [done|]. apply Z.mul_nonneg_nonneg; [lia|].
    by apply Z.pow_nonneg.
  - rewrite (proj2 (Z.leb_gt 0 e)) by done.
    set (den := (2 ^ (- e))%Z). set (num := (Z.pos m * 1000)%Z).
    assert (0 < den)%Z as Hden by (apply Z.pow_pos_nonneg; lia).
    pose proof (Z.div_mod num den ltac:(lia)) as Hdm.
    pose proof (Z.mod_pos_bound num den Hden) as Hr.
    assert (0 <= num `div` den)%Z as Hq
      by (apply Z.div_pos; unfold num; lia).
    set (q := (num `div` den)%Z) in *. set (r := (num `mod` den)%Z) in *.
    destruct ((den <? 2 * r)%Z || ((den =? 2 * r)%Z && Z.odd q)) eqn:Hup.
    + rewrite Z2N.id by lia.
      assert (den <= 2 * r)%Z.
      { apply orb_true_iff in Hup as [Hlt|Heq].
        - apply Z.ltb_lt in Hlt. lia.
        - apply andb_true_iff in Heq as [Heq _]. apply Z.eqb_eq in Heq. lia. }
      nia.
    + rewrite Z2N.id by lia.
      apply orb_false_iff in Hup as [Hlt _]. apply Z.ltb_ge in Hlt. nia.
Qed.

(** C10: after the status line of every pair comes its metadata block:
    the opening marker, the duration with three decimal places, a block
    of the captured standard output when, trimmed, it is not empty, a
    block of the captured standard error when, trimmed, it is neither
    empty nor [PASSED], each of their lines indented, and the closing
    marker. *)
Theorem run_pair_metadata_block
    (self : Runner) (i : nat) (test fmt : string) (w : World) :
  exists sp self' w' took stdout stderr,
    run_pair h self i test fmt w = (Ret self', w')
    /\ spawned w' = spawned w ++ [sp]
    /\ took = Py.fsub (clock h (S (ticks w))) (clock h (ticks w))
    /\ stdout = Py.strip (child_stdout (sp_result sp))
    /\ stderr = Py.strip (if verbose self then ""
                          else child_stderr (sp_result sp))
    /\ out w'
       = out w
         ++ (if verbose self then [("# " +:+ test +:+ " " +:+ fmt) +:+ nl]
             else [])
         ++ [status_line (returncode (sp_result sp)) i test fmt +:+ nl]
         ++ ["  ---" +:+ nl; ("  duration_ms: " +:+ Py.fmt_3f took) +:+ nl]
         ++ (if bool_decide (stdout = "") then []
             else ("  stdout: |-" +:+ nl)
                  :: map (fun l => "    " +:+ l +:+ nl) (Py.splitlines stdout))
         ++ (if bool_decide (stderr = "") || bool_decide (stderr = "PASSED")
             then []
             else ("  stderr: |-" +:+ nl)
                  :: map (fun l => "    " +:+ l +:+ nl) (Py.splitlines stderr))
         ++ ["  ..." +:+ nl]
    /\ (finite took -> three_decimals (Py.fmt_3f took)).
Proof.
  destruct (run_pair_trace self i test fmt w)
    as (sp & self' & w' & Hrun & Hsp & _ & _ & _ & _
        & _ & _ & Hspawned & _ & _ & Hout).
  destruct Hsp as (_ & Hpiped & _).
  exists sp, self', w'. eexists _, _, _.
  split; [done|]. split; [done|]. split; [done|]. split; [done|].
  split; [done|]. split; [|apply fmt_3f_three_decimals].
  rewrite Hout. unfold record, metadata_block, literal_block, captured_stderr.
  rewrite Hpiped. cbn [fst snd]. by destruct (verbose self).
Qed.

(** ** The summary *)

Lemma print_results_run self w :
  print_results self w
  = (Ret (),
     with_out w
       (out w ++ failure_block (failures self)
        ++ [summary_line (num_tests self) (took self)
              (length (failures self)) +:+ nl; nl])).
Proof.
  unfold print_results, failure_block, summary_line.
  destruct (failures self) as [|f1 [|f2 fs]] eqn:Hf; run_cbn;
    cbn [length]; repeat case_bool_decide; try done; try lia;
    unfold print, with_out; run_cbn; rewrite <-?app_assoc; reflexivity.
Qed.

Lemma failed_ids_cons p sp l :
  failed_ids ((p, sp) :: l)
  = (if failed (returncode (sp_result sp)) then [failure_id p.1 p.2] else [])
    ++ failed_ids l.
Proof. done. Qed.

(** The failure log holds one identifier per child that failed. *)
Lemma failed_ids_length pairs sps :
  length pairs = length sps ->
  length (failed_ids (zip pairs sps))
  = length (filter (fun sp => failed (returncode (sp_result sp)) = true) sps).
Proof.
  revert sps. induction pairs as [|p pairs IH]; intros [|sp sps] Hlen;
    try done.
  cbn [zip_with]. rewrite failed_ids_cons, length_app, filter_cons.
  rewrite IH by (cbn in Hlen; lia).
  destruct (failed (returncode (sp_result sp))) eqn:Hfailed.
  - by rewrite decide_True by done.
  - by rewrite decide_False by done.
Qed.

(** C9: after a run, [print_results] prints, when some pair failed, a
    header ([Failed the following test:] for one failure, [Failed the
    following N tests:] otherwise) and the identifiers of the failed
    pairs in lexicographic order, and no such block when none failed; it
    always prints the summary line with the number of pairs,
    [len(formats) * len(tests)], the elapsed seconds with three decimal
    places and the number of failures, which is the number of records of
    the run that are [not ok] and not skipped. *)
Theorem print_results_report (F T opts : list string) (v : bool) (w : World) :
  exists self' w1 w2 sps chunks,
    (Runner_init h F T opts v ≫= run h) w = (Ret self', w1)
    /\ print_results self' w1 = (Ret (), w2)
    /\ spawned w1 = spawned w ++ sps
    /\ out w1 = out w ++ chunks
    /\ status_lines chunks
       = imap (fun k '(p, sp) =>
                 status_line (returncode (sp_result sp)) (S k) p.1 p.2
                 +:+ nl)
           (zip (run_pairs T F) sps)
    /\ length sps = length (run_pairs T F)
    /\ length (failures self')
       = length (filter (fun sp => failed (returncode (sp_result sp)) = true)
                   sps)
    /\ out w2
       = out w1
         ++ (if bool_decide (failures self' = []) then []
             else
               [nl;
                (if bool_decide (length (failures self') = 1)
                 then "Failed the following test:"
                 else "Failed the following "
                      +:+ Py.fmt_d (length (failures self')) +:+ " tests:")
                +:+ nl;
                (tab +:+ Py.join (nl +:+ tab) (Py.sorted (failures self')))
                +:+ nl;
                nl])
         ++ [("Ran " +:+ Py.fmt_d (length F * length T) +:+ " tests in "
              +:+ Py.fmt_3f (took self') +:+ "s, "
              +:+ Py.fmt_d (length (failures self')) +:+ " failed.") +:+ nl;
             nl]
    /\ Sorted String.le (Py.sorted (failures self'))
    /\ Py.sorted (failures self') ≡ₚ failures self'
    /\ took self'
       = Py.fsub (clock h (S (ticks w) + 2 * length (run_pairs T F)))
           (clock h (ticks w))
    /\ (finite (took self') -> three_decimals (Py.fmt_3f (took self'))).
Proof.
  destruct (fresh_run_trace F T opts v w)
    as (sps & self' & w1 & Hrun & Hlen & Hsps & _ & _ & Hnum & Htook & Hfail
        & _ & _ & Hspawned & _ & _ & Hout).
  exists self', w1. eexists. exists sps. eexists.
  split; [done|]. split; [apply print_results_run|]. split; [done|].
  split; [exact Hout|].
  assert (Hlen' : length sps = length (run_pairs T F))
    by (by rewrite run_pairs_length).
  split; [|split; [done|split; [|split; [|split; [|split; [|split]]]]]].
  - rewrite status_lines_app, status_lines_header, app_nil_l.
    by rewrite status_lines_records.
  - by rewrite Hfail, failed_ids_length.
  - cbn [out with_out]. by rewrite Hnum.
  - apply sorted_Sorted.
  - apply sorted_permutation.
  - exact Htook.
  - apply fmt_3f_three_decimals.
Qed.

(** ** The command line *)

Lemma bind_ret {A B} (m : M A) (f : A -> M B) w a w1 :
  m w = (Ret a, w1) -> (m ≫= f) w = f a w1.
Proof. intros Hm. unfold mbind, M_bind. by rewrite Hm. Qed.

Lemma bind_exit {A B} (m : M A) (f : A -> M B) w c w1 :
  m w = (SysExit c, w1) -> (m ≫= f) w = (SysExit c, w1).
Proof. intros Hm. unfold mbind, M_bind. by rewrite Hm. Qed.

Lemma bind_raise {A B} (m : M A) (f : A -> M B) w e w1 :
  m w = (Uncaught e, w1) -> (m ≫= f) w = (Uncaught e, w1).
Proof. intros Hm. unfold mbind, M_bind. by rewrite Hm. Qed.

Lemma print_each_run ls w :
  print_each ls w
  = (Ret (), with_out w (out w ++ map (fun l => l +:+ nl) ls)).
Proof.
  revert w. induction ls as [|l ls IH]; intros w.
  - cbn [print_each map]. run_cbn. rewrite app_nil_r. by destruct w.
  - cbn [print_each map]. run_cbn. rewrite IH. run_cbn.
    by rewrite <-app_assoc.
Qed.

(** The loop over the test arguments stops at the first invalid name,
    with the message and the exit code 1; otherwise it returns. *)
Lemma collect_tests_cases l :
  forall acc w,
    (Forall (fun a => ~ invalid_arg h (cwd w) a) l
     /\ exists ts, collect_tests h l acc w = (Ret ts, w))
    \/ (exists a, a ∈ l /\ invalid_arg h (cwd w) a
        /\ collect_tests h l acc w
           = (SysExit 1, with_err w (err w ++ [invalid_name_message a]))).
Proof.
  induction l as [|arg l IH]; intros acc w.
  - left. split; [constructor|]. by exists acc.
  - cbn [collect_tests]. unfold isdir, find_all_gyptest_files_io.
    unfold mbind, M_bind.
    destruct (listing h (cwd w) arg) as [es|] eqn:Harg.
    + rewrite bool_decide_eq_true_2 by done.
      assert (Hvalid : ~ invalid_arg h (cwd w) arg)
        by (intros [Hnone _]; congruence).
      destruct (listing h (cwd w) (OsPath.normpath arg)) as [es'|].
      * destruct (IH (acc ++ find_all_gyptest_files (OsPath.normpath arg)
                                es') w)
          as [[Hall Hret]|(a & Ha & Hinv & Hexit)].
        -- left. split; [by constructor|done].
        -- right. exists a. split; [by right|done].
      * destruct (IH (acc ++ Py.sorted (walk_result [])) w)
          as [[Hall Hret]|(a & Ha & Hinv & Hexit)].
        -- left. split; [by constructor|done].
        -- right. exists a. split; [by right|done].
    + rewrite bool_decide_eq_false_2 by (by intros [? ?]).
      destruct (is_test_name (OsPath.basename arg)) eqn:Hname; cbn [negb].
      * destruct (IH (acc ++ [arg]) w)
          as [[Hall Hret]|(a & Ha & Hinv & Hexit)].
        -- left. split; [|done]. constructor; [|done].
           intros [_ Hbad]. congruence.
        -- right. exists a. split; [by right|done].
      * right. exists arg. split; [by left|]. split; [done|].
        unfold invalid_name_message. by run_cbn.
Qed.

Lemma world_eq (w1 w2 : World) :
  cwd w1 = cwd w2 -> environ w1 = environ w2 -> out w1 = out w2 ->
  err w1 = err w2 -> spawned w1 = spawned w2 -> ticks w1 = ticks w2 ->
  sys_path w1 = sys_path w2 ->
  w1 = w2.
Proof. destruct w1, w2. cbn. by intros -> -> -> -> -> -> ->. Qed.

Lemma print_configuration_info_run w p :
  environ w !! "PYTHONPATH" = Some p ->
  exists chunks path,
    print_configuration_info h w
    = (Ret (), with_out (with_sys_path w path) (out w ++ chunks)).
Proof.
  intros Hp. unfold print_configuration_info, environ_get.
  destruct (bool_decide (sys_platform h = "darwin"));
    [destruct (xcode_version h)
    |destruct (bool_decide (sys_platform h = "win32"));
      [destruct (msvs_description h)
      |destruct (bool_decide (sys_platform h = "linux")
                 || bool_decide (sys_platform h = "linux2"));
        [destruct (lsb_release h)|]]].
  all: run_cbn; rewrite Hp; run_cbn; unfold print; eexists _, _; f_equal;
         apply world_eq;
         cbn [cwd environ out err spawned ticks sys_path
              with_out with_sys_path];
         rewrite <-?app_assoc; reflexivity.
Qed.

(** The format list does not depend on the state of the interpreter. *)
Lemma format_list_cases args w :
  (arg_format args <> ""
   /\ format_list h args w = (Ret (Py.split "," (arg_format args)), w))
  \/ (arg_format args = ""
      /\ exists l, default_formats !! sys_platform h = Some l
                   /\ format_list h args w = (Ret l, w))
  \/ (arg_format args = ""
      /\ default_formats !! sys_platform h = None
      /\ format_list h args w = (Uncaught (KeyError (sys_platform h)), w)).
Proof.
  unfold format_list. case_bool_decide as Hf; cbn [negb].
  - right. destruct (default_formats !! sys_platform h) as [l|] eqn:Hl.
    + left. split; [done|]. by exists l.
    + right. done.
  - left. done.
Qed.

Lemma failed_ids_nil pairs sps :
  length pairs = length sps ->
  failed_ids (zip pairs sps) = [] <->
  ~ Exists (fun sp => failed (returncode (sp_result sp)) = true) sps.
Proof.
  revert sps. induction pairs as [|p pairs IH]; intros [|sp sps] Hlen;
    try done.
  - split; [|done]. intros _ Hex. by apply Exists_nil in Hex.
  - cbn [zip_with]. rewrite failed_ids_cons, Exists_cons.
    specialize (IH sps ltac:(cbn in Hlen; lia)).
    destruct (failed (returncode (sp_result sp))).
    + split; [done|]. intros Hno. destruct Hno. by left.
    + cbn [app]. rewrite IH. split; [|tauto].
      intros Hno [?|?]; [done|tauto].
Qed.

Lemma format_list_world args w w' :
  format_list h args w' = ((format_list h args w).1, w').
Proof.
  unfold format_list. case_bool_decide; cbn [negb]; [|done].
  by destruct (default_formats !! sys_platform h).
Qed.

(** What [main] does once the test arguments are known: it stops at an
    invalid name; or lists the tests; or fails to find the formats of
    the platform; or runs the pairs and returns 1 when one failed and 0
    otherwise. *)
Lemma main_tests_cases args l w :
  (exists a, a ∈ l /\ invalid_arg h (cwd w) a
     /\ main_tests h args l w
        = (SysExit 1, with_err w (err w ++ [invalid_name_message a])))
  \/ (Forall (fun a => ~ invalid_arg h (cwd w) a) l
      /\ exists w',
        cwd w' = cwd w
        /\ ((arg_list args = true
             /\ main_tests h args l w = (SysExit 0, w')
             /\ spawned w' = spawned w /\ err w' = err w)
            \/ (arg_list args = false /\ arg_format args = ""
                /\ default_formats !! sys_platform h = None
                /\ main_tests h args l w
                   = (Uncaught (KeyError (sys_platform h)), w')
                /\ spawned w' = spawned w /\ err w' = err w)
            \/ (arg_list args = false
                /\ exists ts fl sps code,
                  collect_tests h l [] w = (Ret ts, w)
                  /\ format_list h args w = (Ret fl, w)
                  /\ main_tests h args l w = (Ret code, w')
                  /\ spawned w' = spawned w ++ sps
                  /\ err w' = err w ++ passed_through sps
                  /\ Forall2 (fun p sp =>
                       sp_cmd sp
                       = [sys_executable h; p.1]
                         ++ flat_map (fun o => ["-G"; o]) (arg_gyp_option args)
                       /\ sp_env sp !! "TESTGYP_FORMAT" = Some p.2)
                       (run_pairs ts fl) sps
                  /\ (code = 1%Z
                      /\ Exists (fun sp =>
                                   failed (returncode (sp_result sp)) = true)
                           sps
                      \/ code = 0%Z
                         /\ ~ Exists (fun sp =>
                                        failed (returncode (sp_result sp))
                                        = true) sps)))).
Proof.
  unfold main_tests.
  destruct (collect_tests_cases l [] w)
    as [[Hall (ts & Hcollect)]|(a & Ha & Hinv & Hexit)].
  2: { left. exists a. split; [done|]. split; [done|].
       by apply bind_exit. }
  right. split; [done|]. rewrite (bind_ret _ _ _ _ _ Hcollect).
  destruct (arg_list args) eqn:Hlist.
  { exists (with_out w (out w ++ map (fun l => l +:+ nl) ts)).
    split; [done|]. left. split; [done|].
    unfold mbind, M_bind. rewrite print_each_run. by run_cbn. }
  erewrite bind_ret by reflexivity.
  erewrite bind_ret by reflexivity.
  erewrite bind_ret by reflexivity.
  set (w1 := with_environ w _).
  assert (exists chunks path,
    (if arg_verbose args then print_configuration_info h else mret ()) w1
    = (Ret (), with_out (with_sys_path w1 path) (out w1 ++ chunks)))
    as (banner & path & Hbanner).
  { destruct (arg_verbose args).
    - eapply print_configuration_info_run. subst w1. cbn [environ with_environ].
      apply lookup_insert_eq.
    - exists [], (sys_path w1). unfold mret, M_ret. rewrite app_nil_r.
      by destruct w1. }
  rewrite (bind_ret _ _ _ _ _ Hbanner).
  set (w2 := with_out (with_sys_path w1 path) _).
  assert (exists chunks,
    (if negb (bool_decide (arg_gyp_option args = [])) && negb (arg_quiet args)
     then print ("Extra Gyp options: " +:+ str_list h (arg_gyp_option args)
                 +:+ nl)
     else mret ()) w2
    = (Ret (), with_out w2 (out w2 ++ chunks))) as (extra & Hextra).
  { destruct (_ && _).
    - eexists. reflexivity.
    - exists []. unfold mret, M_ret. rewrite app_nil_r. by destruct w2. }
  rewrite (bind_ret _ _ _ _ _ Hextra).
  set (w3 := with_out w2 _).
  assert (Hw3 : cwd w3 = cwd w /\ spawned w3 = spawned w /\ err w3 = err w)
    by done.
  destruct Hw3 as (Hcwd3 & Hspawned3 & Herr3).
  clearbody w3. clear Hbanner Hextra w1 w2.
  assert (Hcases :
    (arg_format args = "" /\ default_formats !! sys_platform h = None
     /\ format_list h args w3 = (Uncaught (KeyError (sys_platform h)), w3))
    \/ exists fl, format_list h args w3 = (Ret fl, w3)).
  { destruct (format_list_cases args w3)
      as [[Hne Hfl]|[(Hem & fl & Hl & Hfl)|(Hem & Hnone & Hfl)]]; eauto. }
  destruct Hcases as [(Hem & Hnone & Hfl)|(fl & Hfl)].
  { exists w3. split; [done|]. right. left.
    rewrite (bind_raise _ _ _ _ _ Hfl). done. }
  rewrite (bind_ret _ _ _ _ _ Hfl). cbv beta.
  rewrite (bind_ret _ _ _ _ _ (Runner_init_run _ _ _ _ _)). cbv beta.
  match goal with
  | |- context [run h ?s] =>
      destruct (run_trace s w3)
        as (sps & self' & w4 & Hrun & Hlen & Hsps & Hsetup & Htook
            & Hfail & Hcwd4 & _ & Hspawned4 & _ & Herr4 & _)
  end.
  cbn [tests formats verbose gyp_options failures app] in *.
  rewrite (bind_ret _ _ _ _ _ Hrun). cbv beta.
  assert (exists w5,
    (if negb (arg_quiet args) then print_results self' else mret ()) w4
    = (Ret (), w5)
    /\ cwd w5 = cwd w4 /\ spawned w5 = spawned w4 /\ err w5 = err w4)
    as (w5 & Hprint & Hcwd5 & Hspawned5 & Herr5)
    by (destruct (negb (arg_quiet args));
        [rewrite print_results_run|]; by eexists).
  rewrite (bind_ret _ _ _ _ _ Hprint). cbv beta.
  exists w5. split; [congruence|]. right. right. split; [done|].
  exists ts, fl, sps, (if bool_decide (failures self' = []) then 0%Z else 1%Z).
  split; [done|].
  split; [by rewrite (format_list_world args w3 w), Hfl|].
  split; [by case_bool_decide|].
  split; [congruence|]. split; [congruence|].
  split.
  { apply Forall2_same_length_lookup. split; [done|].
    intros k p sp Hp Hsp.
    destruct (Hsps k p sp Hp Hsp) as (Hcmd & _ & Hfmt & _). done. }
  pose proof (failed_ids_nil _ _ (eq_sym Hlen)) as Hnil.
  rewrite <-Hfail in Hnil.
  case_bool_decide as Hf; [right|left]; (split; [done|]).
  - by apply Hnil.
  - destruct (Exists_dec (fun sp => failed (returncode (sp_result sp)) = true)
                sps) as [Hex|Hex]; [done|by apply Hnil in Hex].
Qed.

(** The start of [main]: unless changing the directory or extending
    [PATH] raises, [main] goes on with the test arguments, having written
    nothing and started no child. *)
Lemma main_cases args w :
  (exists e w', main h args w = (Uncaught e, w'))
  \/ (exists w0,
        spawned w0 = spawned w /\ err w0 = err w /\ out w0 = out w
        /\ main h args w
           = (if bool_decide (arg_tests args = []) then
                if negb (arg_all args) then
                  stderr_write ("Specify -a to get all tests." +:+ nl);;
                  mret 1%Z
                else main_tests h args ["test"]
              else main_tests h args (arg_tests args)) w0).
Proof.
  unfold main.
  set (chdir := match arg_chdir args with
                | Some d => if negb (bool_decide (d = "")) then os_chdir h d
                            else mret ()
                | None => mret ()
                end).
  assert (Hchdir :
    (exists e, chdir w = (Uncaught e, w))
    \/ (exists wa, chdir w = (Ret (), wa) /\ spawned wa = spawned w
                   /\ err wa = err w /\ out wa = out w
                   /\ environ wa = environ w)).
  { subst chdir. destruct (arg_chdir args) as [d|]; [|right; by exists w].
    case_bool_decide; cbn [negb]; [right; by exists w|].
    unfold os_chdir. destruct (listing h (cwd w) d).
    - right. by eexists.
    - left. by eexists. }
  destruct Hchdir
    as [(e & Hchdir)|(wa & Hchdir & Hspa & Herra & Houta & Henva)].
  { left. exists e, w. by apply bind_raise. }
  rewrite (bind_ret _ _ _ _ _ Hchdir). cbv beta.
  match goal with
  | |- context [mbind _ ?m wa] => set (path := m)
  end.
  assert (Hpath :
    (exists e, path wa = (Uncaught e, wa))
    \/ (exists wb, path wa = (Ret (), wb) /\ spawned wb = spawned wa
                   /\ err wb = err wa /\ out wb = out wa)).
  { subst path. case_bool_decide; cbn [negb]; [right; by exists wa|].
    unfold mbind, M_bind, getcwd, environ_get, environ_set.
    destruct (environ wa !! "PATH").
    - right. by eexists.
    - left. by eexists. }
  destruct Hpath as [(e & Hpath)|(wb & Hpath & Hspb & Herrb & Houtb)].
  { left. exists e, wa. by apply bind_raise. }
  rewrite (bind_ret _ _ _ _ _ Hpath). cbv beta.
  right. exists wb. repeat split; congruence.
Qed.

(** Once the command line is parsed: when [main] ends without an
    uncaught exception, the code with which it ends is 1 exactly when a
    pair failed, or no test was given without the run-all flag, or one
    of the test arguments it goes through (the positional ones, or
    [test] under the run-all flag) is invalid; the two input errors are
    written to the standard error and start no child; otherwise the code
    is 0. *)
Lemma exit_code_after_parsing (args : Args) (w : World) :
  (forall e, (main h args w).1 <> Uncaught e) ->
  exit_code_law h args w (effective_tests args).
Proof.
  intros Hcompletes. unfold exit_code_law.
  destruct (main_cases args w)
    as [(e & w' & Hmain)|(w0 & Hsp0 & Herr0 & Hout0 & Hmain)].
  { exfalso. apply (Hcompletes e). by rewrite Hmain. }
  destruct (decide (arg_tests args = [] /\ arg_all args = false))
    as [[Hnil Hall]|Hsome].
  { (* no test and no run-all flag *)
    rewrite Hnil, Hall in Hmain. cbn [negb] in Hmain.
    assert (Hm : main h args w
                 = (Ret 1%Z, with_err w0
                      (err w0 ++ ["Specify -a to get all tests." +:+ nl])))
      by (by rewrite Hmain).
    rewrite Hm. cbn [fst snd spawned err cwd with_err].
    exists 1%Z, []. split; [by left|]. split; [by rewrite app_nil_r|].
    split; [split; [intros _; right; left; done|done]|].
    split; [intros Hno; destruct Hno; right; left; done|].
    split; [intros _; by rewrite Herr0|].
    intros Hno. by destruct Hno. }
  assert (Hmain' : main h args w
                   = main_tests h args (effective_tests args) w0).
  { rewrite Hmain. unfold effective_tests.
    case_bool_decide as Hnil; [|done].
    destruct (arg_all args); [done|]. by destruct Hsome. }
  clear Hmain.
  destruct (main_tests_cases args (effective_tests args) w0)
    as [(a & Ha & Hinv & Hexit)|(Hvalid & w' & Hcwd & Hcases)].
  - (* an invalid name *)
    rewrite Hmain', Hexit. cbn [fst snd spawned err cwd with_err].
    exists 1%Z, []. split; [by right|]. split; [by rewrite app_nil_r|].
    assert (Hbad : Exists (invalid_arg h (cwd w0)) (effective_tests args))
      by (apply Exists_exists; eauto).
    split; [split; [intros _; right; right; done|done]|].
    split; [intros Hno; destruct Hno; right; right; done|].
    split; [done|]. intros _ _. split; [done|].
    exists a. by rewrite Herr0.
  - assert (Hgood : ~ Exists (invalid_arg h (cwd w')) (effective_tests args))
      by (rewrite Hcwd; by apply Forall_Exists_neg).
    destruct Hcases as [(Hlist & Hm & Hsp & Herr)
      |[(Hlist & Hfmt & Hnone & Hm & Hsp & Herr)
       |(Hlist & ts & fl & sps & code & _ & _ & Hm & Hsp & Herr & _ & Hcode)]].
    + (* the tests are listed *)
      rewrite Hmain', Hm. cbn [fst snd].
      exists 0%Z, []. split; [by right|].
      split; [by rewrite app_nil_r, Hsp|].
      split; [split; [done|]; intros [Hex|[?|?]]; [|done..];
              by apply Exists_nil in Hex|].
      split; [done|]. split; [done|]. done.
    + (* the platform has no default formats *)
      exfalso. apply (Hcompletes (KeyError (sys_platform h))).
      by rewrite Hmain', Hm.
    + (* the pairs are run *)
      rewrite Hmain', Hm. cbn [fst snd].
      exists code, sps. split; [by left|]. split; [by rewrite Hsp, Hsp0|].
      split; [|split; [|split; [done|done]]].
      * destruct Hcode as [[-> Hex]|[-> Hex]].
        -- split; [by left|done].
        -- split; [done|]. intros [?|[?|?]]; done.
      * intros Hno. destruct Hcode as [[-> Hex]|[-> Hex]]; [|done].
        destruct Hno. by left.
Qed.

(** ** The formats *)

Lemma split_cons (sep : ascii) (s : string) :
  exists x xs, Py.split sep s = x :: xs.
Proof.
  destruct s as [|c s]; cbn; [by eexists _, _|].
  destruct (Ascii.eqb c sep); [by eexists _, _|].
  destruct (Py.split sep s); by eexists _, _.
Qed.

Lemma concat_cons (sep a b : string) (l : list string) :
  String.concat sep (a :: b :: l) = a +:+ sep +:+ String.concat sep (b :: l).
Proof. done. Qed.

(** Joining what [split] returns gives the string back: [split] keeps
    every piece, empty ones and repeated ones too, in order. *)
Lemma join_split (sep : ascii) (s : string) :
  Py.join (String sep EmptyString) (Py.split sep s) = s.
Proof.
  unfold Py.join. induction s as [|c s IH]; [done|].
  cbn [Py.split]. destruct (split_cons sep s) as (x & xs & Hsplit).
  rewrite Hsplit in *. destruct (Ascii.eqb c sep) eqn:Hc.
  - apply Ascii.eqb_eq in Hc as ->. rewrite concat_cons, IH. done.
  - cbn [Py.cons_line]. destruct xs as [|y ys].
    + cbn in *. by rewrite IH.
    + rewrite concat_cons in *. rewrite append_cons. by rewrite IH.
Qed.

Lemma split_no_sep (sep : ascii) (s : string) :
  Forall (fun f => has_char sep f = false) (Py.split sep s).
Proof.
  induction s as [|c s IH]; [by repeat constructor|].
  cbn [Py.split]. destruct (Ascii.eqb c sep) eqn:Hc.
  - by constructor.
  - destruct (Py.split sep s) as [|x xs]; cbn [Py.cons_line].
    + constructor; [|done]. cbn. by rewrite Hc.
    + inversion IH; subst. constructor; [|done]. cbn. by rewrite Hc.
Qed.

(** C8: an explicit format string gives the list of its pieces between
    commas, in order and with nothing dropped; with no format string the
    list is what the table of default formats has for the platform of the
    host, and when the platform is not in the table the lookup raises
    [KeyError], which [main] does not catch: it ends there, having started
    no child. *)
Theorem format_resolution (args : Args) (w : World) :
  (arg_format args <> "" ->
     format_list h args w = (Ret (Py.split "," (arg_format args)), w)
     /\ Py.join "," (Py.split "," (arg_format args)) = arg_format args
     /\ Forall (fun f => has_char "," f = false)
          (Py.split "," (arg_format args)))
  /\ (arg_format args = "" ->
      forall l, default_formats !! sys_platform h = Some l ->
                format_list h args w = (Ret l, w))
  /\ (arg_format args = "" ->
      default_formats !! sys_platform h = None ->
      format_list h args w = (Uncaught (KeyError (sys_platform h)), w)
      /\ forall tests,
           Forall (fun a => ~ invalid_arg h (cwd w) a) tests ->
           arg_list args = false ->
           exists w', main_tests h args tests w
                      = (Uncaught (KeyError (sys_platform h)), w')
                      /\ spawned w' = spawned w)
  /\ (default_formats !! sys_platform h = None <->
      sys_platform h ∉ ["aix5"; "freebsd7"; "freebsd8"; "openbsd5"; "cygwin";
                        "win32"; "linux"; "linux2"; "linux3"; "darwin"]).
Proof.
  split; [|split; [|split]].
  - intros Hf. split; [|split].
    + unfold format_list. by rewrite bool_decide_eq_false_2.
    + apply (join_split ","%char).
    + apply split_no_sep.
  - intros Hf l Hl. unfold format_list.
    rewrite bool_decide_eq_true_2 by done. cbn [negb]. by rewrite Hl.
  - intros Hf Hnone.
    assert (Hfl : forall w0, format_list h args w0
                             = (Uncaught (KeyError (sys_platform h)), w0)).
    { intros w0. unfold format_list.
      rewrite bool_decide_eq_true_2 by done. cbn [negb]. by rewrite Hnone. }
    split; [apply Hfl|]. intros tests Hvalid Hlist.
    destruct (main_tests_cases args tests w)
      as [(a & Ha & Hinv & _)|(_ & w' & _ & Hcases)].
    { rewrite Forall_forall in Hvalid. by destruct (Hvalid a Ha). }
    destruct Hcases as [(Hl & _)|[(_ & _ & _ & Hm & Hsp & _)
      |(_ & ts & fl & sps & code & _ & Hfl' & _)]].
    + congruence.
    + by exists w'.
    + rewrite Hfl in Hfl'. discriminate.
  - unfold default_formats.
    rewrite <-(not_elem_of_list_to_map (M := gmap string)). reflexivity.
Qed.

(** C4, as the code has it: the no-execute flag changes nothing; [main]
    runs the children all the same and prints no command line. *)
Theorem main_ignores_no_exec (args : Args) (b : bool) (w : World) :
  main h (set_no_exec args b) w = main h args w.
Proof. done. Qed.

End RunFacts.

(** ** The children of a run, one by one *)

Section MoreFacts.

Variable h : Host.

(** Runs the primitives of the script on the state at hand. *)
Ltac exec_cbn :=
  unfold mbind, M_bind, mret, M_ret;
  cbn [print eprint stderr_write stdout_write sys_path_append time_time
       popen_communicate environ_copy environ_set getcwd sys_exit raise
       with_cwd with_environ with_out with_err with_spawned with_ticks
       with_sys_path cwd environ out err spawned ticks sys_path
       with_env with_failures with_took
       formats tests verbose gyp_options failures num_tests isatty env hpos took
       sp_cmd sp_env sp_stderr_piped sp_result
       negb andb orb default from_option id fst snd].

(** Setting the format and the verbosity again overwrites what an
    earlier pair has set. *)
Lemma child_env_again (v : bool) (f f' : string) (e : gmap string string) :
  child_env v f (child_env v f' e) = child_env v f e.
Proof.
  unfold child_env. destruct v.
  - rewrite (insert_insert_ne _ "TESTGYP_FORMAT" "TESTCMD_VERBOSE") by done.
    by rewrite !insert_insert_eq.
  - by rewrite insert_insert_eq.
Qed.

Lemma run_pair_child self i test fmt w :
  exists self' w',
    run_pair h self i test fmt w = (Ret self', w')
    /\ spawned w'
       = spawned w
         ++ [child_of h (verbose self) (gyp_options self) (env self) (cwd w)
               (length (spawned w)) (test, fmt)]
    /\ env self' = child_env (verbose self) fmt (env self)
    /\ sys_path w' = sys_path w.
Proof.
  unfold run_pair, run_test.
  destruct self as [fs ts v go fl nt tty e hp tk]. destruct v; exec_cbn.
  all: match goal with
       | |- context [child h ?n ?c ?e ?d] => set (r := child h n c e d)
       end.
  all: destruct (bool_decide (returncode r = 2%Z));
         [|destruct (bool_decide (returncode r = 0%Z))]; exec_cbn.
  all: destruct (negb (bool_decide (String.length (Py.strip (child_stdout r))
                                    = 0)));
         exec_cbn; rewrite ?print_lines_run; exec_cbn.
  all: try (destruct (negb (bool_decide
                        (String.length (Py.strip (child_stderr r)) = 0))
                      && negb (bool_decide
                                 (Py.strip (child_stderr r) = "PASSED")));
            exec_cbn; rewrite ?print_lines_run; exec_cbn).
  all: eexists _, _; split; [reflexivity|]; split; [reflexivity|];
         split; reflexivity.
Qed.

Lemma run_loop_children pairs :
  forall self i w,
  exists self' w',
    run_loop h self i pairs w = (Ret self', w')
    /\ spawned w'
       = spawned w
         ++ children h (verbose self) (gyp_options self) (env self) (cwd w)
              (length (spawned w)) pairs
    /\ sys_path w' = sys_path w.
Proof.
  induction pairs as [|[test fmt] pairs IH]; intros self i w.
  - exists self, w. cbn. by rewrite app_nil_r.
  - destruct (run_pair_child self i test fmt w)
      as (self1 & w1 & Hrun1 & Hsp1 & Henv1 & Hpath1).
    destruct (run_pair_trace h self i test fmt w)
      as (sp & self1' & w1' & Hrun1' & _ & Hsetup & _ & _ & _ & Hcwd1 & _).
    rewrite Hrun1 in Hrun1'. injection Hrun1' as <- <-.
    destruct Hsetup as (_ & _ & Hv & Hgo & _).
    destruct (IH self1 (S i) w1) as (self' & w' & Hrun & Hsp & Hpath).
    exists self', w'. split; [|split; [|congruence]].
    + cbn [run_loop]. unfold mbind, M_bind. by rewrite Hrun1.
    + rewrite Hsp, Hsp1, Hv, Hgo, Henv1, Hcwd1, length_app, <-app_assoc.
      cbn [length children app]. rewrite Nat.add_1_r. do 2 f_equal.
      clear. generalize (S (length (spawned w))).
      induction pairs as [|p pairs IH]; intros n; [done|].
      cbn [children]. rewrite IH. f_equal.
      unfold child_of. cbn [sp_cmd sp_env]. by rewrite child_env_again.
Qed.

Lemma children_length v opts e d n pairs :
  length (children h v opts e d n pairs) = length pairs.
Proof.
  revert n. induction pairs as [|p pairs IH]; intros n; [done|].
  cbn. by rewrite IH.
Qed.

Lemma children_lookup v opts e d n pairs k :
  children h v opts e d n pairs !! k
  = child_of h v opts e d (n + k) <$> pairs !! k.
Proof.
  revert n k. induction pairs as [|p pairs IH]; intros n [|k]; try done.
  - cbn. by rewrite Nat.add_0_r.
  - cbn. rewrite IH. by replace (S n + k) with (n + S k) by lia.
Qed.

(** What [run] does, child by child: every child is started with the
    environment the runner was given, the format of its pair and, in
    verbose mode, the verbosity. *)
Lemma run_exact self w :
  let pairs := run_pairs (tests self) (formats self) in
  let sps := children h (verbose self) (gyp_options self) (env self) (cwd w)
               (length (spawned w)) pairs in
  exists self' w',
    run h self w = (Ret self', w')
    /\ same_setup self self'
    /\ took self'
       = Py.fsub (clock h (S (ticks w) + 2 * length pairs))
           (clock h (ticks w))
    /\ failures self' = failures self ++ failed_ids (zip pairs sps)
    /\ ran w w' sps (2 + 2 * length pairs)
         (["TAP version 13" +:+ nl;
           ("0.." +:+ Py.fmt_d (num_tests self)) +:+ nl]
          ++ records h (verbose self) 1 (S (ticks w)) (zip pairs sps))
    /\ sys_path w' = sys_path w.
Proof.
  intros pairs sps.
  destruct (run_trace h self w)
    as (sps' & self' & w' & Hrun & Hlen & _ & Hsetup & Htook & Hfail & Hran).
  fold pairs in Hlen, Htook, Hfail, Hran.
  assert (sps' = sps /\ sys_path w' = sys_path w) as [-> Hpath].
  { destruct Hran as (_ & _ & Hsp & _).
    revert Hrun. unfold run. exec_cbn.
    match goal with
    | |- context [run_loop h self 1 _ ?w0] =>
        destruct (run_loop_children pairs self 1 w0)
          as (self1 & w1 & Hloop & Hsp1 & Hpath1)
    end.
    fold pairs. rewrite Hloop. exec_cbn. intros [= <- <-].
    revert Hsp Hsp1 Hpath1. exec_cbn. intros Hsp Hsp1 Hpath1.
    rewrite Hsp1 in Hsp. split; [|done].
    by apply app_inv_head in Hsp. }
  by exists self', w'.
Qed.

(** ** [main], case by case *)

Lemma valid_arg_spec (d a : string) :
  valid_arg h d a = false <-> invalid_arg h d a.
Proof.
  unfold valid_arg, invalid_arg. destruct (listing h d a).
  - split; [done|]. by intros [? _].
  - split; [done|]. by intros [_ ?].
Qed.

Lemma first_invalid_none (d : string) (l : list string) :
  first_invalid h d l = None <-> Forall (fun a => valid_arg h d a = true) l.
Proof.
  unfold first_invalid. induction l as [|a l IH]; cbn [find].
  - split; [constructor|done].
  - destruct (valid_arg h d a) eqn:Ha; cbn [negb].
    + rewrite IH. split; [by constructor|by inversion 1].
    + split; [done|]. inversion 1; congruence.
Qed.

(** The first invalid argument comes after valid ones only. *)
Lemma first_invalid_some (d : string) (l : list string) (a : string) :
  first_invalid h d l = Some a <->
  exists l1 l2, l = l1 ++ a :: l2
                /\ Forall (fun a => valid_arg h d a = true) l1
                /\ valid_arg h d a = false.
Proof.
  unfold first_invalid. induction l as [|b l IH]; cbn [find].
  - split; [done|]. intros ([|??] & ? & ? & _); done.
  - destruct (valid_arg h d b) eqn:Hb; cbn [negb].
    + rewrite IH. split.
      * intros (l1 & l2 & -> & Hl1 & Ha). exists (b :: l1), l2.
        split; [done|]. split; [by constructor|done].
      * intros ([|b' l1] & l2 & Hl & Hl1 & Ha).
        -- cbn in Hl. congruence.
        -- injection Hl as <- ->. inversion Hl1; subst. by exists l1, l2.
    + split.
      * intros [= <-]. exists [], l. by repeat split.
      * intros ([|b' l1] & l2 & Hl & Hl1 & Ha).
        -- cbn in Hl. congruence.
        -- injection Hl as <- ->. inversion Hl1; subst. congruence.
Qed.

(** The loop over the test arguments, in closed form. *)
Lemma collect_tests_run l :
  forall acc w,
    collect_tests h l acc w
    = match first_invalid h (cwd w) l with
      | Some a =>
          (SysExit 1%Z, with_err w (err w ++ [invalid_name_message a]))
      | None => (Ret (acc ++ flat_map (expand_arg h (cwd w)) l), w)
      end.
Proof.
  unfold first_invalid.
  induction l as [|arg l IH]; intros acc w; cbn [collect_tests find flat_map].
  - by rewrite app_nil_r.
  - unfold isdir, find_all_gyptest_files_io, mbind, M_bind, mret, M_ret.
    unfold valid_arg at 1. unfold expand_arg at 1.
    destruct (listing h (cwd w) arg) as [es|] eqn:Harg; cbn [negb].
    + rewrite bool_decide_eq_true_2 by done.
      destruct (listing h (cwd w) (OsPath.normpath arg)) as [es'|];
        rewrite IH; destruct (find _ l); try done;
        by rewrite <-app_assoc.
    + rewrite bool_decide_eq_false_2 by (by intros [? ?]).
      destruct (is_test_name (OsPath.basename arg)); cbn [negb].
      * rewrite IH. destruct (find _ l); [done|]. by rewrite <-app_assoc.
      * done.
Qed.

(** The banner, and how far it gets when [PYTHONPATH] is not set. *)
Lemma print_configuration_info_chunks w :
  print_configuration_info h w
  = match environ w !! "PYTHONPATH" with
    | Some p =>
        (Ret (),
         with_out (with_sys_path w (sys_path w ++ platform_path h (cwd w)))
           (out w ++ configuration_info h p))
    | None =>
        (Uncaught (KeyError "PYTHONPATH"),
         with_out (with_sys_path w (sys_path w ++ platform_path h (cwd w)))
           (out w ++ configuration_head h))
    end.
Proof.
  unfold print_configuration_info, environ_get, configuration_info,
    configuration_head, platform_info, platform_path.
  destruct (bool_decide (sys_platform h = "darwin"));
    [destruct (xcode_version h)
    |destruct (bool_decide (sys_platform h = "win32"));
      [destruct (msvs_description h)
      |destruct (bool_decide (sys_platform h = "linux")
                 || bool_decide (sys_platform h = "linux2"));
        [destruct (lsb_release h)|]]].
  all: exec_cbn; destruct (environ w !! "PYTHONPATH"); exec_cbn;
         unfold print; f_equal; apply world_eq;
         cbn [cwd environ out err spawned ticks sys_path
              with_out with_sys_path app];
         rewrite <-?app_assoc, ?app_nil_r; reflexivity.
Qed.

Lemma format_list_of args w :
  format_list h args w
  = match format_of h args with
    | Some fl => (Ret fl, w)
    | None => (Uncaught (KeyError (sys_platform h)), w)
    end.
Proof.
  unfold format_list, format_of. case_bool_decide; cbn [negb]; [|done].
  by destruct (default_formats !! sys_platform h).
Qed.

(** [main] from the test loop on, in closed form. *)
Lemma main_tests_unfolded args l w :
  main_tests h args l w = main_tests_result h args l w.
Proof.
  unfold main_tests, main_tests_result.
  unfold mbind at 1. unfold M_bind at 1. rewrite collect_tests_run.
  destruct (first_invalid h (cwd w) l) as [a|]; [done|]. cbn [app].
  set (ts := flat_map (expand_arg h (cwd w)) l).
  destruct (arg_list args).
  { unfold mbind, M_bind. rewrite print_each_run. reflexivity. }
  erewrite bind_ret by reflexivity.
  erewrite bind_ret by reflexivity.
  erewrite bind_ret by reflexivity.
  fold (runner_environ w).
  set (w1 := with_environ w (runner_environ w)).
  assert (Hbanner :
    (if arg_verbose args then print_configuration_info h else mret ()) w1
    = (Ret (),
       with_out (with_sys_path w1 (preamble_path h args w))
         (out w
          ++ (if arg_verbose args
              then configuration_info h (OsPath.abspath (cwd w) "test/lib")
              else [])))).
  { unfold preamble_path. destruct (arg_verbose args).
    - rewrite print_configuration_info_chunks. subst w1.
      cbn [environ with_environ]. unfold runner_environ.
      by rewrite lookup_insert_eq.
    - unfold mret, M_ret. rewrite !app_nil_r. by destruct w. }
  rewrite (bind_ret _ _ _ _ _ Hbanner). clear Hbanner.
  set (w1' := with_sys_path w1 _).
  set (w2 := with_out w1' _).
  assert (Hextra :
    (if negb (bool_decide (arg_gyp_option args = [])) && negb (arg_quiet args)
     then print ("Extra Gyp options: " +:+ str_list h (arg_gyp_option args)
                 +:+ nl)
     else mret ()) w2
    = (Ret (),
       with_out w1' (out w ++ preamble h args (cwd w)))).
  { unfold preamble, extra_options. destruct (_ && _).
    - subst w2. unfold print. cbn [out with_out]. by rewrite <-app_assoc.
    - subst w2. unfold mret, M_ret. by rewrite app_nil_r. }
  rewrite (bind_ret _ _ _ _ _ Hextra). clear Hextra w2.
  set (w3 := with_out w1' _).
  unfold mbind at 1. unfold M_bind at 1. rewrite format_list_of.
  destruct (format_of h args) as [fl|]; [|done].
  rewrite (bind_ret _ _ _ _ _ (Runner_init_run h _ _ _ _ _)). cbv beta.
  match goal with
  | |- context [run h ?s] =>
      destruct (run_exact s w3)
        as (self' & w4 & Hrun & Hsetup & Htook & Hfail
            & (Hcwd & Henv & Hsp & Hticks & Herr & Hout) & Hpath)
  end.
  cbn [tests formats verbose gyp_options failures env num_tests app] in *.
  destruct Hsetup as (_ & _ & _ & _ & Hnum). cbn [num_tests] in Hnum.
  rewrite (bind_ret _ _ _ _ _ Hrun). cbv beta.
  fold (runner_options args) in *.
  change (children h (arg_verbose args) (runner_options args) (environ w3)
            (cwd w3) (length (spawned w3)) (run_pairs ts fl))
    with (main_children h args w ts fl) in *.
  assert (Hcode :
    (if negb (bool_decide (failures self' = []))
     then mret 1%Z else mret 0%Z : M Z)
    = mret (if bool_decide
                 (failed_ids
                    (zip (run_pairs ts fl) (main_children h args w ts fl))
                  = [])
            then 0%Z else 1%Z)).
  { rewrite Hfail. by case_bool_decide. }
  rewrite Hcode. clear Hcode.
  unfold run_result, main_report.
  destruct (arg_quiet args); cbn [negb].
  - unfold mbind, M_bind, mret, M_ret. f_equal.
    apply world_eq; cbn [cwd environ out err spawned ticks sys_path];
      try done.
    rewrite Hout. subst w3. cbn [out with_out].
    by rewrite <-!app_assoc, app_nil_r.
  - unfold mbind, M_bind. rewrite print_results_run.
    unfold mret, M_ret. f_equal.
    apply world_eq;
      cbn [cwd environ out err spawned ticks sys_path with_out]; try done.
    rewrite Hout, Hnum, Htook, Hfail. subst w3. cbn [out with_out ticks].
    by rewrite <-!app_assoc.
Qed.

(** [main] in closed form. *)
Lemma main_unfolded args w : main h args w = main_result h args w.
Proof.
  unfold main, main_result, chdir_fails, start_world, start_environ,
    work_dir.
  cbv zeta.
  set (rest := if bool_decide (arg_tests args = []) then
                 if negb (arg_all args) then
                   stderr_write ("Specify -a to get all tests." +:+ nl);;
                   mret 1%Z
                 else main_tests h args ["test"]
               else main_tests h args (arg_tests args)).
  assert (Hrest : forall w0,
    rest w0
    = if bool_decide (arg_tests args = []) && negb (arg_all args) then
        (Ret 1%Z,
         with_err w0 (err w0 ++ ["Specify -a to get all tests." +:+ nl]))
      else main_tests_result h args (effective_tests args) w0).
  { intros w0. subst rest. cbv beta. unfold effective_tests.
    case_bool_decide; cbn [andb]; [|apply main_tests_unfolded].
    destruct (arg_all args); cbn [negb]; [apply main_tests_unfolded|done]. }
  clearbody rest.
  assert (Hpath : forall wa,
    environ wa = environ w ->
    (((if negb (bool_decide (arg_path args = [])) then
         d ← getcwd;
         path ← environ_get "PATH";
         environ_set "PATH"
           (Py.join ":" (map (OsPath.abspath d) (arg_path args))
            +:+ ":" +:+ path)
       else mret ());; rest) wa
    = if negb (bool_decide (arg_path args = []))
         && bool_decide (environ w !! "PATH" = None)
      then (Uncaught (KeyError "PATH"), wa)
      else rest (with_environ wa
                   (if bool_decide (arg_path args = []) then environ w
                    else <["PATH" := extended_path args (cwd wa)
                                       (default "" (environ w !! "PATH"))]>
                           (environ w))))).
  { intros wa Hwa.
    destruct (bool_decide (arg_path args = [])); cbn [negb andb].
    - unfold mbind, M_bind, mret, M_ret. cbv beta iota. f_equal.
      destruct wa as [c e o er sp t pa]. cbn [environ] in Hwa. by subst.
    - unfold mbind, M_bind, getcwd, environ_get, environ_set. rewrite Hwa.
      destruct (environ w !! "PATH") as [old|]; [|done].
      rewrite bool_decide_eq_false_2 by done. by rewrite Hwa. }
  destruct (arg_chdir args) as [d|].
  - destruct (bool_decide (d = "")) eqn:Hd; cbn [negb].
    + erewrite bind_ret by reflexivity. cbv beta.
      rewrite (Hpath w eq_refl).
      destruct (negb (bool_decide (arg_path args = []))
                && bool_decide (environ w !! "PATH" = None));
        [by destruct w|].
      rewrite !Hrest. by destruct w.
    + unfold os_chdir. unfold mbind at 1. unfold M_bind at 1.
      destruct (listing h (cwd w) d); [|done].
      rewrite (Hpath (with_cwd w (OsPath.abspath (cwd w) d)) eq_refl).
      destruct (negb (bool_decide (arg_path args = []))
                && bool_decide (environ w !! "PATH" = None)); [done|].
      by rewrite !Hrest.
  - erewrite bind_ret by reflexivity. cbv beta.
    rewrite (Hpath w eq_refl).
    destruct (negb (bool_decide (arg_path args = []))
              && bool_decide (environ w !! "PATH" = None));
      [by destruct w|].
    rewrite !Hrest. by destruct w.
Qed.

(** ** The command line, the preparation and the run *)







(** [main(argv)], by what the parser makes of the command line. *)
Lemma main_argv_cases argv w :
  match parse_args h (command_line h argv) with
  | Parsed args => main_argv h argv w = main h args w
  | Usage usage message =>
      main_argv h argv w
      = (SysExit 2%Z, with_err w (err w ++ [usage; message]))
  | Help text =>
      main_argv h argv w = (SysExit 0%Z, with_out w (out w ++ [text]))
  end.
Proof.
  unfold main_argv, command_line. cbv zeta.
  destruct (parse_args h _) as [args|usage message|text]; [done|..];
    exec_cbn; [|done].
  f_equal. apply world_eq; cbn [cwd environ out err spawned ticks sys_path];
    try done.
  by rewrite <-app_assoc.
Qed.

(** The ways [main] ends, each with the state it leaves. *)
Lemma main_cases_exact args w :
  let w0 := start_world args w in
  let l := effective_tests args in
  let ts := flat_map (expand_arg h (work_dir args w)) l in
  (exists d, chdir_fails h args w = Some d
             /\ main h args w = (Uncaught (OSError d), w))
  \/ (chdir_fails h args w = None /\ arg_path args <> []
      /\ environ w !! "PATH" = None
      /\ main h args w
         = (Uncaught (KeyError "PATH"), with_cwd w (work_dir args w)))
  \/ (starts h args w
      /\ ((no_tests args
           /\ main h args w
              = (Ret 1%Z,
                 with_err w0
                   (err w ++ ["Specify -a to get all tests." +:+ nl])))
          \/ (~ no_tests args
              /\ ((exists a,
                     first_invalid h (work_dir args w) l = Some a
                     /\ main h args w
                        = (SysExit 1%Z,
                           with_err w0 (err w ++ [invalid_name_message a])))
                  \/ (first_invalid h (work_dir args w) l = None
                      /\ ((arg_list args = true
                           /\ main h args w
                              = (SysExit 0%Z,
                                 with_out w0
                                   (out w ++ map (fun t => t +:+ nl) ts)))
                          \/ (arg_list args = false
                              /\ ((format_of h args = None
                                   /\ main h args w
                                      = (Uncaught (KeyError (sys_platform h)),
                                         with_out
                                           (with_sys_path
                                              (with_environ w0
                                                 (runner_environ w0))
                                              (preamble_path h args w0))
                                           (out w
                                            ++ preamble h args
                                                 (work_dir args w))))
                                  \/ (exists fl,
                                        format_of h args = Some fl
                                        /\ main h args w
                                           = run_result h args w0 ts fl))))))))).
Proof.
  intros w0 l ts. rewrite main_unfolded. unfold main_result.
  destruct (chdir_fails h args w) as [d|] eqn:Hchdir; [left; by exists d|].
  right.
  assert (Hpath :
    (arg_path args <> [] /\ environ w !! "PATH" = None
     /\ negb (bool_decide (arg_path args = []))
         && bool_decide (environ w !! "PATH" = None) = true)
    \/ ((arg_path args = [] \/ is_Some (environ w !! "PATH"))
        /\ negb (bool_decide (arg_path args = []))
            && bool_decide (environ w !! "PATH" = None) = false)).
  { destruct (decide (arg_path args = [])) as [Hp|Hp].
    - right. split; [by left|]. by rewrite bool_decide_eq_true_2.
    - rewrite (bool_decide_eq_false_2 _ Hp). cbn [negb andb].
      destruct (environ w !! "PATH") as [old|] eqn:Hold.
      + right. split; [right; by eexists|]. by rewrite bool_decide_eq_false_2.
      + left. by rewrite bool_decide_eq_true_2. }
  destruct Hpath as [(Hp & Hold & ->)|[Hok ->]]; [left; done|].
  right. split; [done|]. fold w0 l.
  assert (Hnone :
    (no_tests args
     /\ bool_decide (arg_tests args = []) && negb (arg_all args) = true)
    \/ (~ no_tests args
        /\ bool_decide (arg_tests args = []) && negb (arg_all args) = false)).
  { unfold no_tests. destruct (decide (arg_tests args = [])) as [Ht|Ht].
    - rewrite (bool_decide_eq_true_2 _ Ht).
      destruct (arg_all args); [right|left]; split; try done.
      by intros [_ ?].
    - rewrite (bool_decide_eq_false_2 _ Ht). right. split; [|done].
      by intros [? _]. }
  destruct Hnone as [[Hno ->]|[Hsome ->]]; [left; done|].
  right. split; [done|].
  unfold main_tests_result. change (cwd w0) with (work_dir args w).
  destruct (first_invalid h (work_dir args w) l) as [a|];
    [left; by exists a|right; split; [done|]].
  fold ts.
  destruct (arg_list args); [left; done|right; split; [done|]].
  destruct (format_of h args) as [fl|]; [right; by exists fl|left; done].
Qed.

Lemma first_invalid_forall (d : string) (l : list string) :
  first_invalid h d l = None
  <-> Forall (fun a => ~ invalid_arg h d a) l.
Proof.
  rewrite first_invalid_none. apply Forall_proper; [|done]. intros a.
  rewrite <-valid_arg_spec. by destruct (valid_arg h d a).
Qed.

Lemma first_invalid_split (d : string) (l : list string) (a : string) :
  first_invalid h d l = Some a ->
  exists l1 l2, l = l1 ++ a :: l2
                /\ Forall (fun b => ~ invalid_arg h d b) l1
                /\ invalid_arg h d a.
Proof.
  intros (l1 & l2 & -> & Hl1 & Ha)%first_invalid_some.
  exists l1, l2. split; [done|]. split; [|by apply valid_arg_spec].
  eapply Forall_impl; [exact Hl1|]. intros b Hb Hinv%valid_arg_spec.
  congruence.
Qed.

Lemma first_invalid_exists (d : string) (l : list string) :
  Exists (invalid_arg h d) l -> exists a, first_invalid h d l = Some a.
Proof.
  intros Hex. destruct (first_invalid h d l) as [a|] eqn:Hfirst; [by exists a|].
  apply first_invalid_forall in Hfirst.
  by apply Forall_Exists_neg in Hfirst.
Qed.

(** The seven ways [main] ends, in the order of the script. *)
Ltac main_ends args w :=
  destruct (main_cases_exact args w)
    as [(?d & Hchdir & Hmain)
       |[(Hchdir & Hpath & Hold & Hmain)
        |(Hstart
          & [(Hno & Hmain)
            |(Hsome
              & [(?a & Hfirst & Hmain)
                |(Hfirst
                  & [(Hlist & Hmain)
                    |(Hlist
                      & [(Hfmt & Hmain)|(?fl & Hfmt & Hmain)])])])])]].

(** [main] ends in another way than the one at hand. *)
Ltac other_end := split; [split; [discriminate|]|discriminate].

Lemma starts_chdir args w d :
  chdir_fails h args w = Some d -> ~ starts h args w.
Proof. intros Hd [Hnone _]. congruence. Qed.

Lemma starts_path args w :
  arg_path args <> [] -> environ w !! "PATH" = None -> ~ starts h args w.
Proof. intros Hp Hold [_ [?|[? ?]]]; congruence. Qed.

(** X1: [main] exits with code 1 exactly when it gets to the test
    arguments, there is one, and one of them is neither a directory nor a
    test name; it stops at the first such argument in the order of the
    command line: every argument before it is accepted, the message names
    it, nothing else is written, no child is started and [PYTHONPATH] is
    not set. *)
Theorem main_stops_at_the_first_invalid_argument (args : Args) (w : World) :
  ((main h args w).1 = SysExit 1%Z <->
   starts h args w /\ ~ no_tests args
   /\ Exists (invalid_arg h (work_dir args w)) (effective_tests args))
  /\ ((main h args w).1 = SysExit 1%Z ->
      exists l1 a l2,
        effective_tests args = l1 ++ a :: l2
        /\ Forall (fun b => ~ invalid_arg h (work_dir args w) b) l1
        /\ invalid_arg h (work_dir args w) a
        /\ err (main h args w).2 = err w ++ [invalid_name_message a]
        /\ out (main h args w).2 = out w
        /\ spawned (main h args w).2 = spawned w
        /\ environ (main h args w).2 = start_environ args w).
Proof.
  main_ends args w; rewrite Hmain; unfold run_result; cbn [fst snd].
  - other_end. intros (Hstart & _). by apply starts_chdir in Hchdir.
  - other_end. intros (Hstart & _). by apply starts_path in Hstart.
  - other_end. intros (_ & Hsome & _). done.
  - split; [split; [intros _|done]|intros _].
    + split; [done|]. split; [done|].
      apply first_invalid_split in Hfirst as (l1 & l2 & Hl & _ & Ha).
      rewrite Hl. apply Exists_app. right. by left.
    + apply first_invalid_split in Hfirst as (l1 & l2 & Hl & Hl1 & Ha).
      by exists l1, a, l2.
  - other_end. intros (_ & _ & Hex). apply first_invalid_forall in Hfirst.
    by apply Forall_Exists_neg in Hfirst.
  - other_end. intros (_ & _ & Hex). apply first_invalid_forall in Hfirst.
    by apply Forall_Exists_neg in Hfirst.
  - other_end. intros (_ & _ & Hex). apply first_invalid_forall in Hfirst.
    by apply Forall_Exists_neg in Hfirst.
Qed.

(** Once the command line is parsed, [main] ends by [sys.exit(0)]
    exactly in list mode, when it gets to the test arguments and accepts
    them all; it then has printed the tests and nothing else. *)
Lemma list_mode_cases (args : Args) (w : World) :
  ((main h args w).1 = SysExit 0%Z <->
   starts h args w /\ ~ no_tests args
   /\ Forall (fun a => ~ invalid_arg h (work_dir args w) a)
        (effective_tests args)
   /\ arg_list args = true)
  /\ ((main h args w).1 = SysExit 0%Z ->
      out (main h args w).2
      = out w ++ map (fun t => t +:+ nl)
                   (flat_map (expand_arg h (work_dir args w))
                      (effective_tests args))
      /\ err (main h args w).2 = err w
      /\ spawned (main h args w).2 = spawned w
      /\ ticks (main h args w).2 = ticks w
      /\ environ (main h args w).2 = start_environ args w).
Proof.
  main_ends args w; rewrite Hmain; unfold run_result; cbn [fst snd].
  - other_end. intros (Hstart & _). by apply starts_chdir in Hchdir.
  - other_end. intros (Hstart & _). by apply starts_path in Hstart.
  - other_end. intros (_ & Hsome & _). done.
  - other_end. intros (_ & _ & Hall & _).
    apply first_invalid_split in Hfirst as (l1 & l2 & Hl & _ & Ha).
    rewrite Hl in Hall. apply Forall_app in Hall as [_ Hall].
    by inversion Hall.
  - split; [split; [intros _|done]|done].
    split; [done|]. split; [done|]. split; [|done].
    by apply first_invalid_forall.
  - other_end. intros (_ & _ & _ & ?). congruence.
  - other_end. intros (_ & _ & _ & ?). congruence.
Qed.


(** X2: [main] ends by [SystemExit] with code 0, as opposed to returning
    0, in two cases only: [argparse] prints the help, or the command
    line is accepted, asks for the list, and [main] gets to the test
    arguments and accepts them all, whatever the platform and the
    formats.  For the help nothing but the help is written.  In list
    mode [main] has printed the tests, one per line: for each argument
    in the order of the command line, the files found under it when it
    is a directory, in sorted order, and the argument itself otherwise,
    nothing being dropped or merged; it has written nothing else,
    started no child, not read the clock and not set [PYTHONPATH]. *)
Theorem list_mode_prints_the_tests (argv : option (list string))
    (w : World) :
  ((main_argv h argv w).1 = SysExit 0%Z <->
   (exists text, parse_args h (command_line h argv) = Help text)
   \/ (exists args,
         parse_args h (command_line h argv) = Parsed args
         /\ starts h args w /\ ~ no_tests args
         /\ Forall (fun a => ~ invalid_arg h (work_dir args w) a)
              (effective_tests args)
         /\ arg_list args = true))
  /\ (forall text,
        parse_args h (command_line h argv) = Help text ->
        main_argv h argv w = (SysExit 0%Z, with_out w (out w ++ [text])))
  /\ (forall args,
        parse_args h (command_line h argv) = Parsed args ->
        (main_argv h argv w).1 = SysExit 0%Z ->
        out (main_argv h argv w).2
        = out w ++ map (fun t => t +:+ nl)
                     (flat_map (expand_arg h (work_dir args w))
                        (effective_tests args))
        /\ err (main_argv h argv w).2 = err w
        /\ spawned (main_argv h argv w).2 = spawned w
        /\ ticks (main_argv h argv w).2 = ticks w
        /\ environ (main_argv h argv w).2 = start_environ args w).
Proof.
  pose proof (main_argv_cases argv w) as Hargv.
  destruct (parse_args h (command_line h argv)) as [args|usage message|text].
  - rewrite Hargv. destruct (list_mode_cases args w) as [Hiff Hlist].
    split; [|split; [done|]].
    + rewrite Hiff. split.
      * intros Hok. right. by exists args.
      * intros [[text [=]]|(args' & [= <-] & Hok)]. done.
    + intros args' [= <-]. done.
  - rewrite Hargv. cbn [fst]. split; [|split; [done|done]].
    split; [done|]. intros [[text [=]]|(args & [=] & _)].
  - rewrite Hargv. cbn [fst]. split; [|split; [|done]].
    + split; [intros _; left; by exists text|done].
    + by intros text' [= <-].
Qed.


(** C5, amended: on a usage error [argparse] ends [main] with the exit
    code 2, and for the help with the exit code 0.  For a command line
    that it accepts, when [main] ends without an uncaught exception, its
    exit code is 1 exactly when a pair failed, or no test was given
    without the run-all flag, or one of the test arguments it goes
    through (the positional ones, or [test] under the run-all flag) is
    invalid; the two input errors are written to the standard error and
    start no child; otherwise the exit code is 0. *)
Theorem main_exit_code (argv : option (list string)) (w : World) :
  (forall e, (main_argv h argv w).1 <> Uncaught e) ->
  match parse_args h (command_line h argv) with
  | Parsed args =>
      main_argv h argv w = main h args w
      /\ exit_code_law h args w (effective_tests args)
  | Usage usage message =>
      main_argv h argv w
      = (SysExit 2%Z, with_err w (err w ++ [usage; message]))
  | Help text =>
      main_argv h argv w = (SysExit 0%Z, with_out w (out w ++ [text]))
  end.
Proof.
  intros Hcompletes. pose proof (main_argv_cases argv w) as Hargv.
  destruct (parse_args h (command_line h argv)) as [args|usage message|text];
    [|done..].
  split; [done|]. apply exit_code_after_parsing. by rewrite <-Hargv.
Qed.

(** C6, amended: for a command line that [argparse] accepts, and when
    [main] ends without an uncaught exception (the directory of [-C]
    and [PATH] are dealt with before the test arguments), a positional
    argument that is not a directory and whose base name does not both
    begin with [gyptest] and end with [.py] is fatal: [main] stops at
    the first such argument in the order of the command line, writes
    the message for it to the standard error and exits with code 1,
    having written nothing to the standard output and started no
    child. *)
Theorem invalid_test_name_is_fatal (argv : option (list string))
    (args : Args) (w : World) (a : string) :
  parse_args h (command_line h argv) = Parsed args ->
  (forall e, (main_argv h argv w).1 <> Uncaught e) ->
  a ∈ arg_tests args ->
  invalid_arg h (cwd (main_argv h argv w).2) a ->
  exists l1 a' l2 w',
    main_argv h argv w = (SysExit 1%Z, w')
    /\ arg_tests args = l1 ++ a' :: l2
    /\ Forall (fun b => ~ invalid_arg h (cwd w') b) l1
    /\ invalid_arg h (cwd w') a'
    /\ err w' = err w ++ [invalid_name_message a']
    /\ spawned w' = spawned w
    /\ out w' = out w.
Proof.
  intros Hparse Hcompletes Ha Hinvalid.
  pose proof (main_argv_cases argv w) as Hargv. rewrite Hparse in Hargv.
  rewrite Hargv in Hcompletes, Hinvalid |- *. clear Hargv.
  assert (Htests : effective_tests args = arg_tests args).
  { unfold effective_tests. case_bool_decide as Hnil; [|done].
    rewrite Hnil in Ha. by apply elem_of_nil in Ha. }
  main_ends args w; rewrite Hmain in Hcompletes, Hinvalid |- *.
  - by destruct (Hcompletes (OSError d)).
  - by destruct (Hcompletes (KeyError "PATH")).
  - destruct Hno as [Hnil _]. rewrite Hnil in Ha. by apply elem_of_nil in Ha.
  - apply first_invalid_split in Hfirst as (l1 & l2 & Hl & Hl1 & Ha0).
    rewrite Htests in Hl. exists l1, a0, l2. eexists.
    split; [reflexivity|]. done.
  - apply first_invalid_forall in Hfirst. rewrite Htests in Hfirst.
    rewrite Forall_forall in Hfirst. by destruct (Hfirst a Ha).
  - by destruct (Hcompletes (KeyError (sys_platform h))).
  - apply first_invalid_forall in Hfirst. rewrite Htests in Hfirst.
    rewrite Forall_forall in Hfirst. by destruct (Hfirst a Ha).
Qed.

(** ** A run from the command line *)

Lemma format_list_some args w fl :
  format_of h args = Some fl -> format_list h args w = (Ret fl, w).
Proof. intros Hfl. by rewrite format_list_of, Hfl. Qed.

Lemma main_children_length args w0 ts fl :
  length (main_children h args w0 ts fl) = length ts * length fl.
Proof.
  unfold main_children. by rewrite children_length, run_pairs_length.
Qed.

(** X4: the standard output of a run from the command line, in order:
    in verbose mode the configuration banner with the [PYTHONPATH] that
    [main] has just set; the line of the extra options when there are
    some and [main] is not quiet; the header and plan of the report; the
    record of every pair; and, unless [main] is quiet, the block of the
    failed pairs and the summary line.  The exit code is 1 exactly when
    the failure log is not empty. *)
Theorem main_output_layout (args : Args) (w : World) (code : Z) :
  (main h args w).1 = Ret code -> ~ no_tests args ->
  exists fl sps,
    let d := work_dir args w in
    let ts := flat_map (expand_arg h d) (effective_tests args) in
    let pairs := run_pairs ts fl in
    let fs := failed_ids (zip pairs sps) in
    format_list h args w = (Ret fl, w)
    /\ spawned (main h args w).2 = spawned w ++ sps
    /\ code = (if bool_decide (fs = []) then 0%Z else 1%Z)
    /\ out (main h args w).2
       = out w
         ++ (if arg_verbose args
             then configuration_info h (OsPath.abspath d "test/lib")
             else [])
         ++ (if negb (bool_decide (arg_gyp_option args = []))
                && negb (arg_quiet args)
             then [("Extra Gyp options: "
                    +:+ str_list h (arg_gyp_option args) +:+ nl) +:+ nl]
             else [])
         ++ ["TAP version 13" +:+ nl;
             ("0.." +:+ Py.fmt_d (length fl * length ts)) +:+ nl]
         ++ records h (arg_verbose args) 1 (S (ticks w)) (zip pairs sps)
         ++ (if arg_quiet args then []
             else failure_block fs
                  ++ [summary_line (length fl * length ts)
                        (Py.fsub (clock h (S (ticks w) + 2 * length pairs))
                           (clock h (ticks w)))
                        (length fs) +:+ nl;
                      nl]).
Proof.
  intros Hret Hnt.
  main_ends args w; rewrite Hmain in Hret |- *; try discriminate Hret;
    [done|].
  exists fl.
  exists (main_children h args (start_world args w)
            (flat_map (expand_arg h (work_dir args w)) (effective_tests args))
            fl).
  cbv zeta. split; [by apply format_list_some|].
  unfold run_result in *. cbn [fst snd spawned out] in *.
  split; [done|]. split; [congruence|].
  unfold preamble, extra_options, main_report.
  by rewrite <-!app_assoc.
Qed.

(** X5: a run from the command line starts one child per pair of a test
    and a format, [len(tests) * len(formats)] in all and test by test,
    in the directory [main] works in; the command line of a child is the
    interpreter, the test and, for every [-G] option in the order of the
    command line, [-G] followed by the option; its standard error is
    captured unless [main] is verbose. *)
Theorem main_starts_one_child_per_pair (args : Args) (w : World) (code : Z) :
  (main h args w).1 = Ret code -> ~ no_tests args ->
  exists fl sps,
    let d := work_dir args w in
    let ts := flat_map (expand_arg h d) (effective_tests args) in
    format_list h args w = (Ret fl, w)
    /\ spawned (main h args w).2 = spawned w ++ sps
    /\ cwd (main h args w).2 = d
    /\ length sps = length ts * length fl
    /\ Forall2 (fun p sp =>
                  sp_cmd sp
                  = [sys_executable h; p.1]
                    ++ flat_map (fun o => ["-G"; o]) (arg_gyp_option args)
                  /\ sp_stderr_piped sp = negb (arg_verbose args))
         (run_pairs ts fl) sps
    /\ (forall k sp,
          sps !! k = Some sp ->
          sp_result sp
          = child h (length (spawned w) + k) (sp_cmd sp) (sp_env sp) d).
Proof.
  intros Hret Hnt.
  main_ends args w; rewrite Hmain in Hret |- *; try discriminate Hret;
    [done|].
  exists fl.
  exists (main_children h args (start_world args w)
            (flat_map (expand_arg h (work_dir args w)) (effective_tests args))
            fl).
  cbv zeta. split; [by apply format_list_some|].
  unfold run_result. cbn [fst snd spawned cwd].
  split; [done|]. split; [done|].
  split; [apply main_children_length|].
  unfold main_children. split.
  - apply Forall2_same_length_lookup.
    split; [by rewrite children_length|].
    intros k p sp Hp Hsp. rewrite children_lookup, Hp in Hsp.
    by injection Hsp as <-.
  - intros k sp Hsp. rewrite children_lookup in Hsp.
    destruct (run_pairs _ fl !! k) as [p|]; [|done].
    by injection Hsp as <-.
Qed.

Lemma child_env_lookup (v : bool) (fmt : string) (e : gmap string string)
    (key : string) :
  child_env v fmt e !! key
  = if bool_decide (key = "TESTGYP_FORMAT") then Some fmt
    else if bool_decide (key = "TESTCMD_VERBOSE") && v then Some "1"
    else e !! key.
Proof.
  unfold child_env. destruct v; repeat case_bool_decide; subst; cbn [andb];
    by simplify_map_eq.
Qed.

(** A child that [main] starts is the child of a pair of the run. *)
Lemma main_child_lookup (args : Args) (w : World) (k : nat) (sp : Spawn) :
  spawned (main h args w).2 !! (length (spawned w) + k) = Some sp ->
  starts h args w
  /\ cwd (main h args w).2 = work_dir args w
  /\ exists fl p,
       format_of h args = Some fl
       /\ run_pairs (flat_map (expand_arg h (work_dir args w))
                       (effective_tests args)) fl !! k = Some p
       /\ sp = child_of h (arg_verbose args) (runner_options args)
                 (runner_environ (start_world args w)) (work_dir args w)
                 (length (spawned w) + k) p.
Proof.
  intros Hsp.
  assert (Hnone : forall w',
    spawned w' = spawned w ->
    spawned w' !! (length (spawned w) + k) <> Some sp).
  { intros w' ->. rewrite lookup_ge_None_2 by lia. done. }
  main_ends args w; rewrite Hmain in Hsp |- *;
    try (by apply Hnone in Hsp).
  unfold run_result in Hsp |- *. cbn [snd spawned cwd] in Hsp |- *.
  change (spawned (start_world args w)) with (spawned w) in Hsp.
  rewrite lookup_app_r, Nat.add_sub' in Hsp by lia.
  unfold main_children in Hsp. rewrite children_lookup in Hsp.
  split; [done|]. split; [done|]. exists fl.
  change (cwd (start_world args w)) with (work_dir args w) in Hsp.
  destruct (run_pairs _ fl !! k) as [p|] eqn:Hp; [|done].
  exists p. split; [done|]. split; [done|]. by injection Hsp as <-.
Qed.

(** X6: the environment of every child that [main] starts: [PYTHONPATH]
    is the absolute path of [test/lib] in the directory [main] works in,
    [TESTGYP_FORMAT] is the format of the pair, [TESTCMD_VERBOSE] is [1]
    in verbose mode and as inherited otherwise, [PATH] is the inherited
    one with the [--path] directories, made absolute, in front; every
    other variable is inherited as it is. *)
Theorem main_children_environment (args : Args) (w : World) (k : nat)
    (sp : Spawn) :
  spawned (main h args w).2 !! (length (spawned w) + k) = Some sp ->
  let d := work_dir args w in
  let ts := flat_map (expand_arg h d) (effective_tests args) in
  (exists fl p,
     format_list h args w = (Ret fl, w)
     /\ run_pairs ts fl !! k = Some p
     /\ sp_env sp !! "TESTGYP_FORMAT" = Some p.2)
  /\ sp_env sp !! "PYTHONPATH" = Some (OsPath.abspath d "test/lib")
  /\ sp_env sp !! "TESTCMD_VERBOSE"
     = (if arg_verbose args then Some "1"
        else environ w !! "TESTCMD_VERBOSE")
  /\ sp_env sp !! "PATH"
     = (if bool_decide (arg_path args = []) then environ w !! "PATH"
        else (fun old =>
                Py.join ":" (map (OsPath.abspath d) (arg_path args))
                +:+ ":" +:+ old) <$> environ w !! "PATH")
  /\ (forall key,
        key ∉ ["TESTGYP_FORMAT"; "PYTHONPATH"; "TESTCMD_VERBOSE"; "PATH"] ->
        sp_env sp !! key = environ w !! key).
Proof.
  intros Hsp d ts.
  destruct (main_child_lookup args w k sp Hsp)
    as (Hstart & _ & fl & p & Hfmt & Hp & ->).
  fold d in Hp. fold ts in Hp.
  unfold child_of. cbn [sp_env].
  rewrite !child_env_lookup.
  unfold runner_environ, start_world, start_environ.
  cbn [cwd environ with_cwd with_environ]. fold d.
  set (e0 := if bool_decide (arg_path args = []) then environ w
             else <["PATH" := extended_path args d
                                (default "" (environ w !! "PATH"))]>
                    (environ w)).
  assert (Hpath :
    e0 !! "PATH"
    = if bool_decide (arg_path args = []) then environ w !! "PATH"
      else (fun old =>
              Py.join ":" (map (OsPath.abspath d) (arg_path args))
              +:+ ":" +:+ old) <$> environ w !! "PATH").
  { subst e0. case_bool_decide as Hpa; [done|]. rewrite lookup_insert_eq.
    destruct Hstart as [_ [?|[old Hold]]]; [done|]. by rewrite Hold. }
  assert (Hother : forall key, key <> "PATH" -> e0 !! key = environ w !! key).
  { intros key Hkey. subst e0. case_bool_decide; [done|].
    by rewrite lookup_insert_ne. }
  clearbody e0.
  split; [|split; [|split; [|split]]].
  - exists fl, p. split; [by apply format_list_some|]. done.
  - cbn [bool_decide andb]. by rewrite lookup_insert_eq.
  - cbn [bool_decide andb]. destruct (arg_verbose args); [done|].
    rewrite lookup_insert_ne by done. by apply Hother.
  - cbn [bool_decide andb]. by rewrite lookup_insert_ne.
  - intros key Hkey.
    assert (key <> "TESTGYP_FORMAT" /\ key <> "PYTHONPATH"
            /\ key <> "TESTCMD_VERBOSE" /\ key <> "PATH")
      as (H1 & H2 & H3 & H4)
      by (repeat split; intros ->; apply Hkey; set_solver).
    rewrite child_env_lookup.
    rewrite (bool_decide_eq_false_2 _ H1), (bool_decide_eq_false_2 _ H3).
    cbn [andb]. rewrite lookup_insert_ne by done. by apply Hother.
Qed.

Lemma join_absolute (d p : string) :
  Py.startswith d "/" = true -> Py.startswith (OsPath.join d p) "/" = true.
Proof.
  intros Hd. unfold OsPath.join.
  destruct (Py.startswith p "/") eqn:Hp; [done|].
  apply startswith_spec in Hd as [r ->]. apply startswith_spec.
  destruct (_ || _); eexists; apply append_assoc.
Qed.

Lemma normpath_absolute (path : string) :
  Py.startswith path "/" = true ->
  Py.startswith (OsPath.normpath path) "/" = true.
Proof.
  intros Hpath. unfold OsPath.normpath. rewrite Hpath.
  rewrite bool_decide_eq_false_2 by (by intros ->).
  destruct (_ && _).
  - set (body := Py.join "/" _).
    change (Py.join "" (replicate 2 "/")) with "//".
    rewrite bool_decide_eq_false_2 by done.
    apply startswith_spec. by exists ("/" +:+ body).
  - set (body := Py.join "/" _).
    change (Py.join "" (replicate 1 "/")) with "/".
    rewrite bool_decide_eq_false_2 by done.
    apply startswith_spec. by exists body.
Qed.

(** [os.path.abspath] gives an absolute path in an absolute directory. *)
Lemma abspath_absolute (d p : string) :
  Py.startswith d "/" = true ->
  Py.startswith (OsPath.abspath d p) "/" = true.
Proof. intros Hd. by apply normpath_absolute, join_absolute. Qed.

(** X16: [main] hands absolute paths to the children, whatever the
    arguments of [-C] and [--path] look like: when the script is started
    in an absolute directory, every child runs in an absolute directory,
    its [PYTHONPATH] is an absolute path, and so is every directory that
    [--path] puts in front of its [PATH]. *)
Theorem main_hands_absolute_paths (args : Args) (w : World) (k : nat)
    (sp : Spawn) :
  Py.startswith (cwd w) "/" = true ->
  spawned (main h args w).2 !! (length (spawned w) + k) = Some sp ->
  Py.startswith (cwd (main h args w).2) "/" = true
  /\ (exists v, sp_env sp !! "PYTHONPATH" = Some v
                /\ Py.startswith v "/" = true)
  /\ Forall (fun q => Py.startswith q "/" = true)
       (map (OsPath.abspath (cwd (main h args w).2)) (arg_path args))
  /\ (arg_path args <> [] ->
      exists old,
        environ w !! "PATH" = Some old
        /\ sp_env sp !! "PATH"
           = Some (Py.join ":"
                     (map (OsPath.abspath (cwd (main h args w).2))
                        (arg_path args))
                   +:+ ":" +:+ old)).
Proof.
  intros Hcwd Hsp.
  destruct (main_child_lookup args w k sp Hsp)
    as (Hstart & -> & fl & p & Hfmt & Hp & ->).
  assert (Hd : Py.startswith (work_dir args w) "/" = true).
  { unfold work_dir. destruct (arg_chdir args) as [d|]; [|done].
    case_bool_decide; [done|]. by apply abspath_absolute. }
  split; [done|]. split; [|split].
  - exists (OsPath.abspath (work_dir args w) "test/lib").
    split; [|by apply abspath_absolute].
    unfold child_of. cbn [sp_env]. rewrite child_env_lookup.
    cbn [bool_decide andb]. apply lookup_insert_eq.
  - apply Forall_map, Forall_true. intros q. by apply abspath_absolute.
  - intros Hpath. destruct Hstart as [_ [?|[old Hold]]]; [done|].
    exists old. split; [done|].
    unfold child_of. cbn [sp_env]. rewrite child_env_lookup.
    cbn [bool_decide andb]. unfold runner_environ.
    rewrite lookup_insert_ne by done.
    unfold start_world, start_environ. cbn [environ with_environ].
    rewrite (bool_decide_eq_false_2 _ Hpath), lookup_insert_eq.
    by rewrite Hold.
Qed.

(** X7: of its own environment [main] changes [PATH] and [PYTHONPATH]
    only: the variables that the runner sets for the children,
    [TESTGYP_FORMAT] and [TESTCMD_VERBOSE], are set in a copy. *)
Theorem main_changes_two_variables_only (args : Args) (w : World)
    (key : string) :
  key <> "PATH" -> key <> "PYTHONPATH" ->
  environ (main h args w).2 !! key = environ w !! key.
Proof.
  intros Hpath' Hpp.
  assert (Hstart' : start_environ args w !! key = environ w !! key).
  { unfold start_environ. case_bool_decide; [done|].
    by rewrite lookup_insert_ne. }
  main_ends args w; rewrite Hmain; unfold run_result;
    cbn [snd environ with_cwd with_err with_out with_environ with_sys_path
         start_world];
    try done.
  all: unfold runner_environ; rewrite lookup_insert_ne by done; done.
Qed.


(** ** The standard error of the children *)

Lemma children_mode v opts e d n pairs :
  Forall (fun sp =>
            sp_stderr_piped sp = negb v
            /\ (v = true -> sp_env sp !! "TESTCMD_VERBOSE" = Some "1"))
    (children h v opts e d n pairs).
Proof.
  revert n. induction pairs as [|p pairs IH]; intros n; constructor.
  - split; [done|]. intros ->. cbn. apply lookup_insert_eq.
  - apply IH.
Qed.

Lemma passed_through_captured sps :
  Forall (fun sp => sp_stderr_piped sp = true) sps -> passed_through sps = [].
Proof.
  induction 1 as [|sp sps Hsp _ IH]; [done|].
  unfold passed_through in *. cbn [flat_map]. by rewrite Hsp, IH.
Qed.

Lemma passed_through_direct sps :
  Forall (fun sp => sp_stderr_piped sp = false) sps ->
  passed_through sps = map (fun sp => child_stderr (sp_result sp)) sps.
Proof.
  induction 1 as [|sp sps Hsp _ IH]; [done|].
  unfold passed_through in *. cbn [flat_map map]. by rewrite Hsp, IH.
Qed.

(** No chunk of the record of a child whose standard error is not
    captured begins like the label of the block of the standard error. *)
Lemma record_without_stderr i p sp t :
  sp_stderr_piped sp = false ->
  Forall (fun c => Py.startswith c "  stde" = false) (record true i p sp t).
Proof.
  intros Hsp. unfold record, metadata_block, captured_stderr, literal_block.
  rewrite Hsp. cbn [Py.strip Py.lstrip Py.rstrip].
  rewrite (bool_decide_eq_true_2 ("" = "")) by done. cbn [orb app].
  constructor; [done|]. constructor.
  { unfold status_line. by repeat case_bool_decide. }
  constructor; [done|]. constructor; [done|].
  case_bool_decide.
  - by repeat constructor.
  - cbn [app]. constructor; [done|]. apply Forall_app. split.
    + apply Forall_map. by apply Forall_true.
    + by repeat constructor.
Qed.

Lemma records_without_stderr pairs :
  forall sps i t,
    Forall (fun sp => sp_stderr_piped sp = false) sps ->
    Forall (fun c => Py.startswith c "  stde" = false)
      (records h true i t (zip pairs sps)).
Proof.
  induction pairs as [|p pairs IH]; intros [|sp sps] i t Hsps;
    try by constructor.
  inversion Hsps; subst. cbn [zip_with records]. apply Forall_app. split.
  - by apply record_without_stderr.
  - by apply IH.
Qed.

(** X9: where the standard error of the children goes.  Without the
    verbose flag every child has its standard error captured and a run
    writes nothing to the standard error of the script.  With the
    verbose flag no child has it captured: what the children write
    reaches the standard error of the script, child after child in the
    order of the run, the report holds no block for the standard error,
    and every child is told to be verbose. *)
Theorem run_standard_error_by_mode (self : Runner) (w : World) :
  exists sps chunks,
    spawned (run h self w).2 = spawned w ++ sps
    /\ out (run h self w).2 = out w ++ chunks
    /\ Forall (fun sp => sp_stderr_piped sp = negb (verbose self)) sps
    /\ (verbose self = false -> err (run h self w).2 = err w)
    /\ (verbose self = true ->
        err (run h self w).2
        = err w ++ map (fun sp => child_stderr (sp_result sp)) sps
        /\ Forall (fun c => c <> "  stderr: |-" +:+ nl) chunks
        /\ Forall (fun sp => sp_env sp !! "TESTCMD_VERBOSE" = Some "1") sps).
Proof.
  destruct (run_exact self w)
    as (self' & w' & Hrun & _ & _ & _ & (_ & _ & Hsp & _ & Herr & Hout) & _).
  rewrite Hrun. cbn [snd]. eexists _, _.
  split; [exact Hsp|]. split; [exact Hout|].
  match type of Hsp with
  | _ = _ ++ ?l => set (sps := l) in *
  end.
  assert (Hmode : Forall (fun sp =>
            sp_stderr_piped sp = negb (verbose self)
            /\ (verbose self = true ->
                sp_env sp !! "TESTCMD_VERBOSE" = Some "1")) sps)
    by apply children_mode.
  clearbody sps.
  split; [eapply Forall_impl; [exact Hmode|]; by intros sp [? _]|].
  split.
  - intros Hv. rewrite Herr, passed_through_captured, app_nil_r; [done|].
    eapply Forall_impl; [exact Hmode|]. intros sp [-> _]. by rewrite Hv.
  - intros Hv.
    assert (Hdirect : Forall (fun sp => sp_stderr_piped sp = false) sps).
    { eapply Forall_impl; [exact Hmode|]. intros sp [-> _]. by rewrite Hv. }
    split; [by rewrite Herr, passed_through_direct|]. split.
    + rewrite Hv.
      apply (Forall_impl (fun c => Py.startswith c "  stde" = false));
        [|by intros c Hc ->].
      apply Forall_app. split; [by repeat constructor|].
      by apply records_without_stderr.
    + eapply Forall_impl; [exact Hmode|]. intros sp [_ Hsp']. by apply Hsp'.
Qed.

(** ** The configuration banner *)


(** ** A run without tests *)

Lemma expand_invalid (d a : string) :
  invalid_arg h d a -> expand_arg h d a = [a].
Proof. intros [Hdir _]. unfold expand_arg. by rewrite Hdir. Qed.

(** X11: when [main] gets to the test arguments, is not in list mode and
    has a format list (a format is given, or the platform has default
    formats), and the test arguments stand for no test at all, as a
    directory without test files does, [main] prints, after the banner
    and the line of the extra options if any, the header with the plan
    [0..0] and, unless it is quiet, the summary for 0 tests; it starts
    no child, writes nothing to the standard error and returns 0. *)
Theorem main_with_no_test_found (args : Args) (w : World)
    (fl : list string) :
  starts h args w -> ~ no_tests args -> arg_list args = false ->
  format_list h args w = (Ret fl, w) ->
  flat_map (expand_arg h (work_dir args w)) (effective_tests args) = [] ->
  (main h args w).1 = Ret 0%Z
  /\ spawned (main h args w).2 = spawned w
  /\ err (main h args w).2 = err w
  /\ out (main h args w).2
     = out w ++ preamble h args (work_dir args w)
       ++ ["TAP version 13" +:+ nl; "0..0" +:+ nl]
       ++ (if arg_quiet args then []
           else [summary_line 0
                   (Py.fsub (clock h (S (ticks w))) (clock h (ticks w))) 0
                 +:+ nl;
                 nl]).
Proof.
  intros Hstarts Hnt Hnolist Hformat Hts.
  rewrite format_list_of in Hformat.
  main_ends args w.
  - by apply starts_chdir in Hchdir.
  - by apply starts_path in Hstarts.
  - done.
  - apply first_invalid_split in Hfirst as (l1 & l2 & Hl & _ & Ha).
    rewrite Hl, flat_map_app in Hts. cbn [flat_map] in Hts.
    rewrite (expand_invalid _ _ Ha) in Hts.
    by apply app_eq_nil in Hts as [_ ?].
  - congruence.
  - by rewrite Hfmt in Hformat.
  - rewrite Hmain. rewrite Hts in *.
    unfold run_result, main_report, main_children in *.
    cbn [fst snd out err spawned run_pairs flat_map children zip_with
         failed_ids records passed_through length] in *.
    rewrite !(bool_decide_eq_true_2 ([] = [])) by done.
    rewrite !app_nil_r, Nat.mul_0_r, Nat.add_0_r.
    split; [done|]. split; [done|]. split; [done|].
    unfold failure_block. rewrite bool_decide_eq_true_2 by done. done.
Qed.

(** ** The run-all flag *)

(** X15: the run-all flag matters only when no test is given: with test
    arguments [main] does the same with and without it, and without
    test arguments it does what it does for the one argument [test]. *)
Theorem run_all_flag_stands_for_test (args : Args) (w : World) :
  (arg_tests args <> [] ->
   forall b, main h (set_all args b) w = main h args w)
  /\ (arg_tests args = [] -> arg_all args = true ->
      main h args w = main h (set_tests args ["test"]) w).
Proof.
  split.
  - intros Htests b. unfold main.
    cbn [set_all arg_chdir arg_path arg_tests arg_all].
    by rewrite (bool_decide_eq_false_2 _ Htests).
  - intros Htests Hall. unfold main.
    cbn [set_tests arg_chdir arg_path arg_tests arg_all].
    rewrite (bool_decide_eq_true_2 _ Htests), Hall.
    rewrite (bool_decide_eq_false_2 (["test"] = [])) by done.
    reflexivity.
Qed.

End MoreFacts.

(** ** Discovery and the name check *)

Section MoreDiscovery.

Lemma split_plain (sep : ascii) (f : string) :
  has_char sep f = false -> Py.split sep f = [f].
Proof.
  induction f as [|c f IH]; [done|]. cbn [has_char Py.split].
  intros [Hc Hf]%orb_false_iff. by rewrite Hc, (IH Hf).
Qed.

Lemma split_app_sep (sep : ascii) (a b : string) :
  exists front,
    front <> [] /\ Py.split sep (a +:+ String sep b) = front ++ Py.split sep b.
Proof.
  induction a as [|c a (front & Hfront & IH)].
  - exists [""]. split; [done|]. cbn [Py.split].
    change ("" +:+ String sep b) with (String sep b). cbn [Py.split].
    by rewrite Ascii.eqb_refl.
  - rewrite append_cons. cbn [Py.split]. rewrite IH.
    destruct (Ascii.eqb c sep).
    + by exists ("" :: front).
    + destruct front as [|x front]; [done|]. by exists (String c x :: front).
Qed.

(** The base name of a file name joined to a directory is the file name. *)
Lemma basename_join (root f : string) :
  has_char "/" f = false -> OsPath.basename (OsPath.join root f) = f.
Proof.
  intros Hf. unfold OsPath.join, OsPath.basename, OsPath.sep.
  assert (Hlast : forall a,
    List.last (Py.split "/" (a +:+ String "/" f)) "" = f).
  { intros a. destruct (split_app_sep "/" a f) as (front & _ & ->).
    rewrite (split_plain _ _ Hf). apply last_last. }
  destruct (Py.startswith f "/") eqn:Hstart.
  { apply startswith_spec in Hstart as [r ->]. done. }
  destruct (bool_decide (root = "")) eqn:Hroot; cbn [orb].
  { apply bool_decide_eq_true in Hroot as ->.
    change ("" +:+ f) with f. by rewrite (split_plain _ _ Hf). }
  destruct (Py.endswith root "/") eqn:Hend.
  - apply endswith_spec in Hend as [r ->]. rewrite append_assoc. apply Hlast.
  - apply Hlast.
Qed.

Lemma file_in_plain (top : string) (es : list entry) (f p : string) :
  file_in top es f p ->
  forallb plain_names es = true ->
  has_char "/" f = false /\ exists root, p = OsPath.join root f.
Proof.
  induction 1 as [top es f Hin|top es d c f p Hin _ IH]; intros Hplain.
  - rewrite forallb_forall in Hplain.
    apply list_elem_of_In, Hplain in Hin. cbn in Hin.
    split; [by apply negb_true_iff|by exists top].
  - apply IH. rewrite forallb_forall in Hplain.
    by apply list_elem_of_In, Hplain in Hin.
Qed.

(** X12: what the discovery returns passes the name check of [main]:
    in a tree whose file names hold no slash, the base name of every
    path found is a test name, so that [main] accepts every discovered
    path as an explicit test argument. *)
Theorem discovered_paths_are_test_names (h : Host) (d top : string)
    (es : list entry) (p : string) :
  forallb plain_names es = true ->
  p ∈ find_all_gyptest_files top es ->
  is_test_name (OsPath.basename p) = true /\ valid_arg h d p = true.
Proof.
  intros Hplain Hp. unfold find_all_gyptest_files in Hp.
  rewrite sorted_permutation, walk_result_spec in Hp.
  destruct Hp as (f & Hin & Hf).
  destruct (file_in_plain _ _ _ _ Hin Hplain) as (Hslash & root & ->).
  rewrite (basename_join _ _ Hslash).
  split; [done|]. unfold valid_arg.
  destruct (listing h d _); [done|]. by rewrite (basename_join _ _ Hslash).
Qed.

Lemma length_flat_map {A B} (f : A -> list B) (l : list A) :
  length (flat_map f l) = sum_list (map (fun x => length (f x)) l).
Proof.
  induction l as [|x l IH]; [done|]. cbn. by rewrite length_app, IH.
Qed.

Lemma entry_paths_length (e : entry) :
  forall top, length (entry_paths top e) = tests_in e.
Proof.
  induction e as [f|d c IH] using entry_nested_ind; intros top.
  - cbn. by destruct (is_test_name f).
  - cbn [entry_paths tests_in]. rewrite walk_entry_subdir.
    rewrite walk_paths_by_entry, length_flat_map. f_equal.
    induction IH as [|e c He _ IHc]; [done|]. cbn [map]. by rewrite He, IHc.
Qed.

(** X14: the discovery neither drops nor merges a file: it returns as
    many paths as the tree holds files with a test name, at any depth. *)
Theorem find_all_gyptest_files_count (top : string) (es : list entry) :
  length (find_all_gyptest_files top es) = sum_list (map tests_in es).
Proof.
  unfold find_all_gyptest_files.
  rewrite sorted_permutation, walk_result_flat_map, walk_paths_by_entry.
  rewrite length_flat_map. f_equal. apply map_ext. intros e.
  apply entry_paths_length.
Qed.

End MoreDiscovery.

(** ** The blocks of the report *)

Section Blocks.

Lemma rstrip_not_newline (s : string) : Py.endswith (Py.rstrip s) nl = false.
Proof.
  induction s as [|c s IH]; [done|]. cbn [Py.rstrip].
  destruct (Py.rstrip s) as [|c' r] eqn:Hr.
  - destruct (Py.isspace c) eqn:Hc; [done|]. cbn [Py.endswith].
    rewrite orb_false_r. apply bool_decide_eq_false. intros [= ->]. done.
  - cbn [Py.endswith] in *. rewrite IH, orb_false_r.
    by apply bool_decide_eq_false.
Qed.

Lemma splitlines_nil (s : string) : Py.splitlines s = [] -> s = "".
Proof.
  destruct s as [|c s]; [done|]. cbn [Py.splitlines].
  destruct (Py.is_linebreak c); [done|].
  by destruct (Py.splitlines s).
Qed.

Lemma join_cons_line (sep : string) (c : ascii) (l : string)
    (ls : list string) :
  Py.join sep (String c l :: ls) = String c (Py.join sep (l :: ls)).
Proof. by destruct ls. Qed.

Lemma linefeed_char (c : ascii) : Py.code c = 10 -> String c "" = nl.
Proof.
  unfold Py.code, nl. intros Hc. by rewrite <-Hc, ascii_nat_embedding.
Qed.

(** Joining the lines of a text gives the text back when its line
    boundaries are line feeds and it does not end with one. *)
Lemma splitlines_join (t : string) :
  unix_lines t = true -> Py.endswith t nl = false ->
  Py.join nl (Py.splitlines t) = t.
Proof.
  induction t as [|c t IH]; [done|].
  cbn [unix_lines Py.endswith Py.splitlines].
  intros [Hc Ht]%andb_true_iff [Hnl Hend]%orb_false_iff.
  specialize (IH Ht Hend).
  destruct (Py.is_linebreak c) eqn:Hbreak.
  - cbn [negb orb] in Hc. apply Nat.eqb_eq in Hc.
    assert (Hrest : match t with
                    | String c2 s'' =>
                        if (Py.code c =? 13) && (Py.code c2 =? 10)
                        then Py.splitlines s'' else Py.splitlines t
                    | EmptyString => Py.splitlines t
                    end = Py.splitlines t).
    { destruct t; [done|]. by rewrite Hc. }
    rewrite Hrest. pose proof (linefeed_char c Hc) as Hchar.
    destruct (Py.splitlines t) as [|l ls] eqn:Hlines.
    + apply splitlines_nil in Hlines as ->.
      apply bool_decide_eq_false in Hnl. congruence.
    + change (Py.join nl ("" :: l :: ls))
        with ("" +:+ nl +:+ Py.join nl (l :: ls)).
      rewrite IH, <-Hchar. done.
  - destruct (Py.splitlines t) as [|l ls] eqn:Hlines.
    + by apply splitlines_nil in Hlines as ->.
    + cbn [Py.cons_line]. by rewrite join_cons_line, IH.
Qed.

Lemma splitlines_one_line (s : string) :
  Forall (fun l => one_line l = true) (Py.splitlines s).
Proof.
  remember (String.length s) as n eqn:Hn. revert s Hn.
  induction n as [n IH] using lt_wf_ind. intros [|c s] Hn; [constructor|].
  cbn [Py.splitlines String.length] in *.
  destruct (Py.is_linebreak c) eqn:Hc.
  - constructor; [done|]. destruct s as [|c2 s]; [constructor|].
    cbn [String.length] in Hn. destruct (_ && _).
    + apply (IH (String.length s)); [lia|done].
    + apply (IH (String.length (String c2 s))); [cbn; lia|done].
  - assert (Hs : Forall (fun l => one_line l = true) (Py.splitlines s))
      by (apply (IH (String.length s)); [lia|done]).
    destruct (Py.splitlines s) as [|l ls]; cbn [Py.cons_line].
    + constructor; [|done]. cbn. by rewrite Hc.
    + inversion Hs; subst. constructor; [|done]. cbn. by rewrite Hc.
Qed.

(** X13: the block that the report prints for a captured text: the text
    is stripped and printed line by line, every line after four spaces
    and without a line boundary inside; a text that is not empty once
    stripped gives at least one line; and, when the line boundaries of
    the stripped text are line feeds only, joining the printed lines
    with line feeds gives the stripped text back. *)
Theorem printed_block_round_trip (s : string) (w : World) :
  exists ls,
    print_lines (Py.splitlines (Py.strip s)) w
    = (Ret (), with_out w (out w ++ map (fun l => "    " +:+ l +:+ nl) ls))
    /\ Forall (fun l => one_line l = true) ls
    /\ (Py.strip s <> "" -> ls <> [])
    /\ (unix_lines (Py.strip s) = true -> Py.join nl ls = Py.strip s).
Proof.
  exists (Py.splitlines (Py.strip s)).
  split; [apply print_lines_run|]. split; [apply splitlines_one_line|].
  split.
  - intros Hne Hnil. by apply splitlines_nil in Hnil.
  - intros Hunix. apply splitlines_join; [done|]. apply rstrip_not_newline.
Qed.

End Blocks.


(** ** The example host at work *)

(** The scenario of two tests and two formats: four records, numbered 1
    to 4, test by test; the children exit with the codes 0, 1, 2 and 3. *)
Example run_two_tests_two_formats :
  status_lines
    (out (main (Example.host "linux")
            (Example.args ["gyptest_a.py"; "gyptest_b.py"])
            Example.world).2)
  = ["ok 1 gyptest_a.py make" +:+ nl;
     "not ok 2 gyptest_a.py ninja" +:+ nl;
     "not ok 3 # skip gyptest_b.py make" +:+ nl;
     "not ok 4 gyptest_b.py ninja" +:+ nl].
Proof. vm_compute. reflexivity. Qed.

(** With the no-execute flag the children are started all the same, here
    for the two tests found under [test] and the two default formats. *)
Example no_exec_starts_the_children :
  (main (Example.host "linux")
     (set_no_exec Example.args_all true) Example.world).1 = Ret 1%Z
  /\ map sp_cmd
       (spawned (main (Example.host "linux")
                   (set_no_exec Example.args_all true) Example.world).2)
     = [["/usr/bin/python"; "test/gyptest-b.py"];
        ["/usr/bin/python"; "test/gyptest-b.py"];
        ["/usr/bin/python"; "test/x/gyptest-a.py"];
        ["/usr/bin/python"; "test/x/gyptest-a.py"]].
Proof. split; vm_compute; reflexivity. Qed.

Example discovery_in_example_tree :
  find_all_gyptest_files "test"
    [File "gyptest-b.py"; File "Gyptest-c.py"; File "gyptest-d.pyc";
     Subdir "x" [File "gyptest-a.py"; File "README"]]
  = ["test/gyptest-b.py"; "test/x/gyptest-a.py"].
Proof. vm_compute. reflexivity. Qed.

Example strip_and_splitlines :
  Py.splitlines (Py.strip ("  a" +:+ nl +:+ nl +:+ "b " +:+ nl))
  = ["a"; ""; "b"].
Proof. vm_compute. reflexivity. Qed.

Example fmt_3f_rounds_to_even :
  Py.fmt_3f (S754_finite true 1 (-4)) = "-0.062"
  /\ Py.fmt_3f (S754_finite false 3 (-11)) = "0.001".
Proof. split; vm_compute; reflexivity. Qed.

(** The command line as [main] gets it: a usage error ends it with the
    exit code 2 and [-h] with the exit code 0, before anything else is
    done. *)
Example usage_error_and_help :
  (main_argv (Example.host "linux") (Some ["gyptest.py"; "--bogus"])
     Example.world).1 = SysExit 2%Z
  /\ (main_argv (Example.host "linux") (Some ["gyptest.py"; "-f"])
        Example.world).1 = SysExit 2%Z
  /\ main_argv (Example.host "linux") (Some ["gyptest.py"; "-h"])
       Example.world
     = (SysExit 0%Z, with_out Example.world [Example.usage_text])
  /\ main_argv (Example.host "linux") None Example.world
     = main (Example.host "linux") Example.defaults Example.world.
Proof. repeat split; vm_compute; reflexivity. Qed.

(** The witness of C5: the command line [-f make,ninja gyptest_a.py],
    a run of two pairs, one of which fails. *)
Lemma main_exit_code_witness :
  main_argv (Example.host "linux")
    (Some ["gyptest.py"; "-f"; "make,ninja"; "gyptest_a.py"]) Example.world
  = main (Example.host "linux") (Example.args ["gyptest_a.py"]) Example.world
  /\ exit_code_law (Example.host "linux") (Example.args ["gyptest_a.py"])
       Example.world (effective_tests (Example.args ["gyptest_a.py"])).
Proof.
  apply (main_exit_code (Example.host "linux")
           (Some ["gyptest.py"; "-f"; "make,ninja"; "gyptest_a.py"])
           Example.world).
  intros e He. vm_compute in He. discriminate He.
Defined.

(** C5 as it is stated fails: on a platform that is not in the table of
    default formats and with no format given, [main] ends in an uncaught
    [KeyError], so it returns neither 1 nor 0 although no pair failed and
    the test name is valid; and, among the runs that end without an
    uncaught exception, under the run-all flag in a directory without
    [test] the exit code is 1 although no pair failed, the run-all flag
    was given and no test name was given on the command line. *)
Lemma main_exit_code_counterexample :
  ~ (forall h args w, exit_code_law h args w (arg_tests args))
  /\ ~ (forall h args w,
          (forall e, (main h args w).1 <> Uncaught e) ->
          exit_code_law h args w (arg_tests args)).
Proof.
  split.
  - intros Hlaw.
    destruct (Hlaw (Example.host "sunos5")
                (Example.args_default_formats ["gyptest_a.py"]) Example.world)
      as (code & sps & [Hcode|Hcode] & _);
      vm_compute in Hcode; discriminate Hcode.
  - intros Hlaw.
    destruct (Hlaw Example.bare_host Example.args_all Example.world)
      as (code & sps & Hcode & Hsps & [Hone _] & _).
    { intros e He. vm_compute in He. discriminate He. }
    assert (code = 1%Z) as ->
      by (destruct Hcode as [Hcode|Hcode]; vm_compute in Hcode; congruence).
    assert (sps = []) as -> by (vm_compute in Hsps; congruence).
    destruct Hone as [Hfailed|[[_ Hall]|Hname]]; [done|..].
    + by apply Exists_nil in Hfailed.
    + discriminate Hall.
    + by apply Exists_nil in Hname.
Qed.

(** The witness of C6: [foo.py] after a directory. *)
Lemma invalid_test_name_is_fatal_witness :
  exists l1 a' l2 w',
    main_argv (Example.host "linux") (Some ["gyptest.py"; "test"; "foo.py"])
      Example.world
    = (SysExit 1, w')
    /\ ["test"; "foo.py"] = l1 ++ a' :: l2
    /\ Forall (fun b => ~ invalid_arg (Example.host "linux") (cwd w') b) l1
    /\ invalid_arg (Example.host "linux") (cwd w') a'
    /\ err w' = err Example.world ++ [invalid_name_message a']
    /\ spawned w' = spawned Example.world
    /\ out w' = out Example.world.
Proof.
  apply (invalid_test_name_is_fatal (Example.host "linux")
           (Some ["gyptest.py"; "test"; "foo.py"])
           (Example.args_default_formats ["test"; "foo.py"])
           Example.world "foo.py").
  - reflexivity.
  - intros e He. vm_compute in He. discriminate He.
  - apply list_elem_of_In. simpl. right. left. reflexivity.
  - split; reflexivity.
Defined.

(** C6 as it is stated fails: [-C] is dealt with before the test
    arguments, so with a directory that cannot be entered [main] ends
    in an uncaught [OSError], having written nothing to the standard
    error, although [foo.py] is not a directory and is not a test
    name. *)
Lemma invalid_test_name_is_fatal_counterexample :
  parse_args Example.bare_host
    (command_line Example.bare_host
       (Some ["gyptest.py"; "-C"; "nowhere"; "foo.py"]))
  = Parsed {| arg_all := false; arg_chdir := Some "nowhere";
              arg_format := ""; arg_gyp_option := []; arg_list := false;
              arg_no_exec := false; arg_path := []; arg_quiet := false;
              arg_verbose := false; arg_tests := ["foo.py"] |}
  /\ main_argv Example.bare_host
       (Some ["gyptest.py"; "-C"; "nowhere"; "foo.py"]) Example.world
     = (Uncaught (OSError "nowhere"), Example.world)
  /\ ~ (forall h argv args w a,
          parse_args h (command_line h argv) = Parsed args ->
          a ∈ arg_tests args ->
          invalid_arg h (cwd (main_argv h argv w).2) a ->
          exists w',
            main_argv h argv w = (SysExit 1%Z, w')
            /\ err w' = err w ++ [invalid_name_message a]).
Proof.
  split; [reflexivity|]. split; [vm_compute; reflexivity|].
  intros Hfatal.
  destruct (Hfatal Example.bare_host
              (Some ["gyptest.py"; "-C"; "nowhere"; "foo.py"]) _
              Example.world "foo.py" eq_refl) as (w' & Hmain & _).
  - apply list_elem_of_In. simpl. left. reflexivity.
  - split; reflexivity.
  - vm_compute in Hmain. discriminate Hmain.
Qed.

(** The witness of C8: the platform [sunos5] is not in the table. *)
Lemma format_resolution_witness :
  format_list (Example.host "sunos5")
    (Example.args_default_formats ["gyptest_a.py"]) Example.world
  = (Uncaught (KeyError "sunos5"), Example.world).
Proof.
  apply (proj1 (proj2 (proj2 (format_resolution (Example.host "sunos5")
           (Example.args_default_formats ["gyptest_a.py"]) Example.world)))
         eq_refl eq_refl).
Defined.
(** ** The second scenario at work *)

(** In list mode the tests are printed in the order of the arguments,
    the directory [test] giving the files found under it. *)
Example list_mode_in_the_scenario :
  main (Example.host "sunos5") Scenario.args_list Example.world
  = (SysExit 0%Z,
     with_out Example.world
       ["gyptest-a.py" +:+ nl; "test/gyptest-b.py" +:+ nl;
        "test/x/gyptest-a.py" +:+ nl]).
Proof. vm_compute. reflexivity. Qed.

(** The verbose run of the scenario: six children, whose standard error
    reaches that of the script, and the banner before the report. *)
Example verbose_run_in_the_scenario :
  (main (Example.host "linux") Scenario.args_verbose Example.world).1
  = Ret 1%Z
  /\ err (main (Example.host "linux") Scenario.args_verbose Example.world).2
     = ["oops"; "oops"; "oops"; "oops"; "oops"; "oops"]
  /\ take 6 (out (main (Example.host "linux") Scenario.args_verbose
                    Example.world).2)
     = ["Test configuration:" +:+ nl;
        "  Python /usr/bin/python 3.8.10" +:+ nl;
        "  PYTHONPATH=/home/u/test/lib" +:+ nl;
        nl;
        "Extra Gyp options: ['a=1', 'b']" +:+ nl +:+ nl;
        "TAP version 13" +:+ nl]
  /\ map sp_cmd
       (take 1 (spawned (main (Example.host "linux") Scenario.args_verbose
                           Example.world).2))
     = [["/usr/bin/python"; "gyptest-a.py"; "-G"; "a=1"; "-G"; "b"]].
Proof. repeat split; vm_compute; reflexivity. Qed.

(** The witness of X4: the verbose run of the scenario. *)
Lemma main_output_layout_witness :
  exists fl sps,
    format_list (Example.host "linux") Scenario.args_verbose Example.world
    = (Ret fl, Example.world)
    /\ spawned (main (Example.host "linux") Scenario.args_verbose
                  Example.world).2
       = spawned Example.world ++ sps
    /\ out (main (Example.host "linux") Scenario.args_verbose Example.world).2
       = out Example.world
         ++ configuration_info (Example.host "linux")
              (OsPath.abspath (work_dir Scenario.args_verbose Example.world)
                 "test/lib")
         ++ [("Extra Gyp options: "
              +:+ str_list (Example.host "linux") ["a=1"; "b"] +:+ nl)
             +:+ nl]
         ++ ["TAP version 13" +:+ nl;
             ("0.." +:+ Py.fmt_d (length fl * 3)) +:+ nl]
         ++ records (Example.host "linux") true 1 1
              (zip (run_pairs
                      ["gyptest-a.py"; "test/gyptest-b.py";
                       "test/x/gyptest-a.py"] fl) sps)
         ++ failure_block
              (failed_ids
                 (zip (run_pairs
                         ["gyptest-a.py"; "test/gyptest-b.py";
                          "test/x/gyptest-a.py"] fl) sps))
         ++ [summary_line (length fl * 3)
               (Py.fsub
                  (clock (Example.host "linux")
                     (1 + 2 * length
                              (run_pairs
                                 ["gyptest-a.py"; "test/gyptest-b.py";
                                  "test/x/gyptest-a.py"] fl)))
                  (clock (Example.host "linux") 0))
               (length
                  (failed_ids
                     (zip (run_pairs
                             ["gyptest-a.py"; "test/gyptest-b.py";
                              "test/x/gyptest-a.py"] fl) sps)))
             +:+ nl;
             nl].
Proof.
  destruct (main_output_layout (Example.host "linux") Scenario.args_verbose
              Example.world 1%Z)
    as (fl & sps & Hfl & Hsp & _ & Hout).
  - vm_compute. reflexivity.
  - intros [Hnone _]. discriminate Hnone.
  - exists fl, sps. split; [exact Hfl|]. split; [exact Hsp|]. exact Hout.
Defined.

(** The witness of X5: the six children of the scenario. *)
Lemma main_starts_one_child_per_pair_witness :
  exists fl sps,
    format_list (Example.host "linux") Scenario.args_verbose Example.world
    = (Ret fl, Example.world)
    /\ spawned (main (Example.host "linux") Scenario.args_verbose
                  Example.world).2
       = spawned Example.world ++ sps
    /\ length sps = 3 * length fl
    /\ Forall2 (fun p sp =>
                  sp_cmd sp = ["/usr/bin/python"; p.1; "-G"; "a=1"; "-G"; "b"]
                  /\ sp_stderr_piped sp = false)
         (run_pairs
            ["gyptest-a.py"; "test/gyptest-b.py"; "test/x/gyptest-a.py"] fl)
         sps.
Proof.
  destruct (main_starts_one_child_per_pair (Example.host "linux")
              Scenario.args_verbose Example.world 1%Z)
    as (fl & sps & Hfl & Hsp & _ & Hlen & Hcmd & _).
  - vm_compute. reflexivity.
  - intros [Hnone _]. discriminate Hnone.
  - exists fl, sps. split; [exact Hfl|]. split; [exact Hsp|].
    split; [exact Hlen|]. exact Hcmd.
Defined.

(** The witness of X6: the first child of the scenario. *)
Lemma main_children_environment_witness :
  exists sp,
    spawned (main (Example.host "linux") Scenario.args_verbose
               Example.world).2 !! 0
    = Some sp
    /\ sp_env sp !! "PYTHONPATH" = Some "/home/u/test/lib"
    /\ sp_env sp !! "TESTCMD_VERBOSE" = Some "1"
    /\ sp_env sp !! "PATH" = Some "/home/u/tools:/bin"
    /\ sp_env sp !! "HOME" = None.
Proof.
  destruct (spawned (main (Example.host "linux") Scenario.args_verbose
                       Example.world).2 !! 0) as [sp|] eqn:Hsp.
  - destruct (main_children_environment (Example.host "linux")
                Scenario.args_verbose Example.world 0 sp Hsp)
      as (_ & Hpp & Hv & Hpath & Hother).
    exists sp. split; [reflexivity|]. split; [exact Hpp|].
    split; [exact Hv|]. split; [exact Hpath|].
    rewrite Hother; [reflexivity|]. vm_compute. intros Hin.
    repeat (inversion Hin as [|? ? ? Hin']; subst; clear Hin;
            rename Hin' into Hin).
  - vm_compute in Hsp. discriminate Hsp.
Defined.

(** The witness of X16: the first child of the scenario, started in
    [/home/u]. *)
Lemma main_hands_absolute_paths_witness :
  exists sp,
    spawned (main (Example.host "linux") Scenario.args_verbose
               Example.world).2 !! 0
    = Some sp
    /\ Py.startswith
         (cwd (main (Example.host "linux") Scenario.args_verbose
                 Example.world).2) "/" = true
    /\ (exists v, sp_env sp !! "PYTHONPATH" = Some v
                  /\ Py.startswith v "/" = true).
Proof.
  destruct (spawned (main (Example.host "linux") Scenario.args_verbose
                       Example.world).2 !! 0) as [sp|] eqn:Hsp.
  - destruct (main_hands_absolute_paths (Example.host "linux")
                Scenario.args_verbose Example.world 0 sp eq_refl Hsp)
      as (Hcwd & Hpp & _).
    exists sp. split; [reflexivity|]. split; [exact Hcwd|exact Hpp].
  - vm_compute in Hsp. discriminate Hsp.
Defined.

(** The witness of X7: the format is not set in the environment of the
    script. *)
Lemma main_changes_two_variables_only_witness :
  environ (main (Example.host "linux") Scenario.args_verbose
             Example.world).2
    !! "TESTGYP_FORMAT"
  = environ Example.world !! "TESTGYP_FORMAT".
Proof.
  apply main_changes_two_variables_only; intros Heq; discriminate Heq.
Defined.

(** The witness of X11: the directory [test] holds a [README] only. *)
Lemma main_with_no_test_found_witness :
  (main Scenario.empty_host Example.args_all Example.world).1 = Ret 0%Z
  /\ spawned (main Scenario.empty_host Example.args_all Example.world).2 = []
  /\ out (main Scenario.empty_host Example.args_all Example.world).2
     = ["TAP version 13" +:+ nl; "0..0" +:+ nl;
        "Ran 0 tests in 0.250s, 0 failed." +:+ nl; nl].
Proof.
  destruct (main_with_no_test_found Scenario.empty_host Example.args_all
              Example.world ["make"; "ninja"])
    as (Hcode & Hsp & _ & Hout).
  - split; [reflexivity|]. left. reflexivity.
  - intros [_ Hall]. discriminate Hall.
  - reflexivity.
  - vm_compute. reflexivity.
  - vm_compute. reflexivity.
  - split; [exact Hcode|]. split; [exact Hsp|].
    rewrite Hout. vm_compute. reflexivity.
Defined.

(** The witness of X12: a file found in a sub-directory. *)
Lemma discovered_paths_are_test_names_witness :
  is_test_name (OsPath.basename "test/x/gyptest-a.py") = true
  /\ valid_arg Example.bare_host "/home/u" "test/x/gyptest-a.py" = true.
Proof.
  apply (discovered_paths_are_test_names Example.bare_host "/home/u" "test"
           [File "gyptest-b.py";
            Subdir "x" [File "gyptest-a.py"; File "README"]]).
  - reflexivity.
  - apply list_elem_of_In. vm_compute. right. left. reflexivity.
Defined.

